(** * analyticsAI backend: a shallow embedding and its checked properties

    The development follows the layout of the backend:
    - [PyStr]    the Python string operations the routes rely on;
    - [Auth]     models/user.py, models/session.py and routes/auth.py;
    - [Storage]  routes/data.py over a model of the object store;
    - [CodeGen]  routes/code_generation.py: identifier mapping, generation
                 boundary, child-process run, result extraction, rendering.

    External libraries (bcrypt, hashlib, pandas, json, the hosted model, the
    storage provider) are taken as Section variables; everything the
    repository itself computes is a definition that evaluates. *)

From Stdlib Require Import ZArith QArith Lia Bool List Ascii String.
From stdpp Require Import gmap strings.
Import ListNotations.
Open Scope string_scope.

(** ** Python values shared by the modules *)

(** Exceptions as the routes see them: FastAPI's [HTTPException] carries a
    status code and a detail, any other exception a class name and the text
    [str(e)] produces. *)
Inductive pyexn : Type :=
| HTTPException (status_code : Z) (detail : string)
| PyError (cls : string) (msg : string).

Inductive pyresult (A : Type) : Type :=
| Ok (a : A)
| Raise (e : pyexn).
Arguments Ok {A} a.
Arguments Raise {A} e.

Definition bind {A B : Type} (r : pyresult A) (k : A -> pyresult B) : pyresult B :=
  match r with
  | Ok a => k a
  | Raise e => Raise e
  end.

Notation "x <- r ;; k" := (bind r (fun x => k))
  (at level 100, r at next level, right associativity).


(** An insertion-ordered dictionary with string keys (a Python [dict]):
    assigning to a key that is present replaces the value where the key
    stands; a new key goes to the end. *)
Definition pydict (V : Type) : Type := list (string * V).

Fixpoint dict_get {V : Type} (d : pydict V) (k : string) : option V :=
  match d with
  | [] => None
  | (k', v) :: d' => if String.eqb k' k then Some v else dict_get d' k
  end.

Fixpoint dict_set {V : Type} (d : pydict V) (k : string) (v : V) : pydict V :=
  match d with
  | [] => [(k, v)]
  | (k', v') :: d' =>
      if String.eqb k' k then (k', v) :: d' else (k', v') :: dict_set d' k v
  end.

Definition dict_mem {V : Type} (d : pydict V) (k : string) : bool :=
  match dict_get d k with Some _ => true | None => false end.

Definition dict_keys {V : Type} (d : pydict V) : list string := map fst d.

(** A dictionary holds each key once. *)
Definition dict_wf {V : Type} (d : pydict V) : Prop := List.NoDup (dict_keys d).

Definition dict_of_list {V : Type} (kvs : list (string * V)) : pydict V :=
  fold_left (fun d kv => dict_set d (fst kv) (snd kv)) kvs [].

(** ** Python string operations *)

Module PyStr.

Definition LF : string := String "010"%char EmptyString.
Definition dq : string := String "034"%char EmptyString.
Definition backslash : string := String "092"%char EmptyString.

Definition code (c : ascii) : nat := nat_of_ascii c.

Definition in_range (lo hi : nat) (c : ascii) : bool :=
  (lo <=? code c)%nat && (code c <=? hi)%nat.

Definition is_ascii_lower (c : ascii) : bool := in_range 97 122 c.
Definition is_ascii_upper (c : ascii) : bool := in_range 65 90 c.
Definition is_ascii_digit (c : ascii) : bool := in_range 48 57 c.

(** [c.isdigit()] on a code point below 256: the ASCII digits and the
    superscripts one, two and three. *)
Definition isdigit (c : ascii) : bool :=
  is_ascii_digit c
  || (code c =? 178)%nat || (code c =? 179)%nat || (code c =? 185)%nat.

(** [c.isspace()] on a code point below 256. *)
Definition isspace (c : ascii) : bool :=
  in_range 9 13 c || in_range 28 32 c
  || (code c =? 133)%nat || (code c =? 160)%nat.

(** [c.lower()] on a code point below 256. *)
Definition lower_char (c : ascii) : ascii :=
  if is_ascii_upper c
     || (in_range 192 222 c && negb (code c =? 215)%nat)
  then ascii_of_nat (code c + 32)
  else c.

Fixpoint lower (s : string) : string :=
  match s with
  | EmptyString => EmptyString
  | String c s' => String (lower_char c) (lower s')
  end.

(** [s.startswith(pat)] *)
Fixpoint startswith (pat s : string) : bool :=
  match pat, s with
  | EmptyString, _ => true
  | String a pat', String b s' => Ascii.eqb a b && startswith pat' s'
  | String _ _, EmptyString => false
  end.

(** [s.find(pat)]: the least index where [pat] occurs, [-1] when none. *)
Fixpoint find (pat s : string) : Z :=
  if startswith pat s then 0%Z
  else match s with
       | EmptyString => (-1)%Z
       | String _ s' =>
           let r := find pat s' in
           if (r <? 0)%Z then (-1)%Z else (r + 1)%Z
       end.

(** [pat in s] *)
Definition contains (pat s : string) : bool := (0 <=? find pat s)%Z.

Fixpoint drop (n : nat) (s : string) : string :=
  match n, s with
  | O, _ => s
  | S n', String _ s' => drop n' s'
  | S _, EmptyString => EmptyString
  end.

Fixpoint take (n : nat) (s : string) : string :=
  match n, s with
  | S n', String c s' => String c (take n' s')
  | _, _ => EmptyString
  end.

(** A slice bound as Python normalises it: negative bounds count from
    the end, and the result is clamped to [0, len]. *)
Definition clamp_index (len i : Z) : Z :=
  let i' := if (i <? 0)%Z then (i + len)%Z else i in
  Z.max 0 (Z.min len i').

(** [s[i:j]] *)
Definition slice (s : string) (i j : Z) : string :=
  let len := Z.of_nat (String.length s) in
  let a := clamp_index len i in
  let b := clamp_index len j in
  take (Z.to_nat (b - a)) (drop (Z.to_nat a) s).

(** [s[:n]] *)
Definition slice_to (s : string) (n : Z) : string := slice s 0 n.

Fixpoint lstrip (s : string) : string :=
  match s with
  | EmptyString => EmptyString
  | String c s' => if isspace c then lstrip s' else s
  end.

Fixpoint rstrip (s : string) : string :=
  match s with
  | EmptyString => EmptyString
  | String c s' =>
      match rstrip s' with
      | EmptyString => if isspace c then EmptyString else String c EmptyString
      | r => String c r
      end
  end.

(** [s.strip()] *)
Definition strip (s : string) : string := rstrip (lstrip s).

(** [s.replace(old, new)] for a one-character [old]. *)
Fixpoint replace_char (old : ascii) (new : string) (s : string) : string :=
  match s with
  | EmptyString => EmptyString
  | String c s' =>
      if Ascii.eqb c old then new ++ replace_char old new s'
      else String c (replace_char old new s')
  end.

(** [s.replace(old, new)] for a non-empty [old]: leftmost occurrences,
    not overlapping. The fuel is the length of [s]. *)
Fixpoint replace_fuel (fuel : nat) (old new s : string) : string :=
  match fuel with
  | O => s
  | S fuel' =>
      match s with
      | EmptyString => EmptyString
      | String c s' =>
          if startswith old s
          then new ++ replace_fuel fuel' old new (drop (String.length old) s)
          else String c (replace_fuel fuel' old new s')
      end
  end.

Definition replace (old new s : string) : string :=
  match old with
  | EmptyString => s
  | _ => replace_fuel (String.length s) old new s
  end.

(** [s.split(sep)] for a one-character separator: never empty. *)
Fixpoint split (sep : ascii) (s : string) : list string :=
  match s with
  | EmptyString => [EmptyString]
  | String c s' =>
      if Ascii.eqb c sep then EmptyString :: split sep s'
      else match split sep s' with
           | [] => [String c EmptyString]
           | w :: ws => String c w :: ws
           end
  end.

(** [sep.join(parts)] *)
Fixpoint join (sep : string) (parts : list string) : string :=
  match parts with
  | [] => EmptyString
  | [p] => p
  | p :: ps => p ++ sep ++ join sep ps
  end.

Fixpoint all_chars (p : ascii -> bool) (s : string) : bool :=
  match s with
  | EmptyString => true
  | String c s' => p c && all_chars p s'
  end.

(** Decimal text of a natural number, as [str(n)] prints it. *)
Definition digit_char (d : nat) : ascii := ascii_of_nat (48 + d).

Fixpoint digits_fuel (fuel : nat) (n : N) (acc : string) : string :=
  match fuel with
  | O => acc
  | S fuel' =>
      let acc' := String (digit_char (N.to_nat (n mod 10))) acc in
      if (n <? 10)%N then acc' else digits_fuel fuel' (n / 10)%N acc'
  end.

Definition str_of_N (n : N) : string :=
  digits_fuel (S (N.to_nat (N.log2 n))) n EmptyString.

Definition str_of_Z (z : Z) : string :=
  if (z <? 0)%Z then "-" ++ str_of_N (Z.abs_N z) else str_of_N (Z.abs_N z).

(** No line break in a pattern. *)
Definition no_line_feed (pat : string) : bool :=
  all_chars (fun c => negb (Ascii.eqb c "010"%char)) pat.

(** A text made of complete lines: empty, or ending in a line break. *)
Definition complete_lines (s : string) : Prop :=
  s = EmptyString \/ exists s0, s = s0 ++ LF.

End PyStr.

(** [str(e)] for an exception caught by [except Exception as e]; an
    [HTTPException] prints its status code and its detail. *)
Definition str_exn (e : pyexn) : string :=
  match e with
  | HTTPException status_code detail =>
      PyStr.str_of_Z status_code ++ ": " ++ detail
  | PyError _ msg => msg
  end.

(** ** Credential and session service
    (models/user.py, models/session.py, routes/auth.py) *)

Module Auth.

(** A naive UTC [datetime]: Python compares two of them field by field,
    most significant first. [datetime_wf] bounds each field by the width
    isoformat prints it in (every Python datetime is within them). *)
Record datetime : Type := mk_datetime {
  year : nat; month : nat; day : nat;
  hour : nat; minute : nat; second : nat; microsecond : nat
}.

Definition datetime_wf (d : datetime) : Prop :=
  (year d < 10 ^ 4 /\ month d < 10 ^ 2 /\ day d < 10 ^ 2 /\ hour d < 10 ^ 2
   /\ minute d < 10 ^ 2 /\ second d < 10 ^ 2 /\ microsecond d < 10 ^ 6)%nat.

Definition lex (c : comparison) (rest : comparison) : comparison :=
  match c with Eq => rest | _ => c end.

Definition datetime_compare (a b : datetime) : comparison :=
  lex (Nat.compare (year a) (year b))
 (lex (Nat.compare (month a) (month b))
 (lex (Nat.compare (day a) (day b))
 (lex (Nat.compare (hour a) (hour b))
 (lex (Nat.compare (minute a) (minute b))
 (lex (Nat.compare (second a) (second b))
      (Nat.compare (microsecond a) (microsecond b))))))).

(** [a < b] on datetimes. *)
Definition datetime_lt (a b : datetime) : Prop := datetime_compare a b = Lt.

(** [w] decimal digits of [n], zero padded (the [%0wd] of isoformat). *)
Fixpoint zpad (w n : nat) : string :=
  match w with
  | O => EmptyString
  | S w' => String (PyStr.digit_char (n / 10 ^ w')) (zpad w' (n mod 10 ^ w'))
  end.

(** The fraction of a second: printed only when it is not zero. *)
Definition fraction (us : nat) : string :=
  match us with
  | O => EmptyString
  | _ => "." ++ zpad 6 us
  end.

(** [d.isoformat()] *)
Definition isoformat (d : datetime) : string :=
  zpad 4 (year d) ++ "-" ++ zpad 2 (month d) ++ "-" ++ zpad 2 (day d)
  ++ "T" ++ zpad 2 (hour d) ++ ":" ++ zpad 2 (minute d) ++ ":"
  ++ zpad 2 (second d) ++ fraction (microsecond d).

(** Rows of the two tables, columns in the order of CREATE TABLE. *)
Record user_row : Type := mk_user {
  u_id : Z; u_username : string; u_password : string; u_name : string
}.

Record session_row : Type := mk_session {
  s_id : Z; s_user_id : Z; s_token_hash : string;
  s_expires_at : string; s_is_active : Z
}.

(** The store: each table in rowid order. *)
Record database : Type := mk_db {
  users : list user_row;
  user_sessions : list session_row
}.

(** The rowid SQLite gives to an inserted row: one past the largest. *)
Definition next_rowid (ids : list Z) : Z :=
  (fold_right Z.max 0 ids + 1)%Z.

(** TEXT columns compare byte by byte. *)
Definition text_lt (a b : string) : bool := String.ltb a b.

Definition deactivate (s : session_row) : session_row :=
  mk_session (s_id s) (s_user_id s) (s_token_hash s) (s_expires_at s) 0.

(** The payload of a successful verify. *)
Record verified : Type := mk_verified {
  valid : bool; v_user_id : Z; v_username : string; v_name : string
}.

(** The answer to a token with no usable session. *)
Definition unauthorized : pyresult verified :=
  Raise (HTTPException 401 "Invalid or expired token").

(** The answer to a login that does not match. *)
Definition bad_credentials : pyresult string :=
  Raise (HTTPException 400 "Incorrect username or password").

Section Routes.

(** [hashlib.sha256(token.encode()).hexdigest()] *)
Variable sha256_hexdigest : string -> string.
(** [bcrypt.hashpw(password, salt)] and [bcrypt.checkpw] *)
Variable bcrypt_hashpw : string -> string -> string.
Variable bcrypt_checkpw : string -> string -> bool.
(** [d + timedelta(days=7)] *)
Variable plus_7_days : datetime -> datetime.

(** models/user.py. [salt] is the value [bcrypt.gensalt()] drew. *)
Definition User_find_by_username (db : database) (username : string)
  : option user_row :=
  List.find (fun u => String.eqb (u_username u) username) (users db).

Definition User_find_by_id (db : database) (user_id : Z) : option user_row :=
  List.find (fun u => Z.eqb (u_id u) user_id) (users db).

Definition User_create (db : database) (name username password salt : string)
  : database * Z :=
  let hashed_password := bcrypt_hashpw password salt in
  let user_id := next_rowid (map u_id (users db)) in
  (mk_db (users db ++ [mk_user user_id username hashed_password name])
         (user_sessions db),
   user_id).

(** models/session.py. [token] is the value [secrets.token_hex(16)]
    drew and [now] the value of [datetime.utcnow()]. *)
Definition Session_create (db : database) (user_id : Z) (token : string)
    (now : datetime) : database * string :=
  let token_hash := sha256_hexdigest token in
  let expires_at := plus_7_days now in
  let sid := next_rowid (map s_id (user_sessions db)) in
  (mk_db (users db)
         (user_sessions db
          ++ [mk_session sid user_id token_hash (isoformat expires_at) 1]),
   token).

Definition session_matches (token_hash now_text : string) (s : session_row)
  : bool :=
  String.eqb (s_token_hash s) token_hash
  && Z.eqb (s_is_active s) 1
  && text_lt now_text (s_expires_at s).

Definition Session_find_by_token (db : database) (token : string)
    (now : datetime) : option session_row :=
  let token_hash := sha256_hexdigest token in
  List.find (session_matches token_hash (isoformat now)) (user_sessions db).

Definition expired_and_active (now_text : string) (s : session_row) : bool :=
  text_lt (s_expires_at s) now_text && Z.eqb (s_is_active s) 1.

Definition Session_cleanup_expired (db : database) (now : datetime)
  : database * Z :=
  let current_time := isoformat now in
  (mk_db (users db)
         (map (fun s => if expired_and_active current_time s
                        then deactivate s else s)
              (user_sessions db)),
   Z.of_nat (List.length
               (List.filter (expired_and_active current_time)
                            (user_sessions db)))).

(** routes/auth.py *)
Definition register (db : database) (name username password : string)
    (salt token : string) (now : datetime) : database * pyresult string :=
  match User_find_by_username db username with
  | Some _ => (db, Raise (HTTPException 400 "Username already registered"))
  | None =>
      let '(db1, user_id) := User_create db name username password salt in
      let '(db2, token) := Session_create db1 user_id token now in
      (db2, Ok token)
  end.

Definition login (db : database) (username password : string)
    (token : string) (now : datetime) : database * pyresult string :=
  match User_find_by_username db username with
  | None => (db, bad_credentials)
  | Some db_user =>
      let stored_password := u_password db_user in
      if negb (bcrypt_checkpw password stored_password)
      then (db, bad_credentials)
      else
        let '(db1, token) := Session_create db (u_id db_user) token now in
        (db1, Ok token)
  end.

Definition logout (db : database) (token : string)
  : database * pyresult string :=
  let token_hash := sha256_hexdigest token in
  (mk_db (users db)
         (map (fun s => if String.eqb (s_token_hash s) token_hash
                        then deactivate s else s)
              (user_sessions db)),
   Ok "Successfully logged out").

Definition verify_token (db : database) (token : string) (now : datetime)
  : pyresult verified :=
  match Session_find_by_token db token now with
  | None => unauthorized
  | Some session_data =>
      match User_find_by_id db (s_user_id session_data) with
      | None => Raise (HTTPException 401 "User not found")
      | Some user_data =>
          Ok (mk_verified true (s_user_id session_data)
                          (u_username user_data) (u_name user_data))
      end
  end.

(** main.py *)

(** [get_current_user]: the dependency that resolves a bearer token to its
    session row. Its handler catches every exception, the 401 raised inside
    the [try] included. The [WWW-Authenticate] header is left out. *)
Definition get_current_user (db : database) (token : string) (now : datetime)
  : pyresult session_row :=
  let attempt :=
    match Session_find_by_token db token now with
    | None => Raise (HTTPException 401 "Invalid or expired token")
    | Some session_data => Ok session_data
    end in
  match attempt with
  | Ok session_data => Ok session_data
  | Raise _ => Raise (HTTPException 401 "Could not validate credentials")
  end.

(** The startup half of [lifespan] on tables that exist: expired sessions
    are deactivated, and their number is printed when it is positive. *)
Definition lifespan_startup (db : database) (now : datetime)
  : database * option Z :=
  let '(db1, expired_sessions) := Session_cleanup_expired db now in
  (db1, if (expired_sessions >? 0)%Z then Some expired_sessions else None).

(** What changes the store while the application runs: the three routes
    that write, and a start of the application. Each request carries the
    values the handler draws (salt, token, clock). *)
Inductive request : Type :=
| RegisterRequest (name username password salt token : string) (now : datetime)
| LoginRequest (username password token : string) (now : datetime)
| LogoutRequest (token : string)
| Startup (now : datetime).

Definition handle (db : database) (r : request) : database :=
  match r with
  | RegisterRequest name username password salt token now =>
      fst (register db name username password salt token now)
  | LoginRequest username password token now =>
      fst (login db username password token now)
  | LogoutRequest token => fst (logout db token)
  | Startup now => fst (lifespan_startup db now)
  end.

(** A store in which usernames and user ids are unique and every session
    belongs to a user. *)
Definition consistent (db : database) : Prop :=
  List.NoDup (map u_username (users db))
  /\ List.NoDup (map u_id (users db))
  /\ forall s, In s (user_sessions db) ->
       exists u, In u (users db) /\ u_id u = s_user_id s.

(** The store after a run of requests, from the empty tables that
    [initialize] creates in a new file. *)
Definition serve (requests : list request) : database :=
  fold_left handle requests (mk_db [] []).

End Routes.

End Auth.

(** ** Tabular values (pandas) as the routes use them *)

Module Pandas.

(** A Python value held in a cell or produced by [json.loads]. A float
    carries the exact rational value of the (finite) double; [PObj] is any
    other object, given by the text [str] prints for it. *)
Inductive pyval : Type :=
| PNone
| PBool (b : bool)
| PInt (z : Z)
| PFloat (q : Q)
| PStr (s : string)
| PObj (str : string).

(** One record of [to_dict('records')] or of a parsed JSON array. *)
Definition record : Type := pydict pyval.

(** A frame: column labels with the text of their dtype, and the rows.
    Column labels are distinct, as [read_csv] makes them. *)
Record DataFrame : Type := mk_df {
  df_columns : list (string * string);
  df_rows : list (list pyval)
}.

(** [len(df)] *)
Definition len (df : DataFrame) : Z := Z.of_nat (List.length (df_rows df)).

(** [df.head(n)]: the first [n] rows, and for a negative [n] all rows
    but the last [-n]. *)
Definition head (n : Z) (df : DataFrame) : DataFrame :=
  let k := if (n <? 0)%Z then Z.max 0 (len df + n) else n in
  mk_df (df_columns df) (firstn (Z.to_nat k) (df_rows df)).

(** [df.to_dict('records')] *)
Definition to_dict_records (df : DataFrame) : list record :=
  map (fun row => dict_of_list (combine (map fst (df_columns df)) row))
      (df_rows df).

(** [str(df.shape)] *)
Definition shape_str (df : DataFrame) : string :=
  "(" ++ PyStr.str_of_Z (len df) ++ ", "
  ++ PyStr.str_of_Z (Z.of_nat (List.length (df_columns df))) ++ ")".

End Pandas.

(** ** Storage browser (routes/data.py) *)

Module Storage.

Import Pandas.

(** An object of the store: metadata as [list_blobs] reports it (the
    timestamps already in their strftime text) and the content, which is
    a sequence of bytes. *)
Record blob : Type := mk_blob {
  blob_size : Z;
  blob_content_type : option string;
  blob_updated : option string;
  blob_time_created : option string;
  blob_bytes : string
}.

(** The provider: whether Application Default Credentials resolve, whether
    API calls fail, and the objects of every bucket by name. *)
Record provider : Type := mk_provider {
  credentials_error : option string;
  outage : option string;
  buckets : gmap string (gmap string blob)
}.

(** Calls that reach the provider. *)
Inductive call : Type :=
| ClientInit
| BucketExists (bucket_name : string)
| ListBlobs (bucket_name : string)
| BlobExists (bucket_name file_name : string)
| BlobDownload (bucket_name file_name : string)
| BlobDelete (bucket_name file_name : string).

(** A handler runs against the provider, leaves it in a new state, makes
    some calls, and returns or raises. *)
Definition gcs (A : Type) : Type :=
  provider -> provider * list call * pyresult A.

Definition gcs_ret {A : Type} (a : A) : gcs A := fun p => (p, [], Ok a).

Definition gcs_raise {A : Type} (e : pyexn) : gcs A :=
  fun p => (p, [], Raise e).

Definition gcs_bind {A B : Type} (m : gcs A) (k : A -> gcs B) : gcs B :=
  fun p =>
    match m p with
    | (p1, t1, Ok a) =>
        match k a p1 with
        | (p2, t2, r) => (p2, (t1 ++ t2)%list, r)
        end
    | (p1, t1, Raise e) => (p1, t1, Raise e)
    end.

(** The parts of what a handler leaves behind. *)
Definition state_of {A : Type} (r : provider * list call * pyresult A) : provider :=
  fst (fst r).
Definition calls_of {A : Type} (r : provider * list call * pyresult A) : list call :=
  snd (fst r).
Definition result_of {A : Type} (r : provider * list call * pyresult A)
  : pyresult A := snd r.

Notation "x <~ m ;; k" := (gcs_bind m (fun x => k))
  (at level 100, m at next level, right associativity).

(** [try: m  except HTTPException: raise  except Exception as e: h e] *)
Definition reraise_http {A : Type} (m : gcs A) (h : string -> pyexn) : gcs A :=
  fun p =>
    match m p with
    | (p1, t1, Raise (PyError cls msg)) => (p1, t1, Raise (h msg))
    | other => other
    end.

(** [try: m  except Exception: pass], the result kept when there is one. *)
Definition swallow {A : Type} (m : gcs A) : gcs (option A) :=
  fun p =>
    match m p with
    | (p1, t1, Ok a) => (p1, t1, Ok (Some a))
    | (p1, t1, Raise _) => (p1, t1, Ok None)
    end.

(** One API call: it is logged, and fails during an outage. *)
Definition api {A : Type} (c : call) (f : provider -> provider * pyresult A)
  : gcs A :=
  fun p =>
    match outage p with
    | Some msg => (p, [c], Raise (PyError "GoogleAPIError" msg))
    | None => let '(p', r) := f p in (p', [c], r)
    end.

Definition get_gcs_client : gcs unit :=
  fun p =>
    match credentials_error p with
    | Some msg =>
        (p, [ClientInit],
         Raise (HTTPException 500
           ("Failed to initialize GCS client. Make sure you're logged in with 'gcloud auth login': "
            ++ msg)))
    | None => (p, [ClientInit], Ok tt)
    end.

Definition lookup_blob (p : provider) (bucket_name file_name : string)
  : option blob :=
  match buckets p !! bucket_name with
  | Some objs => objs !! file_name
  | None => None
  end.

Definition bucket_exists (bucket_name : string) : gcs bool :=
  api (BucketExists bucket_name)
      (fun p => (p, Ok (match buckets p !! bucket_name with
                        | Some _ => true
                        | None => false
                        end))).

(** The objects of a bucket, each name once, in the order of the map (the
    order of a listing plays no part below). *)
Definition list_blobs (bucket_name : string) : gcs (list (string * blob)) :=
  api (ListBlobs bucket_name)
      (fun p => (p, match buckets p !! bucket_name with
                    | Some objs => Ok (map_to_list objs)
                    | None => Raise (PyError "NotFound" "404 bucket not found")
                    end)).

Definition blob_exists (bucket_name file_name : string) : gcs bool :=
  api (BlobExists bucket_name file_name)
      (fun p => (p, Ok (match lookup_blob p bucket_name file_name with
                        | Some _ => true
                        | None => false
                        end))).

(** The download of an object's bytes, as [download_to_filename] and
    [download_as_text] start with. *)
Definition blob_download_as_bytes (bucket_name file_name : string) : gcs blob :=
  api (BlobDownload bucket_name file_name)
      (fun p => (p, match lookup_blob p bucket_name file_name with
                    | Some b => Ok b
                    | None => Raise (PyError "NotFound" "404 object not found")
                    end)).

Definition blob_delete (bucket_name file_name : string) : gcs unit :=
  api (BlobDelete bucket_name file_name)
      (fun p =>
         match buckets p !! bucket_name with
         | Some objs =>
             match objs !! file_name with
             | Some _ =>
                 (mk_provider (credentials_error p) (outage p)
                    (<[bucket_name := delete file_name objs]> (buckets p)),
                  Ok tt)
             | None => (p, Raise (PyError "NotFound" "404 object not found"))
             end
         | None => (p, Raise (PyError "NotFound" "404 object not found"))
         end).

(** One entry of a file listing; the last three keys are the ones
    [get_combined_files] adds. *)
Record file_entry : Type := mk_file {
  f_name : string;
  f_size : Z;
  f_contentType : option string;
  f_updated : option string;
  f_created : option string;
  f_source : option string;
  f_bucket : option string;
  f_source_info : option string
}.

Definition entry_of_blob (nb : string * blob) : file_entry :=
  mk_file (fst nb) (blob_size (snd nb)) (blob_content_type (snd nb))
          (blob_updated (snd nb)) (blob_time_created (snd nb))
          None None None.

Definition tag (source bucket source_info : string) (f : file_entry)
  : file_entry :=
  mk_file (f_name f) (f_size f) (f_contentType f) (f_updated f) (f_created f)
          (Some source) (Some bucket) (Some source_info).

Definition get_bucket_files (bucket_name : string) : gcs (list file_entry) :=
  reraise_http
    (_ <~ get_gcs_client ;;
     ex <~ bucket_exists bucket_name ;;
     if negb ex
     then gcs_raise (HTTPException 404
                       ("Bucket '" ++ bucket_name ++ "' not found"))
     else
       blobs <~ list_blobs bucket_name ;;
       gcs_ret (map entry_of_blob blobs))
    (fun msg => HTTPException 500 ("Failed to list files: " ++ msg)).

(** The listing of a bucket, empty when the listing fails. *)
Definition listing (p : provider) (bucket_name : string) : list file_entry :=
  match result_of (get_bucket_files bucket_name p) with
  | Ok files => files
  | Raise _ => []
  end.

Definition has_name (name : string) (files : list file_entry) : bool :=
  existsb (fun f => String.eqb (f_name f) name) files.

(** The answer to a delete outside the default bucket. *)
Definition forbidden : pyexn :=
  HTTPException 403
    "File deletion not supported for public buckets. Use authenticated access for write operations.".

(** A column descriptor and the answer of a preview. *)
Record column_info : Type := mk_column {
  c_name : string; c_type : string; c_dtype : string
}.

Inductive preview : Type :=
| PreviewCsv (columns : list column_info) (rows : list record)
             (rowsShown totalRows : Z)
| PreviewJson (body : string)
| PreviewRaw (type_ data : string) (rowsShown totalRows : Z)
             (message : string).

(** The readable name of a pandas dtype. *)
Definition data_type_of (dtype : string) : string :=
  if PyStr.startswith "int" dtype then "int"
  else if PyStr.startswith "float" dtype then "float"
  else if PyStr.startswith "bool" dtype then "bool"
  else if PyStr.startswith "datetime" dtype then "date"
  else "string".

Definition columns_info_of (df : DataFrame) : list column_info :=
  map (fun cd => mk_column (fst cd) (data_type_of (snd cd)) (snd cd))
      (df_columns df).

Section Routes.

(** The configured default bucket. *)
Variable DEFAULT_BUCKET : string.
(** [data.decode(charset)] as [download_as_text] applies it to the bytes
    of an object: the charset is that of the object's content type when the
    client knows one, else UTF-8, and bytes that are no text in it raise
    [UnicodeDecodeError]. *)
Variable bytes_decode : option string -> string -> pyresult string.
(** [pd.read_csv(io.StringIO(content))] *)
Variable read_csv : string -> pyresult DataFrame.
(** The JSON branch of the preview, which no property below concerns:
    the response body it builds from the content and the row count. *)
Variable preview_json : string -> Z -> string.

Definition get_default_bucket_files : gcs (list file_entry) :=
  get_bucket_files DEFAULT_BUCKET.

(** [blob.download_as_text()]: the bytes are downloaded, then decoded. *)
Definition blob_download_as_text (bucket_name file_name : string) : gcs string :=
  b <~ blob_download_as_bytes bucket_name file_name ;;
  match bytes_decode (blob_content_type b) (blob_bytes b) with
  | Ok content => gcs_ret content
  | Raise e => gcs_raise e
  end.

(** The loop over the public listing: a file is appended unless an
    entry of the same name is already in [combined_files]. *)
Fixpoint add_public_files (public_bucket : string)
    (public_files combined_files : list file_entry) : list file_entry :=
  match public_files with
  | [] => combined_files
  | file :: rest =>
      let existing_file :=
        List.find (fun f => String.eqb (f_name f) (f_name file))
                  combined_files in
      match existing_file with
      | Some _ => add_public_files public_bucket rest combined_files
      | None =>
          add_public_files public_bucket rest
            (combined_files
             ++ [tag "public" public_bucket
                     ("Public bucket: " ++ public_bucket) file])%list
      end
  end.

Definition get_combined_files (public_bucket : option string)
  : gcs (list file_entry) :=
  match public_bucket with
  | None => gcs_ret []
  | Some EmptyString => gcs_ret []
  | Some public_bucket =>
      default_files <~ swallow (get_bucket_files DEFAULT_BUCKET) ;;
      let combined_files :=
        match default_files with
        | Some fs =>
            map (tag "uploaded" DEFAULT_BUCKET "Your uploaded files") fs
        | None => []
        end in
      if negb (String.eqb public_bucket DEFAULT_BUCKET)
      then
        public_files <~ swallow (get_bucket_files public_bucket) ;;
        match public_files with
        | Some fs => gcs_ret (add_public_files public_bucket fs combined_files)
        | None => gcs_ret combined_files
        end
      else gcs_ret combined_files
  end.

Definition preview_file (bucket_name file_name : string) (rows : Z)
  : gcs preview :=
  reraise_http
    (_ <~ get_gcs_client ;;
     ex <~ blob_exists bucket_name file_name ;;
     if negb ex
     then gcs_raise (HTTPException 404
            ("File '" ++ file_name ++ "' not found in bucket '"
             ++ bucket_name ++ "'"))
     else
       content <~ blob_download_as_text bucket_name file_name ;;
       let file_extension :=
         List.last (PyStr.split "." (PyStr.lower file_name)) EmptyString in
       if String.eqb file_extension "csv" then
         match read_csv content with
         | Raise e => gcs_raise e
         | Ok df =>
             let preview_rows := to_dict_records (head rows df) in
             let columns_info := columns_info_of df in
             gcs_ret (PreviewCsv columns_info preview_rows
                                 (Z.min rows (len df)) (len df))
         end
       else if String.eqb file_extension "json" then
         gcs_ret (PreviewJson (preview_json content rows))
       else
         let preview_data :=
           if (2000 <? Z.of_nat (String.length content))%Z
           then PyStr.slice_to content 2000 ++ "..."
           else content in
         gcs_ret (PreviewRaw file_extension preview_data 0 0
                    ("Raw preview of " ++ file_extension ++ " file")))
    (fun msg => HTTPException 500 ("Failed to preview file: " ++ msg)).

Definition delete_file (bucket_name file_name : string) : gcs string :=
  reraise_http
    (if String.eqb bucket_name DEFAULT_BUCKET then
       _ <~ get_gcs_client ;;
       ex <~ blob_exists bucket_name file_name ;;
       if negb ex
       then gcs_raise (HTTPException 404
                         ("File '" ++ file_name ++ "' not found"))
       else
         _ <~ blob_delete bucket_name file_name ;;
         gcs_ret ("File '" ++ file_name ++ "' deleted successfully")
     else
       gcs_raise forbidden)
    (fun msg => HTTPException 500 ("Failed to delete file: " ++ msg)).

(** [blob.upload_from_string(content, content_type=...)]: the object is
    written, replacing one of the same name, in a bucket that exists.
    [stamp] is the provider's time of the write in its strftime text; a
    content type that is not given is stored as the client's default. *)
Definition blob_upload_from_string (bucket_name file_name content : string)
    (content_type : option string) (stamp : string) (p : provider)
  : provider * pyresult unit :=
  match outage p with
  | Some msg => (p, Raise (PyError "GoogleAPIError" msg))
  | None =>
      match buckets p !! bucket_name with
      | None => (p, Raise (PyError "NotFound" "404 bucket not found"))
      | Some objs =>
          let b :=
            mk_blob (Z.of_nat (String.length content))
                    (Some (default "application/octet-stream" content_type))
                    (Some stamp) (Some stamp) content in
          (mk_provider (credentials_error p) (outage p)
             (<[bucket_name := <[file_name := b]> objs]> (buckets p)),
           Ok tt)
      end
  end.

(** The answer to an upload. *)
Record upload_info : Type := mk_upload {
  up_message : string;
  up_filename : string;
  up_size : Z;
  up_contentType : option string
}.

(** [upload_to_default_bucket], by state passing: [filename] and
    [content_type] are those of the uploaded part, [content] what
    [file.read()] returns. The handler has one [except Exception], which
    also catches the [HTTPException]s raised inside the [try]. *)
Definition upload_to_default_bucket (filename : option string)
    (content : string) (content_type : option string) (stamp : string)
    (p : provider) : provider * pyresult upload_info :=
  let attempt : provider * pyresult upload_info :=
    match filename with
    | None | Some EmptyString =>
        (p, Raise (HTTPException 400 "No filename provided"))
    | Some name =>
        if (Z.of_nat (String.length content) =? 0)%Z
        then (p, Raise (HTTPException 400 "Empty file provided"))
        else
          match result_of (get_gcs_client p) with
          | Raise e => (p, Raise e)
          | Ok _ =>
              match blob_upload_from_string DEFAULT_BUCKET name content
                                            content_type stamp p with
              | (p1, Raise e) => (p1, Raise e)
              | (p1, Ok _) =>
                  (p1,
                   Ok (mk_upload ("File '" ++ name ++ "' uploaded successfully")
                                 name (Z.of_nat (String.length content))
                                 content_type))
              end
          end
    end in
  match attempt with
  | (p1, Raise e) =>
      (p1, Raise (HTTPException 500 ("Failed to upload file: " ++ str_exn e)))
  | done => done
  end.

End Routes.

End Storage.

(** ** Code generation and execution pipeline (routes/code_generation.py) *)

Module CodeGen.

Import Pandas.

Inductive language : Type := python | sql.

Definition language_str (l : language) : string :=
  match l with python => "python" | sql => "sql" end.

(** A selected file as the request carries it: a JSON object of strings. *)
Definition file_info : Type := gmap string string.

Record mapping_entry : Type := mk_entry {
  m_filename : string; m_bucket : string; m_source : string
}.

Record CodeGenerationRequest : Type := mk_gen_request {
  g_question : string;
  g_language : language;
  g_selected_files : list file_info
}.

Record CodeExecutionRequest : Type := mk_exec_request {
  x_code : string;
  x_language : language;
  x_selected_files : list file_info
}.

Record CodeGenerationResponse : Type := mk_gen_response {
  r_code : string; r_success : bool; r_error : option string
}.

Record CodeExecutionResponse : Type := mk_exec_response {
  e_success : bool; e_table_html : option string; e_error : option string
}.

(** The response that carries an error. *)
Definition failure_response (error : string) : CodeExecutionResponse :=
  mk_exec_response false None (Some error).

(** *** Identifier of a selected file *)

Definition is_alnum_ascii (c : ascii) : bool :=
  PyStr.is_ascii_lower c || PyStr.is_ascii_upper c || PyStr.is_ascii_digit c.

(** [re.sub(r'[^a-zA-Z0-9]', '_', s)] *)
Fixpoint re_sub_non_alnum (s : string) : string :=
  match s with
  | EmptyString => EmptyString
  | String c s' =>
      String (if is_alnum_ascii c then c else "_"%char) (re_sub_non_alnum s')
  end.

(** A character of a sanitized name: a lowercase letter, a digit or an
    underscore. *)
Definition is_identifier_char (c : ascii) : bool :=
  PyStr.is_ascii_lower c || PyStr.is_ascii_digit c || Ascii.eqb c "_"%char.

(** The variable name made from a filename; [variable_name[0]] raises
    on the empty string. *)
Definition variable_name_of (filename : string) : pyresult string :=
  let variable_name :=
    PyStr.lower
      (re_sub_non_alnum (List.hd EmptyString (PyStr.split "." filename))) in
  match variable_name with
  | EmptyString => Raise (PyError "IndexError" "string index out of range")
  | String c _ =>
      Ok (if PyStr.isdigit c then "df_" ++ variable_name else variable_name)
  end.

(** *** The child process *)

(** What a global name of the child is bound to. *)
Inductive pyobj : Type :=
| ONone
| OModule (name : string)
| ODataFrame (df : DataFrame)
| OOther (type_name : string).

Definition globals : Type := pydict pyobj.

(** The script is represented by what running it does: it binds global
    names, prints lines (of text without carriage returns, which the text
    mode of the parent would read as line feeds), and may end before its last
    line: in an uncaught
    exception (the interpreter then prints the traceback and exits with
    status 1), in an exit with a status of its own ([sys.exit], or a script
    that does not compile, which prints nothing and exits with status 1),
    or by still running when the 30 seconds of [timeout=30] are over. *)
Inductive stmt : Type :=
| Assign (name : string) (value : pyobj)
| PrintLine (line : string)
| Uncaught (traceback : string)
| Exit (returncode : Z) (stderr : string)
| Hang.

Inductive child_state : Type :=
| Finished (g : globals) (stdout : string)
| Exited (returncode : Z) (stdout stderr : string)
| Hung.

Fixpoint run_stmts (prog : list stmt) (g : globals) (out : string)
  : child_state :=
  match prog with
  | [] => Finished g out
  | Assign name value :: rest => run_stmts rest (dict_set g name value) out
  | PrintLine line :: rest => run_stmts rest g (out ++ line ++ PyStr.LF)
  | Uncaught traceback :: _ => Exited 1 out traceback
  | Exit returncode stderr :: _ => Exited returncode out stderr
  | Hang :: _ => Hung
  end.

(** What [subprocess.run(..., capture_output=True, timeout=...)] gives:
    the completed process, or the exception raised when the child is still
    running after [timeout] seconds. *)
Inductive run_outcome : Type :=
| Completed (returncode : Z) (stdout stderr : string)
| TimeoutExpired (timeout : Z).

(** The budget the kernel function gives the child, in seconds. *)
Definition KERNEL_TIMEOUT : Z := 30.

Definition SUCCESS_JSON_START : string := "SUCCESS_JSON_START".
Definition SUCCESS_JSON_END : string := "SUCCESS_JSON_END".

Definition is_dataframe (o : pyobj) : bool :=
  match o with ODataFrame _ => true | _ => false end.

Definition type_name_of (o : pyobj) : string :=
  match o with
  | ONone => "NoneType"
  | OModule _ => "module"
  | ODataFrame _ => "DataFrame"
  | OOther t => t
  end.

(** The exception of a call of an object that cannot be called. *)
Definition not_callable (o : pyobj) : pyexn :=
  PyError "TypeError" ("'" ++ type_name_of o ++ "' object is not callable").

(** The exception of reading, from [None], an attribute it does not have. *)
Definition none_has_no (attribute : string) : pyexn :=
  PyError "AttributeError"
          ("'NoneType' object has no attribute '" ++ attribute ++ "'").

(** The built-in functions the appended lines call. They look the names up
    in the globals of the script first, so a script that binds one of them
    at its top level replaces the built-in for the appended lines. *)
Definition builtin_names : list string :=
  [ "globals"; "list"; "isinstance"; "print" ].

(** The names a script has to leave alone for the appended lines to reach
    those functions: the names themselves and [__builtins__], under which
    the interpreter finds the built-in functions. *)
Definition guarded_names : list string := "__builtins__" :: builtin_names.

(** [[name for name, val in list(globals().items())
      if isinstance(val, pd.DataFrame)]] *)
Definition candidate_names (g : globals) : list string :=
  map fst (List.filter (fun kv => is_dataframe (snd kv)) g).

(** [if 'ans_df' not in globals() and _candidate_names:
       ans_df = globals()[_candidate_names[-1]]] *)
Definition auto_select (_candidate_names : list string) (g : globals)
  : globals :=
  match _candidate_names with
  | [] => g
  | _ =>
      if dict_mem g "ans_df" then g
      else match dict_get g (List.last _candidate_names EmptyString) with
           | Some v => dict_set g "ans_df" v
           | None => g
           end
  end.


Definition binds (name : string) (s : stmt) : bool :=
  match s with
  | Assign n _ => String.eqb n name
  | _ => false
  end.

Definition binds_dataframe (s : stmt) : bool :=
  match s with
  | Assign _ (ODataFrame _) => true
  | _ => false
  end.

Definition binds_builtin (s : stmt) : bool :=
  existsb (fun name => binds name s) guarded_names.

(** No built-in name of the appended lines is bound in the globals. *)
Definition builtins_unbound (g : globals) : bool :=
  forallb (fun name => negb (dict_mem g name)) guarded_names.

Definition ends_run (s : stmt) : bool :=
  match s with
  | Uncaught _ | Exit _ _ | Hang => true
  | _ => false
  end.

(** A name other than [k]. *)
Definition other_than (k : string) (n : string) : bool := negb (String.eqb n k).

(** A statement that lets the run go on and binds none of [ans_df], [pd]
    and [name], nor a built-in name of the appended lines. *)
Definition untouched (name : string) (s : stmt) : bool :=
  negb (binds "ans_df" s) && negb (binds "pd" s) && negb (binds name s)
  && negb (binds_builtin s) && negb (ends_run s).

(** Such a statement that binds no frame either. *)
Definition quiet (name : string) (s : stmt) : bool :=
  untouched name s && negb (binds_dataframe s).

(** A statement that lets the run go on and leaves [pd] and the built-in
    names of the appended lines as they are. *)
Definition harmless (s : stmt) : bool :=
  negb (binds "pd" s) && negb (binds_builtin s) && negb (ends_run s).

(** *** Python source of the fallback *)

(** No line break in the text. *)
Definition one_line (s : string) : bool :=
  PyStr.all_chars (fun c => negb (Ascii.eqb c "010"%char
                                  || Ascii.eqb c "013"%char)) s.

(** The value of a single-quoted literal whose opening quote was read, and
    what follows its closing quote. A raw line break ends the line inside
    the literal, which is a syntax error; of the escapes only those of the
    backslash and of the two quotes are followed, any other gives no
    value. *)
Fixpoint single_quoted (s : string) : option (string * string) :=
  match s with
  | EmptyString => None
  | String c s' =>
      if Ascii.eqb c "'"%char then Some (EmptyString, s')
      else if Ascii.eqb c "010"%char || Ascii.eqb c "013"%char
      then None
      else if Ascii.eqb c "092"%char then
        match s' with
        | String e s'' =>
            if Ascii.eqb e "'"%char || Ascii.eqb e "092"%char
               || Ascii.eqb e "034"%char
            then match single_quoted s'' with
                 | Some (v, rest) => Some (String e v, rest)
                 | None => None
                 end
            else None
        | EmptyString => None
        end
      else match single_quoted s' with
           | Some (v, rest) => Some (String c v, rest)
           | None => None
           end
  end.

(** A character that needs no care inside a single-quoted literal: no
    backslash and no line break. *)
Definition benign_char (c : ascii) : bool :=
  negb (Ascii.eqb c "092"%char || Ascii.eqb c "010"%char
        || Ascii.eqb c "013"%char).

(** What a source of the form [print('...')] prints when it is run, and
    nothing when the source is not of that form. *)
Definition print_statement_output (source : string) : option string :=
  if PyStr.startswith "print('" source then
    match single_quoted (PyStr.drop 7 source) with
    | Some (v, rest) => if String.eqb rest ")" then Some v else None
    | None => None
    end
  else None.

(** The result of a request handled by the kernel function. *)
Inductive kernel_result : Type :=
| KSuccess (data : list record)
| KFailure (error : string).

(** *** Rendering *)

Fixpoint group3 (rev_digits : list ascii) : list ascii :=
  match rev_digits with
  | a :: b :: c :: ((_ :: _) as rest) => a :: b :: c :: ","%char :: group3 rest
  | _ => rev_digits
  end.

(** Thousands separators in a string of digits. *)
Definition group_thousands (digits : string) : string :=
  string_of_list_ascii (rev (group3 (rev (list_ascii_of_string digits)))).

(** [f"{z:,}"] *)
Definition format_int (z : Z) : string :=
  (if (z <? 0)%Z then "-" else EmptyString)
  ++ group_thousands (PyStr.str_of_N (Z.abs_N z)).

(** The integer nearest to [n / d], ties to even, for [0 <= n], [0 < d]. *)
Definition round_half_even (n d : Z) : Z :=
  let fl := (n / d)%Z in
  let r := (n mod d)%Z in
  match (2 * r ?= d)%Z with
  | Lt => fl
  | Gt => (fl + 1)%Z
  | Eq => if Z.even fl then fl else (fl + 1)%Z
  end.

Definition two_digits (n : Z) : string :=
  (if (n <? 10)%Z then "0" else EmptyString) ++ PyStr.str_of_N (Z.to_N n).

(** [f"{q:,.2f}"] *)
Definition format_2f (q : Q) : string :=
  let scaled := round_half_even (Z.abs (Qnum q) * 100) (Zpos (Qden q)) in
  (if (Qnum q <? 0)%Z then "-" else EmptyString)
  ++ group_thousands (PyStr.str_of_N (Z.to_N (scaled / 100)))
  ++ "." ++ two_digits (scaled mod 100).

(** [value != int(value)] *)
Definition fractional (q : Q) : bool :=
  negb ((Qnum q mod Zpos (Qden q)) =? 0)%Z.

(** [int(q)]: truncation towards zero. *)
Definition int_of_float (q : Q) : Z := Z.quot (Qnum q) (Zpos (Qden q)).

(** The text a cell shows: numbers ([bool] is an [int]) formatted, any
    other value through [str]. *)
Definition format_value (value : pyval) : string :=
  match value with
  | PFloat q =>
      if fractional q then format_2f q else format_int (int_of_float q)
  | PInt z => format_int z
  | PBool b => format_int (if b then 1 else 0)
  | PNone => "None"
  | PStr s => s
  | PObj s => s
  end.

Definition NO_DATA : string := "<p>No data to display</p>".

Definition table_open : string :=
  "
    <table class=" ++ PyStr.dq ++ "min-w-full divide-y divide-gray-200" ++ PyStr.dq ++ ">
        <thead class=" ++ PyStr.dq ++ "bg-gray-50" ++ PyStr.dq ++ ">
            <tr>
    ".

Definition table_middle : string :=
  "
            </tr>
        </thead>
        <tbody class=" ++ PyStr.dq ++ "bg-white divide-y divide-gray-200" ++ PyStr.dq ++ ">
    ".

Definition table_close : string :=
  "
        </tbody>
    </table>
    ".

Definition th (col : string) : string :=
  "<th class=" ++ PyStr.dq ++ "px-6 py-3 text-left text-xs font-medium text-gray-500 uppercase tracking-wider" ++ PyStr.dq ++ ">" ++ col ++ "</th>
".

Definition td (value : string) : string :=
  "<td class=" ++ PyStr.dq ++ "px-6 py-4 whitespace-nowrap text-sm text-gray-900" ++ PyStr.dq ++ ">" ++ value ++ "</td>
".

Definition row_cells (columns : list string) (row : record) : list string :=
  map (fun col => format_value (default (PStr EmptyString) (dict_get row col)))
      columns.

Definition render_row (columns : list string) (row : record) : string :=
  "<tr>" ++ PyStr.LF
  ++ String.concat EmptyString (map td (row_cells columns row))
  ++ "</tr>" ++ PyStr.LF.

Definition json_to_html_table (data : list record) : string :=
  match data with
  | [] => NO_DATA
  | first :: _ =>
      let columns := dict_keys first in
      table_open
      ++ String.concat EmptyString (map th columns)
      ++ table_middle
      ++ String.concat EmptyString (map (render_row columns) data)
      ++ table_close
  end.

(** *** Prompts *)

Definition context_entry (lang : language) (var_name : string)
    (file : mapping_entry) : string :=
  (match lang with
   | sql => "- Table: `" ++ var_name ++ "`
"
   | python => "- Name: `" ++ var_name ++ "`
"
   end)
  ++ "  Description: Data file: " ++ m_filename file ++ "
"
  ++ "  Source: " ++ m_source file ++ " from bucket " ++ m_bucket file ++ "
"
  ++ "  Columns: Auto-detected from loaded data

".

Definition python_prompt (question context_str : string) : string :=
  "
            You are an expert " ++ "python" ++ " data analyst. A user wants to answer the question: " ++ PyStr.dq ++ question ++ PyStr.dq ++ ".
            
            You have access to ONLY the following dataframes which are ALREADY LOADED into memory:
            " ++ context_str ++ "
            
            IMPORTANT: You can ONLY use the dataframes listed above. Do NOT create or reference any other data sources.
            
            Your task is to write a short, clean " ++ "python" ++ " script to produce the final data table that answers the question.

            --- VERY STRICT RESPONSE RULES ---
            1. Pay close attention to the data types. If a column is a string (object), you may need to convert it to a number before performing calculations.
            2. Provide ONLY the raw " ++ "python" ++ " code.
            3. You are strictly forbidden from writing `pd.read_csv` or creating your own DataFrames. You MUST use ONLY the provided dataframes.
            4. Structure your code in logical steps. For each step, assign the result to a new DataFrame with a descriptive name.
            5. The final variable containing the answer MUST be named `ans_df`.
            6. DO NOT include comments, explanations, or function definitions.
            7. DO NOT visualize the data. Just produce the final `ans_df`.
            8. Use as few variables as possible and minimize empty lines.
            9. ONLY use the dataframes that were explicitly provided in the context above.
            10. WRITE CONCISE CODE: NO empty lines between related operations. Only use ONE empty line between major logical steps.
        ".

Definition sql_prompt (question context_str : string) : string :=
  "
            You are an expert SQL data analyst. A user wants to answer the question: " ++ PyStr.dq ++ question ++ PyStr.dq ++ ".
            
            You have access to the following tables which are ALREADY LOADED into a SQLite database:
            " ++ context_str ++ "
            
            IMPORTANT: You can ONLY use the tables listed above. All tables are available in the SQLite database.
            
            Your task is to write a clean SQL query to produce the final result that answers the question.

            --- VERY STRICT RESPONSE RULES ---
            1. Provide ONLY the raw SQL query.
            2. Use standard SQL syntax compatible with SQLite.
            3. You are strictly forbidden from creating new tables or using external data sources.
            4. Structure your query logically with proper JOINs, WHERE clauses, and GROUP BY as needed.
            5. Use descriptive column aliases when needed.
            6. DO NOT include comments, explanations, or multiple queries.
            7. DO NOT use CREATE TABLE, INSERT, UPDATE, or DELETE statements.
            8. Use as few subqueries as possible and write efficient queries.
            9. ONLY use the tables that were explicitly provided in the context above.
            10. WRITE CONCISE SQL: Use proper indentation and formatting.
        11. FORMAT: Keep code compact - no unnecessary spacing or blank lines within logical blocks.
        ".

(** [_clean_response] *)
Definition _clean_response (text : string) (lang : language) : string :=
  let text := PyStr.strip text in
  let text :=
    PyStr.replace "```" EmptyString
      (PyStr.replace "```sql" EmptyString
         (PyStr.replace "```python" EmptyString
            (PyStr.replace ("```" ++ language_str lang) EmptyString text))) in
  PyStr.strip text.

(** The datasets the preamble loads from the sample bucket. *)
Definition sample_files : list (string * string) :=
  [ ("circuits", "circuits.csv");
    ("constructor_results", "constructor_results.csv");
    ("constructor_standings", "constructor_standings.csv");
    ("constructors", "constructors.csv");
    ("driver_standings", "driver_standings.csv");
    ("drivers", "drivers.csv");
    ("pit_stops", "pit_stops.csv");
    ("qualifying", "qualifying.csv");
    ("races", "races.csv");
    ("results", "results.csv");
    ("seasons", "seasons.csv");
    ("sprint_results", "sprint_results.csv");
    ("status", "status.csv") ].

Definition default_dataset : string := "olist_orders_dataset".

Definition default_url : string :=
  "gs://ai-analysis-default-bucket/olist_orders_dataset.csv".

Definition sample_url (filename : string) : string :=
  "gs://sample-bucket-v2901/" ++ filename.

(** Every dataset name with the place it is read from. *)
Definition dataset_sources : list (string * string * string) :=
  (default_dataset, "default bucket", default_url)
  :: map (fun vf => (fst vf, "sample bucket", sample_url (snd vf)))
         sample_files.




(** *** The download helper *)

(** [get_gcs_client] of this module. *)
Definition get_gcs_client : Storage.gcs unit :=
  fun p =>
    match Storage.credentials_error p with
    | Some msg =>
        (p, [Storage.ClientInit],
         Raise (HTTPException 500 ("Failed to initialize GCS client: " ++ msg)))
    | None => (p, [Storage.ClientInit], Ok tt)
    end.

(** [download_file_from_gcs]: the local files are a map from path to
    content, and the result carries them with the object's bytes written; a
    failure to write the local file is left out. The one handler catches every
    exception, the one raised inside for a missing file included. *)
Definition download_file_from_gcs (bucket_name file_name local_path : string)
    (local_files : gmap string string)
  : Storage.gcs (bool * gmap string string) :=
  fun p =>
    let attempt :=
      Storage.gcs_bind get_gcs_client (fun _ =>
      Storage.gcs_bind (Storage.blob_exists bucket_name file_name) (fun ex =>
      if negb ex
      then Storage.gcs_raise
             (PyError "Exception"
                      ("File " ++ file_name ++ " not found in bucket "
                       ++ bucket_name))
      else
        Storage.gcs_bind
          (Storage.blob_download_as_bytes bucket_name file_name)
          (fun b =>
             Storage.gcs_ret
               (true, <[local_path := Storage.blob_bytes b]> local_files))))
        p in
    match attempt with
    | (p1, t1, Raise e) =>
        (p1, t1,
         Raise (PyError "Exception"
                        ("Failed to download " ++ file_name ++ " from "
                         ++ bucket_name ++ ": " ++ str_exn e)))
    | done => done
    end.

(** *** Text pasted between triple quotes *)

(** A character that a literal between triple quotes holds as it is
    written: printable ASCII, a tab or a line feed, and no backslash. *)
Definition literal_char (c : ascii) : bool :=
  (PyStr.in_range 32 126 c && negb (Ascii.eqb c "092"%char))
  || Ascii.eqb c "009"%char || Ascii.eqb c "010"%char.

Fixpoint ends_with_quote (s : string) : bool :=
  match s with
  | EmptyString => false
  | String c EmptyString => Ascii.eqb c "'"%char
  | String _ s' => ends_with_quote s'
  end.

(** A text that the literal ['''text'''] holds unchanged: made of such
    characters, without three quotes in a row, and not ending in a quote,
    which would close the literal one character early. *)
Definition fits_triple_quotes (text : string) : bool :=
  PyStr.all_chars literal_char text
  && negb (PyStr.contains "'''" text)
  && negb (ends_with_quote text).

Section Pipeline.

(** Configuration read from the environment. *)
Variable DEFAULT_BUCKET : string.
Variable GOOGLE_API_KEY : option string.

(** The hosted model: [GenerativeModel(model).generate_content(prompt)]
    and the [text] of its response, or the exception of the call. *)
Variable generate_content : string -> string -> pyresult string.

(** [pd.read_csv('gs://...')] inside the child. *)
Variable storage_read_csv : string -> pyresult DataFrame.

(** The interpreter's verdict on the script of a Python request, which
    has the text of the request pasted in: the message it writes to stderr
    when the script does not compile, in which case no line of it runs. *)
Variable python_syntax_error : string -> option string.

(** What running the Python text of a request does, from the globals
    the preamble leaves. *)
Variable python_exec : string -> globals -> list stmt.

(** The SQL bridge: whether [to_sql] of a dataset fails, the answer of
    [pd.read_sql_query] over the loaded tables, and [str(df.head())]. *)
Variable to_sql_error : string -> DataFrame -> option string.
Variable read_sql_query :
  list (string * DataFrame) -> string -> pyresult DataFrame.
Variable head_str : DataFrame -> string.

(** What the script of an SQL request does when the text of the query
    does not stay as it is between the triple quotes it is pasted in: the
    text then ends the literal early or is changed by an escape, and the
    script is another program, or none. *)
Variable respelled_sql_script : string -> list stmt.

(** [df.to_json(orient='records')], which raises for a frame it cannot
    write (column labels that are not unique), and [json.loads]. *)
Variable to_json : DataFrame -> pyresult string.
Variable json_loads : string -> pyresult (list record).

(** What the interpreter writes to stderr for an exception that the
    appended lines do not catch: the header, the frame lines, which name
    the temporary file, and the line of the exception. *)
Variable print_exception : pyexn -> string.

(** What the appended lines do where it depends on an object the globals
    do not describe: a built-in name of theirs bound to an object of another
    kind, which may be callable, [pd] bound to another module or object, or
    [ans_df] bound to an object that is neither a frame nor [None]. The
    globals and the output at the appended lines are given. *)
Variable undetermined : globals -> string -> run_outcome.

(** A failure of the host before or while launching the child
    (temporary file, process creation). *)
Variable host_error : option string.

Definition api_key_missing : bool :=
  match GOOGLE_API_KEY with
  | None => true
  | Some EmptyString => true
  | Some _ => false
  end.

(** [_generate_response] *)
Definition _generate_response (prompt : string) (model : string) : string :=
  let attempt :=
    if api_key_missing
    then Raise (PyError "ValueError"
                  "GEMINI_API_KEY not found in environment variables")
    else generate_content model prompt in
  match attempt with
  | Ok text => text
  | Raise e =>
      let error_message :=
        PyStr.replace_char "'"%char (PyStr.backslash ++ "'") (str_exn e) in
      "print('Error generating code: " ++ error_message ++ "')"
  end.

Definition default_model : string := "gemini-2.5-pro".

(** One turn of the loop that fills [file_mapping]. *)
Definition file_mapping_step (file_mapping : pydict mapping_entry)
    (file : file_info) : pyresult (pydict mapping_entry) :=
  match file !! "filename" with
  | None => Raise (PyError "KeyError" "'filename'")
  | Some filename =>
      variable_name <- variable_name_of filename ;;
      let source := default "uploaded" (file !! "source") in
      let bucket_name :=
        if String.eqb source "uploaded" then DEFAULT_BUCKET
        else default DEFAULT_BUCKET (file !! "bucket") in
      Ok (dict_set file_mapping variable_name
                   (mk_entry filename bucket_name source))
  end.

Fixpoint build_file_mapping (files : list file_info)
    (file_mapping : pydict mapping_entry)
  : pyresult (pydict mapping_entry) :=
  match files with
  | [] => Ok file_mapping
  | file :: rest =>
      file_mapping' <- file_mapping_step file_mapping file ;;
      build_file_mapping rest file_mapping'
  end.

Definition generation_failure (e : pyexn) : CodeGenerationResponse :=
  mk_gen_response EmptyString false (Some (str_exn e)).

(** [generate_code] *)
Definition generate_code (request : CodeGenerationRequest)
  : CodeGenerationResponse :=
  if api_key_missing then
    generation_failure
      (HTTPException 500
         "GEMINI_API_KEY not configured. Please set the environment variable.")
  else
    match g_selected_files request with
    | [] =>
        generation_failure
          (HTTPException 400 "No files selected for analysis")
    | files =>
        match build_file_mapping files [] with
        | Raise e => generation_failure e
        | Ok file_mapping =>
            let context_str :=
              String.concat EmptyString
                (map (fun kv => context_entry (g_language request)
                                              (fst kv) (snd kv))
                     file_mapping) in
            let prompt :=
              match g_language request with
              | python => python_prompt (g_question request) context_str
              | sql => sql_prompt (g_question request) context_str
              end in
            let generated_code := _generate_response prompt default_model in
            let cleaned_code :=
              _clean_response generated_code (g_language request) in
            mk_gen_response cleaned_code true None
        end
    end.

(** The try/except that loads one dataset. *)
Definition load_stmts (source : string * string * string) : list stmt :=
  let '(var_name, place, url) := source in
  match storage_read_csv url with
  | Ok df =>
      [ Assign var_name (ODataFrame df);
        PrintLine ("Loaded " ++ var_name ++ " from " ++ place
               ++ " with shape: " ++ shape_str df) ]
  | Raise e =>
      [ PrintLine ("Could not load " ++ var_name ++ " from " ++ place ++ ": "
               ++ str_exn e);
        Assign var_name ONone ]
  end.

Definition python_preamble : list stmt :=
  [ Assign "pd" (OModule "pandas"); Assign "np" (OModule "numpy") ]
  ++ concat (map load_stmts dataset_sources).

(** The globals a prefix of the script leaves for what follows. *)
Definition globals_after (prog : list stmt) : globals :=
  match run_stmts prog [] EmptyString with
  | Finished g _ => g
  | _ => []
  end.

Definition python_script (code : string) : list stmt :=
  match python_syntax_error code with
  | Some message => [ Exit 1 message ]
  | None => python_preamble ++ python_exec code (globals_after python_preamble)
  end.

(** The datasets that were read, in loading order. *)
Definition loaded_datasets : list (string * DataFrame) :=
  concat (map (fun source : string * string * string =>
                 let '(var_name, _, url) := source in
                 match storage_read_csv url with
                 | Ok df => [(var_name, df)]
                 | Raise _ => []
                 end)
              dataset_sources).

Definition to_sql_stmts (nd : string * DataFrame) : list stmt :=
  match to_sql_error (fst nd) (snd nd) with
  | None => [ PrintLine ("Loaded " ++ fst nd ++ " into SQLite database") ]
  | Some e => [ PrintLine ("Could not load " ++ fst nd ++ " into SQLite: " ++ e) ]
  end.

Definition sqlite_tables : list (string * DataFrame) :=
  List.filter (fun nd => match to_sql_error (fst nd) (snd nd) with
                         | None => true
                         | Some _ => false
                         end)
              loaded_datasets.

(** The statements of the SQL script for a query text that stays as it
    is between the triple quotes: it is printed, and run as the query. *)
Definition sql_statements (code : string) : list stmt :=
  [ Assign "pd" (OModule "pandas"); Assign "np" (OModule "numpy");
    Assign "sqlite3" (OModule "sqlite3"); Assign "io" (OModule "io") ]
  ++ concat (map load_stmts dataset_sources)
  ++ [ Assign "conn" (OOther "Connection") ]
  ++ concat (map to_sql_stmts loaded_datasets)
  ++ [ PrintLine "Executing SQL query:"; PrintLine "```sql"; PrintLine code; PrintLine "```" ]
  ++ match read_sql_query sqlite_tables code with
     | Ok result_df =>
         [ Assign "result_df" (ODataFrame result_df);
           PrintLine ("Query executed successfully. Result shape: "
                  ++ shape_str result_df);
           PrintLine (PyStr.LF ++ "First few rows:");
           PrintLine (head_str result_df);
           Assign "ans_df" (ODataFrame result_df);
           PrintLine (PyStr.LF ++ "Result stored as 'ans_df'") ]
     | Raise e =>
         [ PrintLine ("SQL execution error: " ++ str_exn e);
           Assign "ans_df" ONone ]
     end.

(** The script of the SQL branch: the template pastes the text of the
    query between triple quotes, twice. *)
Definition sql_script (code : string) : list stmt :=
  if fits_triple_quotes code then sql_statements code
  else respelled_sql_script code.

(** The globals once the appended lines have bound their names: [json],
    [_candidate_names] and, when the selection applies, [ans_df]. *)
Definition epilogue_globals (g : globals) : globals :=
  let g := dict_set g "json" (OModule "json") in
  let _candidate_names := candidate_names g in
  let g := dict_set g "_candidate_names" (OOther "list") in
  auto_select _candidate_names g.

(** What the appended lines print between the sentinels. *)
Definition framed (json_text : string) : string :=
  SUCCESS_JSON_START ++ PyStr.LF ++ json_text ++ PyStr.LF
  ++ SUCCESS_JSON_END ++ PyStr.LF.

(** An exception that the appended lines do not catch ends the child
    with status 1; what it printed before stays on stdout. *)
Definition uncaught (out : string) (e : pyexn) : run_outcome :=
  Completed 1 out (print_exception e).

(** A call of the built-in [name] by the appended lines: [go_on] when the
    name is not bound in the globals, so that the built-in is called. An
    object that cannot be called raises [TypeError]. *)
Definition call_builtin (name : string) (g : globals) (out : string)
    (go_on : run_outcome) : run_outcome :=
  match dict_get g name with
  | None => go_on
  | Some (OOther _) => undetermined g out
  | Some o => uncaught out (not_callable o)
  end.

(** The lines [execute_python_code_in_kernel] appends to the script, in
    the order the interpreter evaluates them, for a script that left
    [__builtins__] alone: [list(globals().items())] calls [globals], then
    [list]; the test of the first item reads [pd.DataFrame], then calls
    [isinstance]; the selection follows; then [ans_df.to_json] is read and
    called, and the result printed. *)
Definition epilogue (g : globals) (out : string) : run_outcome :=
  if dict_mem g "__builtins__" then undetermined g out
  else
  call_builtin "globals" g out
    (call_builtin "list" g out
       match dict_get g "pd" with
       | None =>
           uncaught out (PyError "NameError" "name 'pd' is not defined")
       | Some ONone => uncaught out (none_has_no "DataFrame")
       | Some (OModule m) =>
           if String.eqb m "pandas" then
             call_builtin "isinstance" g out
               match dict_get (epilogue_globals g) "ans_df" with
               | Some (ODataFrame ans_df) =>
                   match to_json ans_df with
                   | Ok result =>
                       call_builtin "print" g out
                         (Completed 0 (out ++ framed result) EmptyString)
                   | Raise e => uncaught out e
                   end
               | Some ONone => uncaught out (none_has_no "to_json")
               | Some _ => undetermined g out
               | None =>
                   call_builtin "print" g out
                     (Completed 0 (out ++ "ERROR: No ans_df found" ++ PyStr.LF)
                                EmptyString)
               end
           else undetermined g out
       | Some _ => undetermined g out
       end).

(** The child process on the script with the epilogue appended. *)
Definition subprocess_run (code : list stmt) : run_outcome :=
  match run_stmts code [] EmptyString with
  | Finished g out => epilogue g out
  | Exited returncode out stderr => Completed returncode out stderr
  | Hung => TimeoutExpired KERNEL_TIMEOUT
  end.

(** The text between the sentinels, as the parent cuts it out. *)
Definition json_str_of (output : string) : string :=
  let json_start :=
    (PyStr.find SUCCESS_JSON_START output
     + Z.of_nat (String.length SUCCESS_JSON_START) + 1)%Z in
  let json_end := PyStr.find SUCCESS_JSON_END output in
  PyStr.strip (PyStr.slice output json_start json_end).

(** [json.loads(json_str)] under its [except json.JSONDecodeError]; any
    other exception reaches the outer handler. *)
Definition decode (json_str : string) : kernel_result :=
  match json_loads json_str with
  | Ok data => KSuccess data
  | Raise (PyError cls msg) =>
      if String.eqb cls "JSONDecodeError"
      then KFailure ("Failed to parse JSON result: " ++ msg)
      else KFailure ("Execution error: " ++ msg)
  | Raise e => KFailure ("Execution error: " ++ str_exn e)
  end.

(** What the parent makes of a finished run. *)
Definition interpret_run (result : run_outcome) : kernel_result :=
  match result with
  | TimeoutExpired _ => KFailure "Code execution timed out"
  | Completed returncode stdout stderr =>
      if negb (returncode =? 0)%Z
      then KFailure ("Code execution failed: " ++ stderr)
      else
        let output := stdout in
        if PyStr.contains SUCCESS_JSON_START output
           && PyStr.contains SUCCESS_JSON_END output
        then decode (json_str_of output)
        else KFailure "No valid result found in code output"
  end.

(** [execute_python_code_in_kernel] *)
Definition execute_python_code_in_kernel (code : list stmt) : kernel_result :=
  match host_error with
  | Some msg => KFailure ("Execution error: " ++ msg)
  | None => interpret_run (subprocess_run code)
  end.

Definition response_of (result : kernel_result) : CodeExecutionResponse :=
  match result with
  | KSuccess data =>
      mk_exec_response true (Some (json_to_html_table data)) None
  | KFailure error => failure_response error
  end.

(** [execute_code] *)
Definition execute_code (request : CodeExecutionRequest)
  : CodeExecutionResponse :=
  match x_language request with
  | python =>
      match build_file_mapping (x_selected_files request) [] with
      | Raise e => failure_response (str_exn e)
      | Ok _ =>
          response_of
            (execute_python_code_in_kernel (python_script (x_code request)))
      end
  | sql =>
      response_of
        (execute_python_code_in_kernel (sql_script (x_code request)))
  end.

End Pipeline.

End CodeGen.

(** ** Application setup (main.py) *)

Module App.

(** The origins listed in the source, before the one of the environment. *)
Definition listed_origins : list string :=
  [ "http://localhost:3000";
    "http://localhost:8080";
    "http://localhost";
    "https://analytics-ai-frontend-i73iz6e3wq-uc.a.run.app" ].

(** [dict.fromkeys(keys)] *)
Definition fromkeys (keys : list string) : pydict unit :=
  fold_left (fun d k => dict_set d k tt) keys [].

(** The allowed origins: [list(dict.fromkeys(origins))], where the last
    origin is [os.getenv('FRONTEND_URL', 'http://localhost:3000')]. *)
Definition origins (FRONTEND_URL : option string) : list string :=
  dict_keys
    (fromkeys (listed_origins
               ++ [default "http://localhost:3000" FRONTEND_URL])).

End App.

(** ** Sample environments
    Concrete stores, frames and library stand-ins on which the properties
    below are instantiated. *)

Module Samples.

Import Pandas.

(** A two-column frame with five rows, as [read_csv] gives it for
    [sample_csv]. *)
Definition sample_csv : string :=
  "h1,h2" ++ PyStr.LF ++ "1,a" ++ PyStr.LF ++ "2,b" ++ PyStr.LF
  ++ "3,c" ++ PyStr.LF ++ "4,d" ++ PyStr.LF ++ "5,e" ++ PyStr.LF.

Definition sample_frame : DataFrame :=
  mk_df [("h1", "int64"); ("h2", "object")]
        [ [PInt 1; PStr "a"]; [PInt 2; PStr "b"]; [PInt 3; PStr "c"];
          [PInt 4; PStr "d"]; [PInt 5; PStr "e"] ].

Definition sample_read_csv (content : string) : pyresult DataFrame :=
  if String.eqb content sample_csv then Ok sample_frame
  else Raise (PyError "ParserError" "Error tokenizing data").

Definition sample_preview_json (content : string) (rows : Z) : string :=
  content.

(** A decoder for texts of ASCII: it raises at a byte above 127, as the
    UTF-8 decoder does at a byte that starts no character. *)
Definition sample_bytes_decode (charset : option string) (data : string)
  : pyresult string :=
  if PyStr.all_chars (PyStr.in_range 0 127) data then Ok data
  else Raise (PyError "UnicodeDecodeError"
                      "'utf-8' codec can't decode bytes: invalid start byte").

(** The first bytes of a PNG image. *)
Definition png_bytes : string :=
  String "137"%char "PNG" ++ String "013"%char PyStr.LF.

Definition sample_blob (text : string) : Storage.blob :=
  Storage.mk_blob (Z.of_nat (String.length text)) (Some "text/csv")
                  (Some "2024-01-01 00:00:00") (Some "2024-01-01 00:00:00") text.

(** A store with a default bucket [uploads] and a public bucket [public];
    [data.csv] is in both. *)
Definition sample_provider : Storage.provider :=
  Storage.mk_provider None None
    (<["uploads" := <["data.csv" := sample_blob sample_csv]>
                    (<["notes.txt" := sample_blob "hello"]> ∅)]>
     (<["public" := <["data.csv" := sample_blob "x,y"]>
                    (<["races.csv" := sample_blob "a,b"]> ∅)]> ∅)).

(** A selected file whose name has an empty stem. *)
Definition hidden_file : CodeGen.file_info := {[ "filename" := ".csv" ]}.

(** A hosted-model call that fails with a two-line message, and one whose
    message ends in a backslash. *)
Definition two_line_message : string :=
  "400 API key not valid." ++ PyStr.LF ++ "Please pass a valid API key.".

Definition failing_generate_content (model prompt : string) : pyresult string :=
  Raise (PyError "InvalidArgument" two_line_message).

Definition backslash_message : string := "no such file: C:" ++ PyStr.backslash.

Definition backslash_generate_content (model prompt : string)
  : pyresult string :=
  Raise (PyError "FileNotFoundError" backslash_message).

(** *** A child process for the selection of the result *)

(** Every dataset of the preamble reads as the sample frame. *)
Definition sample_storage_read_csv (url : string) : pyresult DataFrame :=
  Ok sample_frame.

(** Two sources: the first binds a new name to the first two rows of
    [circuits], the second binds [circuits] itself to them. *)
Definition top_rows_code : string :=
  "limit = 2" ++ PyStr.LF ++ "top_rows = circuits.head(limit)" ++ PyStr.LF
  ++ "print(len(top_rows))".

Definition rebinding_code : string := "circuits = circuits.head(2)".

(** A traceback as the interpreter prints it, for an exception raised at
    the top level of a script. *)
Definition sample_print_exception (e : pyexn) : string :=
  "Traceback (most recent call last):" ++ PyStr.LF
  ++ "  File " ++ PyStr.dq ++ "/tmp/tmpq1w2e3r4.py" ++ PyStr.dq
  ++ ", line 97, in <module>" ++ PyStr.LF
  ++ match e with
     | PyError cls msg => cls ++ ": " ++ msg
     | HTTPException _ _ => "fastapi.exceptions.HTTPException: " ++ str_exn e
     end
  ++ PyStr.LF.

(** Both sources compile. *)
Definition sample_python_syntax_error (code : string) : option string := None.

(** What running them does, from the globals the preamble left. *)
Definition sample_python_exec (code : string) (g : CodeGen.globals)
  : list CodeGen.stmt :=
  match dict_get g "circuits" with
  | Some (CodeGen.ODataFrame circuits) =>
      if String.eqb code top_rows_code then
        [ CodeGen.Assign "limit" (CodeGen.OOther "int");
          CodeGen.Assign "top_rows" (CodeGen.ODataFrame (head 2 circuits));
          CodeGen.PrintLine (PyStr.str_of_Z (len (head 2 circuits))) ]
      else if String.eqb code rebinding_code then
        [ CodeGen.Assign "circuits" (CodeGen.ODataFrame (head 2 circuits)) ]
      else
        [ CodeGen.Uncaught
            (sample_print_exception
               (PyError "NameError" "name 'undefined_name' is not defined")) ]
  | _ =>
      [ CodeGen.Uncaught
          (sample_print_exception (CodeGen.none_has_no "head")) ]
  end.

(** The appended lines on globals they cannot be followed on: the child
    is taken to exit with status 1. *)
Definition sample_undetermined (g : CodeGen.globals) (out : string)
  : CodeGen.run_outcome :=
  CodeGen.Completed 1 out EmptyString.

(** A query text that does not stay as it is between the triple quotes
    is taken to give a script that does not compile. *)
Definition sample_respelled_sql_script (code : string) : list CodeGen.stmt :=
  [ CodeGen.Exit 1 "SyntaxError: unterminated string literal" ].

(** [to_json(orient='records')] for frames of integers and texts without
    characters to escape, as the sample frames are. *)
Definition json_of_cell (v : pyval) : string :=
  match v with
  | PInt z => PyStr.str_of_Z z
  | PStr s => PyStr.dq ++ s ++ PyStr.dq
  | PBool true => "true"
  | PBool false => "false"
  | _ => "null"
  end.

Definition json_of_record (r : record) : string :=
  "{" ++ PyStr.join ","
           (map (fun kv => PyStr.dq ++ fst kv ++ PyStr.dq ++ ":"
                           ++ json_of_cell (snd kv)) r)
  ++ "}".

Definition json_text_of (df : DataFrame) : string :=
  "[" ++ PyStr.join "," (map json_of_record (to_dict_records df)) ++ "]".

Fixpoint distinct (names : list string) : bool :=
  match names with
  | [] => true
  | name :: rest => negb (existsb (String.eqb name) rest) && distinct rest
  end.

(** It raises for column labels that are not unique, as pandas does. *)
Definition sample_to_json (df : DataFrame) : pyresult string :=
  if distinct (map fst (df_columns df)) then Ok (json_text_of df)
  else Raise (PyError "ValueError"
                "DataFrame columns must be unique for orient='records'.").

(** A frame as a join returns it, with the label [id] twice. *)
Definition joined_frame : DataFrame :=
  mk_df [("id", "int64"); ("id", "int64")] [ [PInt 1; PInt 1] ].

(** [json.loads] on the texts of the two sample frames. *)
Definition sample_json_loads (text : string) : pyresult (list record) :=
  if String.eqb text (json_text_of sample_frame)
  then Ok (to_dict_records sample_frame)
  else if String.eqb text (json_text_of (head 2 sample_frame))
  then Ok (to_dict_records (head 2 sample_frame))
  else Raise (PyError "JSONDecodeError"
                      "Expecting value: line 1 column 1 (char 0)").

Definition sample_to_sql_error (table : string) (df : DataFrame)
  : option string := None.

Definition sample_read_sql_query (tables : list (string * DataFrame))
    (query : string) : pyresult DataFrame :=
  Raise (PyError "DatabaseError" "Execution failed on sql").

Definition sample_head_str (df : DataFrame) : string := shape_str df.

(** *** Stand-ins for the hash functions and the clock *)

Definition sample_sha256 (text : string) : string := "sha256:" ++ text.

(** A hash that carries its four-character salt in front, as a bcrypt
    hash carries its salt; [checkpw] hashes again with that salt. *)
Definition sample_hashpw (password salt : string) : string :=
  salt ++ "$" ++ password.

Definition sample_checkpw (password hashed : string) : bool :=
  String.eqb (sample_hashpw password (String.substring 0 4 hashed)) hashed.

(** Seven days later, for a day of the month up to the 21st. *)
Definition sample_plus_7_days (d : Auth.datetime) : Auth.datetime :=
  Auth.mk_datetime (Auth.year d) (Auth.month d) (Auth.day d + 7)
                   (Auth.hour d) (Auth.minute d) (Auth.second d)
                   (Auth.microsecond d).

Definition sample_now : Auth.datetime :=
  Auth.mk_datetime 2024 3 10 12 0 0 0.

Definition sample_later : Auth.datetime :=
  Auth.mk_datetime 2024 3 12 8 15 0 0.

Definition old_expiry : Auth.datetime :=
  Auth.mk_datetime 2024 3 1 9 30 0 0.

Definition live_expiry : Auth.datetime :=
  Auth.mk_datetime 2024 3 15 9 30 0 500.

(** One user with two sessions, both with the active flag set: the first
    expired before [sample_now], the second has not. *)
Definition sample_database : Auth.database :=
  Auth.mk_db
    [ Auth.mk_user 1 "grace" (sample_hashpw "hopper" "s0lt") "Grace" ]
    [ Auth.mk_session 1 1 (sample_sha256 "t-old")
                      (Auth.isoformat old_expiry) 1;
      Auth.mk_session 2 1 (sample_sha256 "t-live")
                      (Auth.isoformat live_expiry) 1 ].

(** *** Further stores, children and bridges *)

(** A store whose default bucket holds an image. *)
Definition image_blob : Storage.blob :=
  Storage.mk_blob (Z.of_nat (String.length png_bytes)) (Some "image/png")
                  (Some "2024-01-01 00:00:00") (Some "2024-01-01 00:00:00")
                  png_bytes.

Definition image_provider : Storage.provider :=
  Storage.mk_provider None None
    (<["uploads" := <["logo.png" := image_blob]> ∅]> ∅).

(** A provider without credentials, and one that is down. *)
Definition provider_without_credentials : Storage.provider :=
  Storage.mk_provider (Some "Your default credentials were not found.")
                      None (Storage.buckets sample_provider).

Definition provider_in_outage : Storage.provider :=
  Storage.mk_provider None (Some "503 Service Unavailable")
                      (Storage.buckets sample_provider).

(** Two sources: one binds the designated result between two other
    frames, one only prints. *)
Definition designated_code : string :=
  "scratch = circuits" ++ PyStr.LF ++ "ans_df = circuits.head(2)"
  ++ PyStr.LF ++ "later = circuits".

Definition printing_code : string := "print('hello')".

Definition more_python_exec (code : string) (g : CodeGen.globals)
  : list CodeGen.stmt :=
  if String.eqb code printing_code then [ CodeGen.PrintLine "hello" ]
  else
    match dict_get g "circuits" with
    | Some (CodeGen.ODataFrame circuits) =>
        if String.eqb code designated_code then
          [ CodeGen.Assign "scratch" (CodeGen.ODataFrame circuits);
            CodeGen.Assign "ans_df" (CodeGen.ODataFrame (head 2 circuits));
            CodeGen.Assign "later" (CodeGen.ODataFrame circuits) ]
        else sample_python_exec code g
    | _ => sample_python_exec code g
    end.

(** A store from which no dataset can be read. *)
Definition failing_storage_read_csv (url : string) : pyresult DataFrame :=
  Raise (PyError "FileNotFoundError" url).

(** A query bridge that answers with the first two rows of the first
    table. *)
Definition first_table_read_sql_query (tables : list (string * DataFrame))
    (query : string) : pyresult DataFrame :=
  match tables with
  | (_, df) :: _ => Ok (head 2 df)
  | [] => Raise (PyError "DatabaseError" "no such table")
  end.

(** A query bridge that answers with the columns of a join. *)
Definition joining_read_sql_query (tables : list (string * DataFrame))
    (query : string) : pyresult DataFrame :=
  Ok joined_frame.

(** Two selected files with the same identifier. *)
Definition colliding_files : list CodeGen.file_info :=
  [ {[ "filename" := "Sales Data.csv" ]};
    <[ "source" := "public" ]>
      (<[ "bucket" := "open-data" ]> {[ "filename" := "sales_data.json" ]}) ].

(** A response of the model inside a fence. *)
Definition fenced_response : string :=
  "```python" ++ PyStr.LF ++ "ans_df = races.head(5)" ++ PyStr.LF ++ "```"
  ++ PyStr.LF.

End Samples.

(** * Properties *)

(** ** Python string operations *)

Module PyStrProps.

Lemma append_cons (c : ascii) (a b : string) :
  String c a ++ b = String c (a ++ b).
Proof. reflexivity. Qed.

Lemma append_empty (b : string) : EmptyString ++ b = b.
Proof. reflexivity. Qed.

Lemma append_empty_r (a : string) : a ++ EmptyString = a.
Proof. induction a as [|c a IH]; [reflexivity|]. now rewrite append_cons, IH. Qed.

Lemma append_assoc (a b c : string) : (a ++ b) ++ c = a ++ b ++ c.
Proof.
  induction a as [|x a IH]; [reflexivity|]. now rewrite !append_cons, IH.
Qed.

Lemma length_append (a b : string) :
  String.length (a ++ b) = (String.length a + String.length b)%nat.
Proof.
  induction a as [|x a IH]; [reflexivity|].
  rewrite append_cons. simpl. now rewrite IH.
Qed.

Lemma drop_append (a b : string) : PyStr.drop (String.length a) (a ++ b) = b.
Proof. induction a as [|x a IH]; [now destruct b|]. exact IH. Qed.

Lemma take_append (a b : string) : PyStr.take (String.length a) (a ++ b) = a.
Proof.
  induction a as [|x a IH]; [now destruct b|].
  rewrite append_cons. simpl. now rewrite IH.
Qed.

(** The slice that starts after [a] and is as long as [b] is [b]. *)
Lemma slice_middle (a b c : string) :
  PyStr.slice (a ++ b ++ c)
    (Z.of_nat (String.length a))
    (Z.of_nat (String.length a) + Z.of_nat (String.length b))
  = b.
Proof.
  unfold PyStr.slice, PyStr.clamp_index.
  rewrite !length_append.
  set (la := String.length a). set (lb := String.length b).
  set (lc := String.length c).
  replace (Z.of_nat la <? 0)%Z with false by (symmetry; apply Z.ltb_ge; lia).
  replace (Z.of_nat la + Z.of_nat lb <? 0)%Z with false
    by (symmetry; apply Z.ltb_ge; lia).
  replace (Z.to_nat (Z.max 0 (Z.min (Z.of_nat (la + (lb + lc))) (Z.of_nat la))))
    with la by lia.
  replace (Z.to_nat
             (Z.max 0 (Z.min (Z.of_nat (la + (lb + lc)))
                             (Z.of_nat la + Z.of_nat lb))
              - Z.max 0 (Z.min (Z.of_nat (la + (lb + lc))) (Z.of_nat la))))
    with lb by lia.
  subst la lb. now rewrite drop_append, take_append.
Qed.

Lemma startswith_self (pat rest : string) :
  PyStr.startswith pat (pat ++ rest) = true.
Proof.
  induction pat as [|c pat IH]; [reflexivity|].
  rewrite append_cons. simpl. now rewrite Ascii.eqb_refl, IH.
Qed.

Lemma startswith_before_line_feed (pat a b : string) :
  PyStr.no_line_feed pat = true ->
  PyStr.startswith pat (a ++ PyStr.LF ++ b) = PyStr.startswith pat a.
Proof.
  revert a. induction pat as [|p pat IH]; intros a Hp; [reflexivity|].
  unfold PyStr.no_line_feed in Hp. simpl in Hp.
  apply andb_true_iff in Hp as [Hc Hp].
  destruct a as [|x a].
  - rewrite append_empty. unfold PyStr.LF. rewrite append_cons. simpl.
    apply negb_true_iff in Hc. now rewrite Hc.
  - rewrite append_cons. simpl. now rewrite (IH a Hp).
Qed.

Lemma find_step (pat : string) (c : ascii) (s : string) :
  PyStr.startswith pat (String c s) = false ->
  PyStr.find pat (String c s)
  = (if (PyStr.find pat s <? 0)%Z then -1 else PyStr.find pat s + 1)%Z.
Proof. intros H. cbn [PyStr.find]. now rewrite H. Qed.

Lemma find_bounds (pat s : string) :
  (PyStr.find pat s = -1 \/ 0 <= PyStr.find pat s)%Z.
Proof.
  induction s as [|c s IH]; cbn [PyStr.find].
  - destruct (PyStr.startswith pat EmptyString); lia.
  - destruct (PyStr.startswith pat (String c s)); [lia|].
    destruct (PyStr.find pat s <? 0)%Z eqn:E; [lia|]. apply Z.ltb_ge in E. lia.
Qed.

Lemma find_here (pat s : string) :
  PyStr.startswith pat s = true -> PyStr.find pat s = 0%Z.
Proof. intros H. destruct s; cbn [PyStr.find]; now rewrite H. Qed.

Lemma contains_cons (pat : string) (c : ascii) (s : string) :
  PyStr.contains pat (String c s)
  = PyStr.startswith pat (String c s) || PyStr.contains pat s.
Proof.
  unfold PyStr.contains. cbn [PyStr.find].
  destruct (PyStr.startswith pat (String c s)); [reflexivity|].
  destruct (find_bounds pat s) as [E|E].
  - rewrite E. reflexivity.
  - destruct (PyStr.find pat s <? 0)%Z eqn:L; [apply Z.ltb_lt in L; lia|].
    cbn [orb].
    replace (0 <=? PyStr.find pat s + 1)%Z with true
      by (symmetry; apply Z.leb_le; lia).
    symmetry. apply Z.leb_le. exact E.
Qed.

Lemma contains_empty (pat : string) :
  pat <> EmptyString -> PyStr.contains pat EmptyString = false.
Proof. intros H. destruct pat; [contradiction|reflexivity]. Qed.

(** A pattern without a line break occurs in two texts joined by one
    exactly when it occurs in one of them. *)
Lemma contains_across_line_feed (pat a b : string) :
  PyStr.no_line_feed pat = true -> pat <> EmptyString ->
  PyStr.contains pat (a ++ PyStr.LF ++ b)
  = PyStr.contains pat a || PyStr.contains pat b.
Proof.
  intros Hp Hne. induction a as [|x a IH].
  - rewrite append_empty, (contains_empty pat Hne). unfold PyStr.LF.
    rewrite append_cons, append_empty, contains_cons.
    change (String "010"%char b) with (EmptyString ++ PyStr.LF ++ b).
    rewrite (startswith_before_line_feed pat EmptyString b Hp).
    destruct pat; [contradiction|reflexivity].
  - rewrite append_cons, !contains_cons, IH.
    change (String x (a ++ PyStr.LF ++ b)) with (String x a ++ PyStr.LF ++ b).
    rewrite (startswith_before_line_feed pat (String x a) b Hp).
    now rewrite orb_assoc.
Qed.

(** After a complete line in which the pattern does not occur, the first
    occurrence is where the pattern is written next. *)
Lemma find_after_line (pat a rest : string) :
  PyStr.no_line_feed pat = true -> pat <> EmptyString ->
  PyStr.contains pat a = false ->
  PyStr.find pat (a ++ PyStr.LF ++ pat ++ rest)
  = (Z.of_nat (String.length a) + 1)%Z.
Proof.
  intros Hp Hne. induction a as [|x a IH]; intros Ha.
  - rewrite append_empty. unfold PyStr.LF. rewrite append_cons, append_empty.
    rewrite find_step.
    + rewrite (find_here pat (pat ++ rest) (startswith_self pat rest)).
      reflexivity.
    + change (String "010"%char (pat ++ rest))
        with (EmptyString ++ PyStr.LF ++ pat ++ rest).
      rewrite (startswith_before_line_feed pat EmptyString _ Hp).
      destruct pat; [contradiction|reflexivity].
  - rewrite contains_cons in Ha. apply orb_false_iff in Ha as [Hs Ha].
    rewrite append_cons, find_step.
    + rewrite (IH Ha).
      replace (Z.of_nat (String.length a) + 1 <? 0)%Z with false
        by (symmetry; apply Z.ltb_ge; lia).
      simpl String.length. lia.
    + change (String x (a ++ PyStr.LF ++ pat ++ rest))
        with (String x a ++ PyStr.LF ++ pat ++ rest).
      now rewrite (startswith_before_line_feed pat (String x a) _ Hp).
Qed.

Lemma complete_lines_append_line (s line : string) :
  PyStr.complete_lines (s ++ line ++ PyStr.LF).
Proof. right. exists (s ++ line). now rewrite append_assoc. Qed.

Lemma contains_complete_line (pat s0 : string) :
  PyStr.no_line_feed pat = true -> pat <> EmptyString ->
  PyStr.contains pat (s0 ++ PyStr.LF) = PyStr.contains pat s0.
Proof.
  intros Hp Hne.
  rewrite <- (append_empty_r (s0 ++ PyStr.LF)), append_assoc.
  rewrite (contains_across_line_feed pat s0 EmptyString Hp Hne).
  now rewrite (contains_empty pat Hne), orb_false_r.
Qed.

(** After complete lines in which the pattern does not occur, its first
    occurrence is where it is written next. *)
Lemma find_after_lines (pat s rest : string) :
  PyStr.no_line_feed pat = true -> pat <> EmptyString ->
  PyStr.complete_lines s -> PyStr.contains pat s = false ->
  PyStr.find pat (s ++ pat ++ rest) = Z.of_nat (String.length s).
Proof.
  intros Hp Hne [->|(s0 & ->)] Hs.
  - rewrite append_empty. apply find_here, startswith_self.
  - rewrite (contains_complete_line pat s0 Hp Hne) in Hs.
    rewrite append_assoc, (find_after_line pat s0 rest Hp Hne Hs).
    rewrite length_append. simpl. lia.
Qed.

Lemma contains_after_lines (pat s t : string) :
  PyStr.no_line_feed pat = true -> pat <> EmptyString ->
  PyStr.complete_lines s ->
  PyStr.contains pat (s ++ t) = PyStr.contains pat s || PyStr.contains pat t.
Proof.
  intros Hp Hne [->|(s0 & ->)].
  - now rewrite append_empty, (contains_empty pat Hne).
  - rewrite append_assoc, (contains_across_line_feed pat s0 t Hp Hne).
    now rewrite (contains_complete_line pat s0 Hp Hne).
Qed.

End PyStrProps.

(** ** Credential and session service *)

Module AuthProps.

Import Auth.

(** *** The text of a timestamp orders as the timestamp does *)

Lemma digit_char_compare (x y : nat) :
  (x < 10)%nat -> (y < 10)%nat ->
  Ascii.compare (PyStr.digit_char x) (PyStr.digit_char y) = Nat.compare x y.
Proof.
  intros Hx Hy.
  do 10 (destruct x as [|x]; [do 10 (destruct y as [|y]; [reflexivity|]); lia|]).
  lia.
Qed.

Lemma zpad_length (w n : nat) : String.length (zpad w n) = w.
Proof.
  revert n; induction w as [|w IH]; intros n; simpl; [reflexivity|].
  now rewrite IH.
Qed.

Lemma zpad_compare (w a b : nat) :
  (a < 10 ^ w)%nat -> (b < 10 ^ w)%nat ->
  String.compare (zpad w a) (zpad w b) = Nat.compare a b.
Proof.
  revert a b; induction w as [|w IH]; intros a b Ha Hb.
  - simpl in Ha, Hb. assert (a = 0%nat) by lia. assert (b = 0%nat) by lia.
    subst. reflexivity.
  - assert (Hp : (0 < 10 ^ w)%nat) by (apply Nat.neq_0_lt_0, Nat.pow_nonzero; lia).
    rewrite Nat.pow_succ_r' in Ha, Hb.
    pose proof (Nat.div_mod_eq a (10 ^ w)) as Ea.
    pose proof (Nat.div_mod_eq b (10 ^ w)) as Eb.
    pose proof (Nat.mod_upper_bound a (10 ^ w) ltac:(lia)) as Ra.
    pose proof (Nat.mod_upper_bound b (10 ^ w) ltac:(lia)) as Rb.
    assert (Qa : (a / 10 ^ w < 10)%nat) by (apply Nat.Div0.div_lt_upper_bound; lia).
    assert (Qb : (b / 10 ^ w < 10)%nat) by (apply Nat.Div0.div_lt_upper_bound; lia).
    cbn [zpad String.compare].
    rewrite digit_char_compare by assumption.
    rewrite IH by assumption.
    set (qa := (a / 10 ^ w)%nat) in *. set (qb := (b / 10 ^ w)%nat) in *.
    set (ra := (a mod 10 ^ w)%nat) in *. set (rb := (b mod 10 ^ w)%nat) in *.
    destruct (Nat.compare_spec qa qb) as [Hq|Hq|Hq].
    + subst qb. rewrite Hq in *.
      destruct (Nat.compare_spec ra rb) as [Hr|Hr|Hr]; symmetry.
      * apply Nat.compare_eq_iff. lia.
      * apply Nat.compare_lt_iff. nia.
      * apply Nat.compare_gt_iff. nia.
    + symmetry. apply Nat.compare_lt_iff. nia.
    + symmetry. apply Nat.compare_gt_iff. nia.
Qed.

Lemma compare_append (x y s t : string) :
  String.length x = String.length y ->
  String.compare (x ++ s) (y ++ t) = lex (String.compare x y) (String.compare s t).
Proof.
  revert y; induction x as [|c x IH]; intros [|d y] Hlen; simpl in Hlen;
    try discriminate; [reflexivity|].
  simpl. destruct (Ascii.compare c d); [|reflexivity..].
  apply IH. congruence.
Qed.

Lemma compare_same_head (c : ascii) (s t : string) :
  String.compare (String c s) (String c t) = String.compare s t.
Proof.
  simpl. replace (Ascii.compare c c) with Eq; [reflexivity|].
  symmetry. unfold Ascii.compare. apply N.compare_refl.
Qed.

Lemma compare_separator (c : ascii) (s t : string) :
  String.compare (String c EmptyString ++ s) (String c EmptyString ++ t)
  = String.compare s t.
Proof. apply compare_same_head. Qed.

Lemma fraction_compare (a b : nat) :
  (a < 10 ^ 6)%nat -> (b < 10 ^ 6)%nat ->
  String.compare (fraction a) (fraction b) = Nat.compare a b.
Proof.
  intros Ha Hb. unfold fraction.
  destruct a as [|a], b as [|b]; try reflexivity.
  change ("." ++ zpad 6 (S a)) with (String "."%char (zpad 6 (S a))).
  change ("." ++ zpad 6 (S b)) with (String "."%char (zpad 6 (S b))).
  rewrite compare_same_head. now apply zpad_compare.
Qed.

Lemma isoformat_fraction (d : datetime) :
  isoformat d =
  zpad 4 (year d) ++ "-" ++ zpad 2 (month d) ++ "-" ++ zpad 2 (day d)
  ++ "T" ++ zpad 2 (hour d) ++ ":" ++ zpad 2 (minute d) ++ ":"
  ++ zpad 2 (second d) ++ fraction (microsecond d).
Proof. reflexivity. Qed.

(** Comparing two isoformat texts byte by byte is comparing the two
    timestamps. *)
Lemma isoformat_compare (a b : datetime) :
  datetime_wf a -> datetime_wf b ->
  String.compare (isoformat a) (isoformat b) = datetime_compare a b.
Proof.
  intros (Ya & Ma & Da & Ha & Mia & Sa & Ua) (Yb & Mb & Db & Hb & Mib & Sb & Ub).
  rewrite !isoformat_fraction. unfold datetime_compare.
  repeat first
    [ rewrite compare_append by (rewrite !zpad_length; reflexivity)
    | rewrite zpad_compare by assumption
    | rewrite compare_separator ].
  rewrite fraction_compare by assumption.
  reflexivity.
Qed.

Lemma text_lt_isoformat (a b : datetime) :
  datetime_wf a -> datetime_wf b ->
  text_lt (isoformat a) (isoformat b) = true <-> datetime_lt a b.
Proof.
  intros Ha Hb. unfold text_lt, String.ltb, datetime_lt.
  rewrite isoformat_compare by assumption.
  destruct (datetime_compare a b); split; congruence.
Qed.


(** *** Lookups in a table *)

Lemma find_app_last {A : Type} (f : A -> bool) (l : list A) (x : A) :
  List.find f (l ++ [x])%list
  = match List.find f l with
    | Some y => Some y
    | None => if f x then Some x else None
    end.
Proof.
  induction l as [|a l IH]; simpl; [reflexivity|].
  destruct (f a); [reflexivity|exact IH].
Qed.

Lemma find_none_iff {A : Type} (f : A -> bool) (l : list A) :
  List.find f l = None <-> forall x, In x l -> f x = false.
Proof.
  split; [apply List.find_none|].
  induction l as [|a l IH]; intros H; simpl; [reflexivity|].
  rewrite (H a (or_introl eq_refl)). apply IH. intros x Hx. apply H. now right.
Qed.

Lemma next_rowid_above (ids : list Z) (x : Z) :
  In x ids -> (x < next_rowid ids)%Z.
Proof.
  unfold next_rowid. induction ids as [|a ids IH]; simpl; [tauto|].
  intros [->|Hin]; [lia|]. specialize (IH Hin). lia.
Qed.

Lemma session_matches_spec (h now_text : string) (s : session_row) :
  session_matches h now_text s = true <->
  s_token_hash s = h /\ s_is_active s = 1%Z
  /\ text_lt now_text (s_expires_at s) = true.
Proof.
  unfold session_matches. rewrite !andb_true_iff, String.eqb_eq, Z.eqb_eq. tauto.
Qed.

Section Sessions.

Variable sha256_hexdigest : string -> string.
Variable bcrypt_hashpw : string -> string -> string.
Variable bcrypt_checkpw : string -> string -> bool.
Variable plus_7_days : datetime -> datetime.

Lemma find_by_token_some (db : database) (token : string) (now : datetime)
    (s : session_row) :
  Session_find_by_token sha256_hexdigest db token now = Some s ->
  In s (user_sessions db)
  /\ s_token_hash s = sha256_hexdigest token /\ s_is_active s = 1%Z
  /\ text_lt (isoformat now) (s_expires_at s) = true.
Proof.
  unfold Session_find_by_token. intros H. apply List.find_some in H as [Hin Hm].
  split; [exact Hin|]. now apply session_matches_spec.
Qed.

Lemma find_by_token_none (db : database) (token : string) (now : datetime) :
  Session_find_by_token sha256_hexdigest db token now = None <->
  forall s, In s (user_sessions db) ->
    s_token_hash s = sha256_hexdigest token -> s_is_active s = 1%Z ->
    text_lt (isoformat now) (s_expires_at s) = false.
Proof.
  unfold Session_find_by_token. rewrite find_none_iff. split; intros H s Hin.
  - intros Hh Ha. specialize (H s Hin).
    destruct (text_lt (isoformat now) (s_expires_at s)) eqn:E; [|reflexivity].
    rewrite <- H. symmetry. now apply session_matches_spec.
  - destruct (session_matches _ _ s) eqn:E; [|reflexivity].
    apply session_matches_spec in E as (Hh & Ha & Ht).
    now rewrite (H s Hin Hh Ha) in Ht.
Qed.

Lemma verify_none (db : database) (token : string) (now : datetime) :
  Session_find_by_token sha256_hexdigest db token now = None -> verify_token sha256_hexdigest db token now = unauthorized.
Proof. unfold verify_token. now intros ->. Qed.

Lemma logout_sessions (db : database) (token : string) (s : session_row) :
  In s (user_sessions (fst (logout sha256_hexdigest db token))) ->
  s_token_hash s = sha256_hexdigest token -> s_is_active s = 0%Z.
Proof.
  unfold logout. simpl. rewrite in_map_iff. intros (s0 & Hs & _) Hh.
  destruct (String.eqb (s_token_hash s0) (sha256_hexdigest token)) eqn:E.
  - subst s. reflexivity.
  - subst s. apply String.eqb_neq in E. contradiction.
Qed.

Lemma find_by_token_after_logout (db : database) (token : string)
    (now : datetime) :
  Session_find_by_token sha256_hexdigest (fst (logout sha256_hexdigest db token)) token now = None.
Proof.
  apply find_by_token_none. intros s Hin Hh Ha.
  rewrite (logout_sessions db token s Hin Hh) in Ha. discriminate.
Qed.

(** C4: a session is usable only while its active flag is set and the
    current time is before its expiry. The lookup returns a session only
    with the token's hash, [is_active = 1] and an expiry text above the
    current time's; it returns none exactly when every session of that hash
    is inactive or not above; after logout the token fails verify with 401
    at any time; and when every session of the token expired at or before
    [now], verify fails with 401 whatever the active flags are. *)
Theorem session_usable_only_active_and_unexpired :
  forall (db : database) (token : string) (now : datetime),
    (forall s, Session_find_by_token sha256_hexdigest db token now = Some s ->
       s_token_hash s = sha256_hexdigest token /\ s_is_active s = 1%Z
       /\ text_lt (isoformat now) (s_expires_at s) = true)
    /\ (Session_find_by_token sha256_hexdigest db token now = None <->
        forall s, In s (user_sessions db) ->
          s_token_hash s = sha256_hexdigest token -> s_is_active s = 1%Z ->
          text_lt (isoformat now) (s_expires_at s) = false)
    /\ verify_token sha256_hexdigest (fst (logout sha256_hexdigest db token)) token now = unauthorized
    /\ (datetime_wf now ->
        (forall s, In s (user_sessions db) ->
           s_token_hash s = sha256_hexdigest token ->
           exists expiry, datetime_wf expiry
                          /\ s_expires_at s = isoformat expiry
                          /\ ~ datetime_lt now expiry) ->
        verify_token sha256_hexdigest db token now = unauthorized).
Proof.
  intros db token now. repeat split.
  - now apply find_by_token_some in H.
  - now apply find_by_token_some in H.
  - now apply find_by_token_some in H.
  - apply find_by_token_none.
  - apply find_by_token_none.
  - apply verify_none, find_by_token_after_logout.
  - intros Hnow Hexp. apply verify_none, find_by_token_none.
    intros s Hin Hh _. destruct (Hexp s Hin Hh) as (e & He & -> & Hle).
    destruct (text_lt (isoformat now) (isoformat e)) eqn:E; [|reflexivity].
    apply text_lt_isoformat in E; [contradiction|assumption..].
Qed.


(** *** Registration and login *)

Lemma find_by_username_fresh (db : database) (username : string) (u : user_row) :
  User_find_by_username db username = None ->
  u_username u = username ->
  User_find_by_username
    (mk_db (users db ++ [u])%list (user_sessions db)) username = Some u.
Proof.
  unfold User_find_by_username. intros Hnone Hu. simpl.
  rewrite find_app_last, Hnone, Hu, String.eqb_refl. reflexivity.
Qed.

Lemma find_by_id_fresh (db : database) (sessions : list session_row)
    (u : user_row) :
  u_id u = next_rowid (map u_id (users db)) ->
  User_find_by_id (mk_db (users db ++ [u])%list sessions) (u_id u) = Some u.
Proof.
  unfold User_find_by_id. intros Hid. simpl. rewrite find_app_last.
  replace (List.find (fun u0 => (u_id u0 =? u_id u)%Z) (users db)) with (@None user_row).
  - now rewrite Z.eqb_refl.
  - symmetry. apply find_none_iff. intros x Hx. apply Z.eqb_neq.
    pose proof (next_rowid_above (map u_id (users db)) (u_id x)
                  (in_map u_id _ _ Hx)). lia.
Qed.

Lemma login_rejects (db : database) (username password token : string)
    (now : datetime) :
  (forall row, User_find_by_username db username = Some row ->
     bcrypt_checkpw password (u_password row) = false) ->
  login sha256_hexdigest bcrypt_checkpw plus_7_days db username password token now
  = (db, bad_credentials).
Proof.
  intros H. unfold login.
  destruct (User_find_by_username db username) as [row|]; [|reflexivity].
  now rewrite (H row eq_refl).
Qed.

Lemma login_accepts (db : database) (username password token : string)
    (now : datetime) (row : user_row) :
  User_find_by_username db username = Some row ->
  bcrypt_checkpw password (u_password row) = true ->
  login sha256_hexdigest bcrypt_checkpw plus_7_days db username password token now
  = (mk_db (users db)
       (user_sessions db
        ++ [mk_session (next_rowid (map s_id (user_sessions db))) (u_id row)
              (sha256_hexdigest token) (isoformat (plus_7_days now)) 1])%list,
     Ok token).
Proof. intros Hu Hp. unfold login. rewrite Hu, Hp. reflexivity. Qed.

Lemma register_fresh (db : database) (name username password salt token : string)
    (now : datetime) :
  User_find_by_username db username = None ->
  register sha256_hexdigest bcrypt_hashpw plus_7_days db name username password
           salt token now
  = (mk_db
       (users db
        ++ [mk_user (next_rowid (map u_id (users db))) username
              (bcrypt_hashpw password salt) name])%list
       (user_sessions db
        ++ [mk_session (next_rowid (map s_id (user_sessions db)))
              (next_rowid (map u_id (users db)))
              (sha256_hexdigest token) (isoformat (plus_7_days now)) 1])%list,
     Ok token).
Proof. intros Hu. unfold register. rewrite Hu. reflexivity. Qed.

(** C5: for a username that is not registered, register followed by login
    with the same credentials returns the token it drew, and that token is
    usable at any time before the login's expiry: the lookup finds an active,
    unexpired session, and, when no earlier session carries the same token
    hash, verify answers with the registered user. A login whose password
    bcrypt rejects against the stored hash (and a login of an unknown
    username) fails with status 400 and leaves the store as it was, so no
    session and no token come of it. *)
Theorem register_then_login_yields_usable_token :
  (forall (db : database) (name username password salt : string)
          (token_r token_l : string) (now_r now_l now_v : datetime),
      User_find_by_username db username = None ->
      bcrypt_checkpw password (bcrypt_hashpw password salt) = true ->
      datetime_wf now_v -> datetime_wf (plus_7_days now_l) ->
      datetime_lt now_v (plus_7_days now_l) ->
      let registered :=
        register sha256_hexdigest bcrypt_hashpw plus_7_days db name username
                 password salt token_r now_r in
      let logged_in :=
        login sha256_hexdigest bcrypt_checkpw plus_7_days (fst registered)
              username password token_l now_l in
      snd registered = Ok token_r
      /\ snd logged_in = Ok token_l
      /\ (exists s,
            Session_find_by_token sha256_hexdigest (fst logged_in) token_l now_v
            = Some s
            /\ s_is_active s = 1%Z
            /\ text_lt (isoformat now_v) (s_expires_at s) = true)
      /\ ((forall s, In s (user_sessions (fst registered)) ->
              s_token_hash s <> sha256_hexdigest token_l) ->
          verify_token sha256_hexdigest (fst logged_in) token_l now_v
          = Ok (mk_verified true (next_rowid (map u_id (users db)))
                            username name)))
  /\ (forall (db : database) (username password token : string) (now : datetime),
        (forall row, User_find_by_username db username = Some row ->
           bcrypt_checkpw password (u_password row) = false) ->
        login sha256_hexdigest bcrypt_checkpw plus_7_days db username password
              token now
        = (db, bad_credentials)).
Proof.
  split; [|exact login_rejects].
  intros db name username password salt token_r token_l now_r now_l now_v
         Hfresh Hpw Hv He Hlt registered logged_in.
  set (uid := next_rowid (map u_id (users db))) in *.
  set (u := mk_user uid username (bcrypt_hashpw password salt) name).
  assert (Hreg : registered = _) by (apply register_fresh; exact Hfresh).
  set (db1 := mk_db _ _) in Hreg.
  assert (Hu : User_find_by_username db1 username = Some u).
  { subst db1. unfold User_find_by_username. simpl.
    unfold User_find_by_username in Hfresh.
    rewrite find_app_last, Hfresh. simpl. now rewrite String.eqb_refl. }
  pose proof (login_accepts db1 username password token_l now_l u Hu Hpw) as Hlog.
  set (s_l := mk_session _ _ _ _ _) in Hlog.
  assert (Hmatch : session_matches (sha256_hexdigest token_l) (isoformat now_v) s_l
                   = true).
  { apply session_matches_spec. repeat split; try reflexivity.
    now apply text_lt_isoformat. }
  subst logged_in. rewrite Hreg. simpl fst. simpl snd. rewrite Hlog.
  simpl fst. simpl snd.
  split; [reflexivity|]. split; [reflexivity|]. split.
  - unfold Session_find_by_token. simpl user_sessions. rewrite find_app_last.
    match goal with
    | |- context [List.find ?f ?l] => destruct (List.find f l) as [s|] eqn:E
    end.
    + exists s. apply List.find_some in E as [_ E].
      apply session_matches_spec in E. tauto.
    + rewrite Hmatch. exists s_l. repeat split. now apply text_lt_isoformat.
  - intros Hnew. unfold verify_token, Session_find_by_token.
    simpl user_sessions. rewrite find_app_last.
    match goal with
    | |- context [List.find ?f ?l] =>
        replace (List.find f l) with (@None session_row)
    end.
    + rewrite Hmatch. simpl s_user_id.
      subst db1. change uid with (u_id u).
      rewrite (find_by_id_fresh db _ u eq_refl). reflexivity.
    + symmetry. apply find_none_iff. intros s Hs.
      destruct (session_matches _ _ s) eqn:E; [|reflexivity].
      apply session_matches_spec in E as [E _]. now apply Hnew in Hs.
Qed.

End Sessions.

(** The instance for the sample store at [sample_now]: the token of the
    live session verifies, fails once it is logged out, and the token of
    the expired session fails although its active flag is set. *)
Lemma session_usable_only_active_and_unexpired_witness :
  verify_token Samples.sample_sha256 Samples.sample_database "t-live"
               Samples.sample_now
  = Ok (mk_verified true 1 "grace" "Grace")
  /\ verify_token Samples.sample_sha256
                  (fst (logout Samples.sample_sha256 Samples.sample_database
                               "t-live"))
                  "t-live" Samples.sample_now
     = unauthorized
  /\ map s_is_active (user_sessions Samples.sample_database) = [1%Z; 1%Z]
  /\ verify_token Samples.sample_sha256 Samples.sample_database "t-old"
                  Samples.sample_now
     = unauthorized.
Proof.
  split; [vm_compute; reflexivity|].
  split.
  { apply (session_usable_only_active_and_unexpired
             Samples.sample_sha256 Samples.sample_database "t-live"
             Samples.sample_now). }
  split; [reflexivity|].
  apply (session_usable_only_active_and_unexpired
           Samples.sample_sha256 Samples.sample_database "t-old"
           Samples.sample_now).
  - repeat split; apply Nat.ltb_lt; vm_compute; reflexivity.
  - intros s Hin Hhash. destruct Hin as [<-|[<-|[]]].
    + exists Samples.old_expiry. split.
      * repeat split; apply Nat.ltb_lt; vm_compute; reflexivity.
      * split; [reflexivity|]. intros Hlt. vm_compute in Hlt. discriminate.
    + vm_compute in Hhash. discriminate.
Defined.

(** The instance for the sample store: [ada] registers and logs in, the
    login's token verifies two days later, and a login with another
    password gets 400 and leaves the store as it was. *)
Lemma register_then_login_yields_usable_token_witness :
  let registered :=
    register Samples.sample_sha256 Samples.sample_hashpw
             Samples.sample_plus_7_days Samples.sample_database
             "Ada" "ada" "lovelace" "s1lt" "t-register" Samples.sample_now in
  let logged_in :=
    login Samples.sample_sha256 Samples.sample_checkpw
          Samples.sample_plus_7_days (fst registered)
          "ada" "lovelace" "t-login" Samples.sample_now in
  snd registered = Ok "t-register"
  /\ snd logged_in = Ok "t-login"
  /\ verify_token Samples.sample_sha256 (fst logged_in) "t-login"
                  Samples.sample_later
     = Ok (mk_verified true 2 "ada" "Ada")
  /\ login Samples.sample_sha256 Samples.sample_checkpw
           Samples.sample_plus_7_days (fst registered)
           "ada" "babbage" "t-other" Samples.sample_now
     = (fst registered, bad_credentials).
Proof.
  intros registered logged_in.
  destruct (register_then_login_yields_usable_token
              Samples.sample_sha256 Samples.sample_hashpw
              Samples.sample_checkpw Samples.sample_plus_7_days)
    as [Hgood Hbad].
  assert (Hwf : datetime_wf Samples.sample_later).
  { repeat split; apply Nat.ltb_lt; vm_compute; reflexivity. }
  assert (Hwf' : datetime_wf (Samples.sample_plus_7_days Samples.sample_now)).
  { repeat split; apply Nat.ltb_lt; vm_compute; reflexivity. }
  pose proof (Hgood Samples.sample_database "Ada" "ada" "lovelace" "s1lt"
                "t-register" "t-login" Samples.sample_now Samples.sample_now
                Samples.sample_later eq_refl eq_refl Hwf Hwf' eq_refl) as H.
  cbv zeta in H. destruct H as (Hreg & Hlog & _ & Hverify).
  split; [exact Hreg|]. split; [exact Hlog|]. split.
  - apply Hverify. intros s Hin Hhash.
    destruct Hin as [<-|[<-|[<-|[]]]]; vm_compute in Hhash; discriminate.
  - apply Hbad. intros row Hrow. vm_compute in Hrow.
    injection Hrow as <-. reflexivity.
Defined.

End AuthProps.

(** ** Storage browser *)

Module StorageProps.

Import Pandas Storage.

(** Runs a handler whose provider answers are fixed by equations in the
    context. *)
Ltac run_gcs :=
  unfold blob_download_as_text in *;
  unfold gcs_bind, get_gcs_client, bucket_exists, list_blobs, blob_exists,
    blob_download_as_bytes, blob_delete, api,
    gcs_raise, gcs_ret, swallow, reraise_http, lookup_blob in *;
  repeat (simpl in *;
          repeat match goal with
                 | H : ?x = _ |- context [?x] => rewrite H
                 end).

(** *** Deleting *)

Lemma delete_file_other_bucket (DEFAULT_BUCKET bucket_name file_name : string)
    (p : provider) :
  bucket_name <> DEFAULT_BUCKET ->
  delete_file DEFAULT_BUCKET bucket_name file_name p = (p, [], Raise forbidden).
Proof.
  intros Hne. unfold delete_file, reraise_http.
  apply String.eqb_neq in Hne. rewrite Hne. reflexivity.
Qed.

Lemma delete_file_calls (DEFAULT_BUCKET bucket_name file_name : string)
    (p : provider) (c : call) :
  In c (calls_of (delete_file DEFAULT_BUCKET bucket_name file_name p)) ->
  bucket_name = DEFAULT_BUCKET
  /\ (c = ClientInit \/ c = BlobExists bucket_name file_name
      \/ c = BlobDelete bucket_name file_name).
Proof.
  unfold delete_file, reraise_http, calls_of.
  destruct (String.eqb bucket_name DEFAULT_BUCKET) eqn:E; [|simpl; tauto].
  apply String.eqb_eq in E. intros H. split; [exact E|]. subst bucket_name.
  revert H.
  destruct (credentials_error p) eqn:Hc; [run_gcs; intuition auto|].
  destruct (outage p) eqn:Ho; [run_gcs; intuition auto|].
  destruct (buckets p !! DEFAULT_BUCKET) as [objs|] eqn:Hb;
    [|run_gcs; intuition auto].
  destruct (objs !! file_name) eqn:Hf; run_gcs; intuition auto.
Qed.

Lemma delete_file_missing (DEFAULT_BUCKET file_name : string) (p : provider) :
  credentials_error p = None -> outage p = None ->
  lookup_blob p DEFAULT_BUCKET file_name = None ->
  delete_file DEFAULT_BUCKET DEFAULT_BUCKET file_name p
  = (p, [ClientInit; BlobExists DEFAULT_BUCKET file_name],
     Raise (HTTPException 404 ("File '" ++ file_name ++ "' not found"))).
Proof.
  intros Hc Ho Hl. unfold delete_file, reraise_http. rewrite String.eqb_refl.
  unfold gcs_bind, get_gcs_client, blob_exists, api, gcs_raise.
  rewrite Hc, Ho, Hl. reflexivity.
Qed.

Lemma delete_file_frame (DEFAULT_BUCKET bucket_name file_name other : string)
    (p : provider) :
  other <> DEFAULT_BUCKET ->
  buckets (state_of (delete_file DEFAULT_BUCKET bucket_name file_name p)) !! other
  = buckets p !! other.
Proof.
  intros Hother. unfold delete_file, reraise_http, state_of.
  destruct (String.eqb bucket_name DEFAULT_BUCKET) eqn:E; [|reflexivity].
  apply String.eqb_eq in E. subst bucket_name.
  destruct (credentials_error p) eqn:Hc; [now run_gcs|].
  destruct (outage p) eqn:Ho; [now run_gcs|].
  destruct (buckets p !! DEFAULT_BUCKET) as [objs|] eqn:Hb; [|now run_gcs].
  destruct (objs !! file_name) eqn:Hf; [|now run_gcs].
  run_gcs. now rewrite lookup_insert_ne by congruence.
Qed.

(** C7: for every bucket other than the default one, delete answers 403,
    makes no call to the provider and leaves the store as it was; whatever
    the request, the only calls are made when the bucket is the default one
    (so a delete is only ever sent there) and every other bucket keeps its
    objects; in the default bucket a file that is not there gives 404. *)
Theorem delete_file_only_in_default_bucket :
  forall (DEFAULT_BUCKET bucket_name file_name : string) (p : provider),
    (bucket_name <> DEFAULT_BUCKET ->
       delete_file DEFAULT_BUCKET bucket_name file_name p
       = (p, [], Raise forbidden))
    /\ (forall c,
          In c (calls_of (delete_file DEFAULT_BUCKET bucket_name file_name p)) ->
          bucket_name = DEFAULT_BUCKET)
    /\ (forall other, other <> DEFAULT_BUCKET ->
          buckets (state_of (delete_file DEFAULT_BUCKET bucket_name file_name p))
            !! other
          = buckets p !! other)
    /\ (credentials_error p = None -> outage p = None ->
        lookup_blob p DEFAULT_BUCKET file_name = None ->
        delete_file DEFAULT_BUCKET DEFAULT_BUCKET file_name p
        = (p, [ClientInit; BlobExists DEFAULT_BUCKET file_name],
           Raise (HTTPException 404 ("File '" ++ file_name ++ "' not found")))).
Proof.
  intros D b f p. split; [apply delete_file_other_bucket|].
  split; [intros c Hc; now apply delete_file_calls in Hc|].
  split; [intros other; apply delete_file_frame|].
  apply delete_file_missing.
Qed.


(** *** Listing *)

Lemma get_bucket_files_state (bucket_name : string) (p : provider) :
  state_of (get_bucket_files bucket_name p) = p.
Proof.
  unfold get_bucket_files, state_of.
  destruct (credentials_error p) eqn:Hc; [now run_gcs|].
  destruct (outage p) eqn:Ho; [now run_gcs|].
  destruct (buckets p !! bucket_name) eqn:Hb; now run_gcs.
Qed.

Lemma map_is_fmap {A B : Type} (f : A -> B) (l : list A) : map f l = f <$> l.
Proof. induction l as [|a l IH]; simpl; [reflexivity|now rewrite IH]. Qed.

Lemma get_bucket_files_names (bucket_name : string) (p : provider)
    (files : list file_entry) :
  result_of (get_bucket_files bucket_name p) = Ok files ->
  NoDup (map f_name files).
Proof.
  unfold get_bucket_files, result_of.
  destruct (credentials_error p) eqn:Hc; [run_gcs; discriminate|].
  destruct (outage p) eqn:Ho; [run_gcs; discriminate|].
  destruct (buckets p !! bucket_name) as [objs|] eqn:Hb;
    [|run_gcs; discriminate].
  run_gcs. intros [= <-]. rewrite map_map. simpl.
  change (fun x : string * blob => x.1) with (@fst string blob).
  rewrite map_is_fmap. apply NoDup_fst_map_to_list.
Qed.

Lemma listing_names (p : provider) (bucket_name : string) :
  NoDup (map f_name (listing p bucket_name)).
Proof.
  unfold listing.
  destruct (result_of (get_bucket_files bucket_name p)) eqn:E;
    [now apply get_bucket_files_names in E|constructor].
Qed.

Lemma tag_name (source bucket info : string) (f : file_entry) :
  f_name (tag source bucket info f) = f_name f.
Proof. reflexivity. Qed.

Lemma has_name_find (name : string) (files : list file_entry) :
  List.find (fun f => String.eqb (f_name f) name) files = None
  <-> has_name name files = false.
Proof.
  unfold has_name. induction files as [|a l IH]; simpl; [tauto|].
  destruct (String.eqb (f_name a) name); simpl; [split; discriminate|exact IH].
Qed.

Lemma has_name_app (name : string) (l1 l2 : list file_entry) :
  has_name name (l1 ++ l2)%list = has_name name l1 || has_name name l2.
Proof. unfold has_name. apply existsb_app. Qed.

(** The loop over the public listing keeps what is there and appends, in
    order, the public files whose name is not there yet. *)
Lemma add_public_files_filter (public_bucket : string)
    (public_files combined_files : list file_entry) :
  NoDup (map f_name public_files) ->
  add_public_files public_bucket public_files combined_files
  = (combined_files
     ++ map (tag "public" public_bucket ("Public bucket: " ++ public_bucket))
            (List.filter (fun f => negb (has_name (f_name f) combined_files))
                    public_files))%list.
Proof.
  revert combined_files.
  induction public_files as [|file rest IH]; intros combined Hnd; simpl.
  - now rewrite app_nil_r.
  - inversion Hnd as [|? ? Hnotin Hrest]; subst.
    destruct (List.find _ combined) eqn:E.
    + assert (has_name (f_name file) combined = true) as ->.
      { destruct (has_name (f_name file) combined) eqn:E'; [reflexivity|].
        apply has_name_find in E'. congruence. }
      simpl. now apply IH.
    + apply has_name_find in E. rewrite E. simpl.
      rewrite (IH _ Hrest), <- app_assoc. simpl. do 3 f_equal.
      apply List.filter_ext_in. intros f Hf.
      rewrite has_name_app. simpl. rewrite orb_false_r.
      destruct (String.eqb (f_name file) (f_name f)) eqn:En;
        [|now rewrite orb_false_r].
      apply String.eqb_eq in En. exfalso. apply Hnotin. rewrite En.
      apply list_elem_of_In. now apply in_map.
Qed.

Lemma get_combined_files_result (DEFAULT_BUCKET public_bucket : string)
    (p : provider) :
  public_bucket <> EmptyString -> public_bucket <> DEFAULT_BUCKET ->
  result_of (get_combined_files DEFAULT_BUCKET (Some public_bucket) p)
  = Ok (add_public_files public_bucket (listing p public_bucket)
          (map (tag "uploaded" DEFAULT_BUCKET "Your uploaded files")
               (listing p DEFAULT_BUCKET))).
Proof.
  intros Hne Hd. unfold get_combined_files, listing, result_of.
  destruct public_bucket as [|c pb]; [contradiction|].
  apply String.eqb_neq in Hd. rewrite Hd. simpl negb. cbv iota.
  unfold gcs_bind, swallow, gcs_ret.
  pose proof (get_bucket_files_state DEFAULT_BUCKET p) as Hs.
  unfold state_of in Hs.
  destruct (get_bucket_files DEFAULT_BUCKET p) as [[p1 t1] r1]. simpl in Hs.
  subst p1.
  destruct r1 as [fs|e]; simpl;
    destruct (get_bucket_files (String c pb) p) as [[p2 t2] [gs|e2]];
    reflexivity.
Qed.

(** C10: the combined listing is empty when no public bucket is given
    (absent or the empty text), whatever the default bucket holds, and the
    call then reaches no provider; for a public bucket other than the
    default one the result is the uploaded files, each tagged with source
    uploaded and the default bucket, followed by those public files whose
    name no uploaded file has, each tagged with source public and the public
    bucket. So every entry carries its source and bucket, and a public file
    that shares its name with an uploaded file is not in the result. *)
Theorem combined_files_uploaded_shadow_public :
  forall (DEFAULT_BUCKET : string) (p : provider),
    get_combined_files DEFAULT_BUCKET None p = (p, [], Ok [])
    /\ get_combined_files DEFAULT_BUCKET (Some EmptyString) p = (p, [], Ok [])
    /\ forall public_bucket,
         public_bucket <> EmptyString -> public_bucket <> DEFAULT_BUCKET ->
         let uploaded :=
           map (tag "uploaded" DEFAULT_BUCKET "Your uploaded files")
               (listing p DEFAULT_BUCKET) in
         let shown :=
           List.filter (fun f => negb (has_name (f_name f) uploaded))
                       (listing p public_bucket) in
         let files :=
           (uploaded
            ++ map (tag "public" public_bucket
                        ("Public bucket: " ++ public_bucket)) shown)%list in
         result_of (get_combined_files DEFAULT_BUCKET (Some public_bucket) p)
         = Ok files
         /\ (forall f, In f files ->
               (f_source f = Some "uploaded" /\ f_bucket f = Some DEFAULT_BUCKET)
               \/ (f_source f = Some "public"
                   /\ f_bucket f = Some public_bucket))
         /\ (forall f, In f (listing p public_bucket) ->
               has_name (f_name f) uploaded = true ->
               forall g, In g files -> f_name g = f_name f ->
                         f_source g = Some "uploaded").
Proof.
  intros D p. split; [reflexivity|]. split; [reflexivity|].
  intros pb Hne Hd uploaded shown files. split; [|split].
  - rewrite get_combined_files_result by assumption.
    f_equal. apply add_public_files_filter, listing_names.
  - intros f Hf. apply in_app_or in Hf as [Hf|Hf];
      apply in_map_iff in Hf as (f0 & <- & _); [left|right]; now split.
  - intros f Hf Hshadow g Hg Hname.
    apply in_app_or in Hg as [Hg|Hg];
      apply in_map_iff in Hg as (g0 & <- & Hg0); [reflexivity|].
    apply List.filter_In in Hg0 as [_ Hg0].
    rewrite tag_name in Hname. rewrite Hname, Hshadow in Hg0. discriminate.
Qed.


(** *** Preview *)

Lemma head_length (n : Z) (df : DataFrame) :
  (0 <= n)%Z ->
  Z.of_nat (List.length (df_rows (head n df))) = Z.min n (len df).
Proof.
  intros Hn. unfold head, len.
  destruct (n <? 0)%Z eqn:E; [apply Z.ltb_lt in E; lia|].
  cbn [df_rows]. rewrite length_firstn. lia.
Qed.

Lemma to_dict_records_length (df : DataFrame) :
  List.length (to_dict_records df) = List.length (df_rows df).
Proof. unfold to_dict_records. apply length_map. Qed.

(** What a preview of a CSV object answers, for every row count. *)
Lemma preview_csv_answer
    (bytes_decode : option string -> string -> pyresult string)
    (read_csv : string -> pyresult DataFrame)
    (preview_json : string -> Z -> string)
    (bucket_name file_name : string) (rows : Z) (p : provider)
    (b : blob) (content : string) (df : DataFrame) :
  credentials_error p = None -> outage p = None ->
  lookup_blob p bucket_name file_name = Some b ->
  List.last (PyStr.split "." (PyStr.lower file_name)) EmptyString = "csv" ->
  bytes_decode (blob_content_type b) (blob_bytes b) = Ok content ->
  read_csv content = Ok df ->
  result_of (preview_file bytes_decode read_csv preview_json bucket_name
                          file_name rows p)
  = Ok (PreviewCsv (columns_info_of df) (to_dict_records (head rows df))
                   (Z.min rows (len df)) (len df)).
Proof.
  intros Hc Ho Hb Hext Hdec Hcsv.
  unfold preview_file, result_of, lookup_blob in *.
  unfold blob_download_as_text.
  unfold reraise_http, gcs_bind, get_gcs_client, blob_exists,
    blob_download_as_bytes, api, gcs_raise, gcs_ret, lookup_blob.
  rewrite Hc.
  repeat (progress (rewrite ?Ho, ?Hb, ?Hdec, ?Hext, ?Hcsv;
                    cbn -[PyStr.split PyStr.lower to_dict_records head])).
  reflexivity.
Qed.

(** The rows [df.head(n)] keeps for a negative [n]: all but the last
    [-n], and none when there are no more than that. *)
Lemma head_length_negative (n : Z) (df : DataFrame) :
  (n < 0)%Z ->
  Z.of_nat (List.length (df_rows (head n df))) = Z.max 0 (len df + n).
Proof.
  intros Hn. unfold head, len.
  destruct (n <? 0)%Z eqn:E; [|apply Z.ltb_ge in E; lia].
  cbn [df_rows]. rewrite length_firstn. lia.
Qed.

(** C8: for a CSV object with header [h1, h2] and [N] data rows the
    preview describes exactly the columns [h1] and [h2], each with its
    dtype and the type mapped from it, and reports [totalRows = N] and
    [rowsShown = min(rows, N)], for every requested row count. The records
    are those of [df.head(rows)]. For a count that is not negative they are
    [min(rows, N)], as the claim says. For a negative count [head] drops the
    last [-rows] rows: the preview returns [max(0, N + rows)] records, never
    fewer than the [min(rows, N)] the claim allows, and reports the negative
    count itself as [rowsShown], which is not the number of records it
    returns. *)
Theorem preview_csv_rows_shown_is_not_the_count :
  forall (bytes_decode : option string -> string -> pyresult string)
         (read_csv : string -> pyresult DataFrame)
         (preview_json : string -> Z -> string)
         (bucket_name file_name : string) (rows : Z) (p : provider)
         (b : blob) (content : string) (df : DataFrame)
         (h1 h2 d1 d2 : string),
    credentials_error p = None -> outage p = None ->
    lookup_blob p bucket_name file_name = Some b ->
    List.last (PyStr.split "." (PyStr.lower file_name)) EmptyString = "csv" ->
    bytes_decode (blob_content_type b) (blob_bytes b) = Ok content ->
    read_csv content = Ok df ->
    df_columns df = [(h1, d1); (h2, d2)] ->
    exists records rowsShown,
      result_of (preview_file bytes_decode read_csv preview_json bucket_name
                              file_name rows p)
      = Ok (PreviewCsv [ mk_column h1 (data_type_of d1) d1;
                         mk_column h2 (data_type_of d2) d2 ]
                       records rowsShown (len df))
      /\ records = to_dict_records (head rows df)
      /\ rowsShown = Z.min rows (len df)
      /\ ((0 <= rows)%Z -> Z.of_nat (List.length records) = rowsShown)
      /\ ((rows < 0)%Z ->
          Z.of_nat (List.length records) = Z.max 0 (len df + rows)
          /\ rowsShown = rows
          /\ (rowsShown < Z.of_nat (List.length records))%Z).
Proof.
  intros bytes_decode read_csv pj bucket file rows p b content df h1 h2 d1 d2
         Hc Ho Hb Hext Hdec Hcsv Hcols.
  exists (to_dict_records (head rows df)), (Z.min rows (len df)).
  split.
  { rewrite (preview_csv_answer bytes_decode read_csv pj bucket file rows p b
               content df Hc Ho Hb Hext Hdec Hcsv).
    unfold columns_info_of. rewrite Hcols. reflexivity. }
  split; [reflexivity|]. split; [reflexivity|].
  rewrite to_dict_records_length. split.
  - intros Hrows. now apply head_length.
  - intros Hrows. rewrite head_length_negative by exact Hrows.
    assert (Hlen : (0 <= len df)%Z) by (unfold len; lia).
    lia.
Qed.

(** The instance of the preview for the sample store at the row count
    [-1]: four of the five rows of [data.csv] are returned, and [rowsShown]
    is [-1]. *)
Lemma preview_csv_rows_shown_is_not_the_count_witness :
  exists records,
    result_of (preview_file Samples.sample_bytes_decode Samples.sample_read_csv
                            Samples.sample_preview_json
                            "uploads" "data.csv" (-1) Samples.sample_provider)
    = Ok (PreviewCsv [ mk_column "h1" "int" "int64";
                       mk_column "h2" "string" "object" ]
                     records (-1) 5)
    /\ List.length records = 4%nat.
Proof.
  assert (Hc : credentials_error Samples.sample_provider = None)
    by reflexivity.
  assert (Ho : outage Samples.sample_provider = None) by reflexivity.
  assert (Hb : lookup_blob Samples.sample_provider "uploads" "data.csv"
               = Some (Samples.sample_blob Samples.sample_csv))
    by (vm_compute; reflexivity).
  assert (Hext : List.last (PyStr.split "." (PyStr.lower "data.csv"))
                           EmptyString = "csv") by reflexivity.
  assert (Hdec : Samples.sample_bytes_decode
                   (blob_content_type (Samples.sample_blob Samples.sample_csv))
                   (blob_bytes (Samples.sample_blob Samples.sample_csv))
                 = Ok Samples.sample_csv) by (vm_compute; reflexivity).
  assert (Hcsv : Samples.sample_read_csv Samples.sample_csv
                 = Ok Samples.sample_frame) by (vm_compute; reflexivity).
  assert (Hcols : df_columns Samples.sample_frame
                  = [("h1", "int64"); ("h2", "object")]) by reflexivity.
  destruct (preview_csv_rows_shown_is_not_the_count
              Samples.sample_bytes_decode Samples.sample_read_csv
              Samples.sample_preview_json "uploads" "data.csv" (-1)
              Samples.sample_provider (Samples.sample_blob Samples.sample_csv)
              Samples.sample_csv Samples.sample_frame
              "h1" "h2" "int64" "object" Hc Ho Hb Hext Hdec Hcsv Hcols)
    as (records & rowsShown & Hres & Hrec & Hshown & _ & _).
  exists records. subst rowsShown. split; [exact Hres|].
  subst records. reflexivity.
Defined.

(** The instance for the sample store with default bucket [uploads]: a
    delete in [public] is refused without a call, and a delete of a file
    that [uploads] does not hold gives 404. *)
Lemma delete_file_only_in_default_bucket_witness :
  delete_file "uploads" "public" "races.csv" Samples.sample_provider
  = (Samples.sample_provider, [], Raise forbidden)
  /\ delete_file "uploads" "uploads" "missing.csv" Samples.sample_provider
     = (Samples.sample_provider,
        [ClientInit; BlobExists "uploads" "missing.csv"],
        Raise (HTTPException 404 ("File '" ++ "missing.csv" ++ "' not found"))).
Proof.
  split.
  - apply (delete_file_only_in_default_bucket
             "uploads" "public" "races.csv" Samples.sample_provider).
    discriminate.
  - apply (delete_file_only_in_default_bucket
             "uploads" "uploads" "missing.csv" Samples.sample_provider);
      reflexivity.
Defined.

(** The instance for the sample store: [data.csv] is in both buckets and
    is listed once, as an uploaded file. *)
Lemma combined_files_uploaded_shadow_public_witness :
  exists files,
    result_of (get_combined_files "uploads" (Some "public")
                                  Samples.sample_provider)
    = Ok files
    /\ map (fun f => (f_name f, f_source f, f_bucket f)) files
       = [ ("notes.txt", Some "uploaded", Some "uploads");
           ("data.csv", Some "uploaded", Some "uploads");
           ("races.csv", Some "public", Some "public") ].
Proof.
  destruct (combined_files_uploaded_shadow_public
              "uploads" Samples.sample_provider) as (_ & _ & H).
  assert (Hne : "public" <> EmptyString) by discriminate.
  assert (Hnd : "public" <> "uploads") by discriminate.
  specialize (H "public" Hne Hnd). cbv zeta in H.
  destruct H as (Hres & _ & _).
  eexists. split; [exact Hres|]. vm_compute. reflexivity.
Defined.

End StorageProps.

(** ** Code generation and execution pipeline *)

Module CodeGenProps.

Import Pandas CodeGen PyStrProps.

(** *** Rendering *)

(** C3: the empty record list renders as the fixed notice, which is no
    table; the single record [{a: 1, b: 2.5}] renders as the table written
    out below, whose header cells are [a] and [b] and whose one row shows
    [1] and [2.50]. Integers get thousands separators, a float with a
    fraction two decimals, a float without one is shown as an integer. *)
Theorem json_to_html_table_empty_and_single_record :
  json_to_html_table [] = "<p>No data to display</p>"
  /\ PyStr.contains "<table" (json_to_html_table []) = false
  /\ (let data := [[("a", PInt 1); ("b", PFloat (5 # 2))]] in
      let q := String "034"%char EmptyString in
      let nl := String "010"%char EmptyString in
      let th_class :=
        "px-6 py-3 text-left text-xs font-medium text-gray-500 uppercase tracking-wider" in
      let td_class := "px-6 py-4 whitespace-nowrap text-sm text-gray-900" in
      json_to_html_table data
      = nl ++ "    <table class=" ++ q ++ "min-w-full divide-y divide-gray-200"
           ++ q ++ ">" ++ nl
        ++ "        <thead class=" ++ q ++ "bg-gray-50" ++ q ++ ">" ++ nl
        ++ "            <tr>" ++ nl
        ++ "    "
        ++ "<th class=" ++ q ++ th_class ++ q ++ ">a</th>" ++ nl
        ++ "<th class=" ++ q ++ th_class ++ q ++ ">b</th>" ++ nl
        ++ nl ++ "            </tr>" ++ nl
        ++ "        </thead>" ++ nl
        ++ "        <tbody class=" ++ q ++ "bg-white divide-y divide-gray-200"
           ++ q ++ ">" ++ nl
        ++ "    "
        ++ "<tr>" ++ nl
        ++ "<td class=" ++ q ++ td_class ++ q ++ ">1</td>" ++ nl
        ++ "<td class=" ++ q ++ td_class ++ q ++ ">2.50</td>" ++ nl
        ++ "</tr>" ++ nl
        ++ nl ++ "        </tbody>" ++ nl
        ++ "    </table>" ++ nl
        ++ "    "
      /\ dict_keys (List.hd [] data) = ["a"; "b"]
      /\ map (row_cells ["a"; "b"]) data = [["1"; "2.50"]])
  /\ format_value (PInt 1234567) = "1,234,567"
  /\ format_value (PInt (-1000)) = "-1,000"
  /\ format_value (PFloat (24691 # 2)) = "12,345.50"
  /\ format_value (PFloat (4 # 2)) = "2".
Proof. repeat split; vm_compute; reflexivity. Qed.

(** *** Identifier of a selected file *)

Lemma sanitized_char (c : ascii) :
  is_identifier_char
    (PyStr.lower_char (if is_alnum_ascii c then c else "_"%char)) = true.
Proof. destruct c as [[] [] [] [] [] [] [] []]; vm_compute; reflexivity. Qed.

Lemma sanitized_chars (s : string) :
  PyStr.all_chars is_identifier_char (PyStr.lower (re_sub_non_alnum s)) = true.
Proof.
  induction s as [|c s IH]; simpl; [reflexivity|].
  now rewrite sanitized_char, IH.
Qed.

Lemma identifier_digit (c : ascii) :
  is_identifier_char c = true -> PyStr.isdigit c = PyStr.is_ascii_digit c.
Proof. destruct c as [[] [] [] [] [] [] [] []]; vm_compute; congruence. Qed.

(** For a filename with a non-empty stem the mapping gives a name made of
    lowercase letters, digits and underscores that does not start with a
    digit; it raises exactly when the stem is empty. *)
Lemma variable_name_sanitized (filename : string) :
  match variable_name_of filename with
  | Ok name =>
      PyStr.all_chars is_identifier_char name = true
      /\ (exists c rest, name = String c rest /\ PyStr.isdigit c = false)
      /\ List.hd EmptyString (PyStr.split "." filename) <> EmptyString
  | Raise e =>
      e = PyError "IndexError" "string index out of range"
      /\ List.hd EmptyString (PyStr.split "." filename) = EmptyString
  end.
Proof.
  unfold variable_name_of.
  pose proof (sanitized_chars (List.hd EmptyString (PyStr.split "." filename)))
    as Hall.
  destruct (List.hd EmptyString (PyStr.split "." filename)) as [|c0 stem];
    [now split|].
  simpl in *. apply andb_true_iff in Hall as [Hc Hrest].
  set (c := PyStr.lower_char (if is_alnum_ascii c0 then c0 else "_"%char)) in *.
  destruct (PyStr.isdigit c) eqn:Hd.
  - split; [|split; [|discriminate]].
    + simpl. now rewrite Hc, Hrest.
    + eexists. eexists. split; reflexivity.
  - split; [|split; [|discriminate]].
    + simpl. now rewrite Hc, Hrest.
    + exists c. eexists. split; [reflexivity|exact Hd].
Qed.

(** C9 at a filename whose stem is empty: [variable_name[0]] raises
    IndexError, so the mapping gives no identifier; an Execute request in
    Python and a Generate request that select such a file end in the
    handler's error response. *)
Theorem variable_name_of_empty_stem_raises :
  variable_name_of ".csv"
  = Raise (PyError "IndexError" "string index out of range")
  /\ (forall DEFAULT_BUCKET storage_read_csv python_syntax_error python_exec
             to_sql_error read_sql_query head_str respelled_sql_script to_json
             json_loads print_exception undetermined host_error code,
        execute_code DEFAULT_BUCKET storage_read_csv python_syntax_error
                     python_exec to_sql_error read_sql_query head_str
                     respelled_sql_script to_json json_loads print_exception
                     undetermined host_error
                     (mk_exec_request code python [Samples.hidden_file])
        = mk_exec_response false None (Some "string index out of range"))
  /\ (forall DEFAULT_BUCKET key generate_content question lang,
        key <> EmptyString ->
        generate_code DEFAULT_BUCKET (Some key) generate_content
                      (mk_gen_request question lang [Samples.hidden_file])
        = mk_gen_response EmptyString false
                          (Some "string index out of range")).
Proof.
  split; [reflexivity|]. split.
  - intros. reflexivity.
  - intros D key gc q lang Hkey. unfold generate_code, api_key_missing.
    destruct key; [contradiction|]. reflexivity.
Qed.


(** The bucket behind a selected file follows its provenance: the default
    bucket for an uploaded file (also when no source is given), otherwise
    the bucket the file names, and the default bucket when it names none. *)
Lemma file_mapping_step_bucket (DEFAULT_BUCKET : string)
    (file_mapping file_mapping' : pydict mapping_entry) (file : file_info)
    (filename variable_name : string) :
  file !! "filename" = Some filename ->
  variable_name_of filename = Ok variable_name ->
  file_mapping_step DEFAULT_BUCKET file_mapping file = Ok file_mapping' ->
  file_mapping'
  = dict_set file_mapping variable_name
      (mk_entry filename
         (match file !! "source" with
          | None => DEFAULT_BUCKET
          | Some source =>
              if String.eqb source "uploaded" then DEFAULT_BUCKET
              else default DEFAULT_BUCKET (file !! "bucket")
          end)
         (default "uploaded" (file !! "source"))).
Proof.
  unfold file_mapping_step. intros -> Hname. unfold bind. rewrite Hname.
  intros [= <-]. destruct (file !! "source"); reflexivity.
Qed.

(** *** The generation boundary *)

Lemma single_quoted_escaped (msg tail : string) :
  PyStr.all_chars benign_char msg = true ->
  single_quoted
    (PyStr.replace_char "'"%char "\'" msg ++ String "'"%char tail)
  = Some (msg, tail).
Proof.
  induction msg as [|c msg IH]; intros Hall; [reflexivity|].
  simpl in Hall. apply andb_true_iff in Hall as [Hc Hall].
  specialize (IH Hall). simpl PyStr.replace_char.
  destruct (Ascii.eqb c "'"%char) eqn:Eq.
  - apply Ascii.eqb_eq in Eq. subst c.
    rewrite !append_cons, append_empty. cbn [single_quoted Ascii.eqb Bool.eqb orb].
    now rewrite IH.
  - rewrite append_cons. cbn [single_quoted]. rewrite Eq.
    unfold benign_char in Hc. apply negb_true_iff in Hc.
    apply orb_false_iff in Hc as [Hc Hcr]. apply orb_false_iff in Hc as [Hb Hlf].
    rewrite Hlf, Hcr, Hb. cbn [orb]. now rewrite IH.
Qed.

Lemma one_line_append (a b : string) :
  one_line (a ++ b) = one_line a && one_line b.
Proof.
  unfold one_line. induction a as [|c a IH]; simpl; [reflexivity|].
  now rewrite IH, andb_assoc.
Qed.

Lemma one_line_escaped (msg : string) :
  PyStr.all_chars benign_char msg = true ->
  one_line (PyStr.replace_char "'"%char "\'" msg) = true.
Proof.
  unfold one_line. induction msg as [|c msg IH]; intros Hall; [reflexivity|].
  simpl in Hall. apply andb_true_iff in Hall as [Hc Hall].
  specialize (IH Hall). simpl PyStr.replace_char.
  destruct (Ascii.eqb c "'"%char) eqn:Eq.
  - rewrite !append_cons, append_empty. cbn. exact IH.
  - cbn [PyStr.all_chars]. rewrite IH, andb_true_r.
    unfold benign_char in Hc. apply negb_true_iff in Hc.
    apply orb_false_iff in Hc as [Hc Hcr]. apply orb_false_iff in Hc as [_ Hlf].
    now rewrite Hlf, Hcr.
Qed.

Lemma fallback_runs (msg : string) :
  PyStr.all_chars benign_char msg = true ->
  print_statement_output
    ("print('Error generating code: "
     ++ PyStr.replace_char "'"%char "\'" msg ++ "')")
  = Some ("Error generating code: " ++ msg).
Proof.
  intros Hall. unfold print_statement_output.
  rewrite !append_cons, append_empty.
  cbn [PyStr.startswith PyStr.drop Ascii.eqb Bool.eqb andb].
  cbn [single_quoted Ascii.eqb Bool.eqb orb].
  change (PyStr.replace_char "'"%char "\'" msg ++ "')")
    with (PyStr.replace_char "'"%char "\'" msg ++ String "'"%char ")").
  rewrite (single_quoted_escaped msg ")" Hall). reflexivity.
Qed.

(** What holds of the boundary: the function returns a text whatever the
    call does; on success it is the response text; on a failure whose
    message has no backslash and no line break the fallback is one line
    that, run as Python, prints the message and nothing else. *)
Lemma generate_response_benign (key : option string)
    (generate_content : string -> string -> pyresult string)
    (prompt model : string) :
  (forall text, api_key_missing key = false ->
     generate_content model prompt = Ok text ->
     _generate_response key generate_content prompt model = text)
  /\ (forall cls msg, api_key_missing key = false ->
        generate_content model prompt = Raise (PyError cls msg) ->
        PyStr.all_chars benign_char msg = true ->
        one_line (_generate_response key generate_content prompt model) = true
        /\ print_statement_output
             (_generate_response key generate_content prompt model)
           = Some ("Error generating code: " ++ msg))
  /\ (api_key_missing key = true ->
      _generate_response key generate_content prompt model
      = "print('Error generating code: GEMINI_API_KEY not found in environment variables')").
Proof.
  unfold _generate_response. split; [|split].
  - intros text -> ->. reflexivity.
  - intros cls msg -> -> Hall. cbn [str_exn]. split.
    + rewrite !one_line_append, one_line_escaped by assumption. reflexivity.
    + apply fallback_runs. exact Hall.
  - intros ->. reflexivity.
Qed.

(** C6 at a failure whose message has a line break, and at one whose
    message ends in a backslash: the call is caught and a text of the form
    [print('Error generating code: ...')] is returned, but the first text
    spans two lines and neither is a source that prints the message when
    run (the literal is cut by the line break, or its closing quote is
    escaped by the backslash). *)
Theorem generate_response_fallback_not_one_line :
  (let source :=
     _generate_response (Some "key") Samples.failing_generate_content
                        "prompt" default_model in
   source = "print('Error generating code: 400 API key not valid."
            ++ PyStr.LF ++ "Please pass a valid API key.')"
   /\ one_line source = false
   /\ print_statement_output source = None)
  /\ (let source :=
        _generate_response (Some "key") Samples.backslash_generate_content
                           "prompt" default_model in
      source = "print('Error generating code: no such file: C:"
               ++ PyStr.backslash ++ "')"
      /\ print_statement_output source = None).
Proof. repeat split; vm_compute; reflexivity. Qed.

(** *** The child process and its four failure causes *)

Lemma run_stmts_app (a b : list stmt) (g : globals) (out : string) :
  run_stmts (a ++ b)%list g out
  = match run_stmts a g out with
    | Finished g' out' => run_stmts b g' out'
    | other => other
    end.
Proof.
  revert g out. induction a as [|s a IH]; intros g out; [reflexivity|].
  destruct s; simpl; auto.
Qed.


Section Causes.

Variable to_json : DataFrame -> pyresult string.
Variable json_loads : string -> pyresult (list record).
Variable print_exception : pyexn -> string.
Variable undetermined : globals -> string -> run_outcome.






End Causes.

(** *** Dictionaries in insertion order *)

Lemma dict_get_set_eq {V : Type} (d : pydict V) (k : string) (v : V) :
  dict_get (dict_set d k v) k = Some v.
Proof.
  induction d as [|[k' v'] d IH]; simpl.
  - now rewrite String.eqb_refl.
  - destruct (String.eqb k' k) eqn:E; simpl; rewrite E; [reflexivity|exact IH].
Qed.

Lemma dict_get_set_ne {V : Type} (d : pydict V) (k k' : string) (v : V) :
  k <> k' -> dict_get (dict_set d k v) k' = dict_get d k'.
Proof.
  intros Hne. induction d as [|[k0 v0] d IH]; simpl.
  - apply String.eqb_neq in Hne. now rewrite Hne.
  - destruct (String.eqb k0 k) eqn:E; simpl.
    + apply String.eqb_eq in E. subst k0.
      apply String.eqb_neq in Hne. now rewrite Hne.
    + now rewrite IH.
Qed.

Lemma dict_get_none_keys {V : Type} (d : pydict V) (k : string) :
  dict_get d k = None <-> ~ In k (dict_keys d).
Proof.
  induction d as [|[k0 v0] d IH]; simpl; [tauto|].
  destruct (String.eqb k0 k) eqn:E.
  - apply String.eqb_eq in E. split; [discriminate|]. intros H. exfalso. auto.
  - apply String.eqb_neq in E. rewrite IH. tauto.
Qed.

Lemma dict_keys_set {V : Type} (d : pydict V) (k : string) (v : V) :
  dict_keys (dict_set d k v)
  = if dict_mem d k then dict_keys d else (dict_keys d ++ [k])%list.
Proof.
  unfold dict_mem. induction d as [|[k0 v0] d IH]; simpl; [reflexivity|].
  destruct (String.eqb k0 k) eqn:E; simpl; [reflexivity|].
  rewrite IH. destruct (dict_get d k); reflexivity.
Qed.

Lemma dict_wf_set {V : Type} (d : pydict V) (k : string) (v : V) :
  dict_wf d -> dict_wf (dict_set d k v).
Proof.
  unfold dict_wf. intros H. rewrite dict_keys_set. unfold dict_mem.
  destruct (dict_get d k) eqn:E; [exact H|].
  apply dict_get_none_keys in E.
  apply NoDup_ListNoDup. apply NoDup_ListNoDup in H.
  apply NoDup_app. split; [exact H|]. split.
  - intros x Hx Hk. apply list_elem_of_In in Hx.
    apply list_elem_of_In in Hk as [->|[]]. contradiction.
  - apply NoDup_singleton.
Qed.

Lemma candidate_names_keys (g : globals) (n : string) :
  In n (candidate_names g) -> In n (dict_keys g).
Proof.
  unfold candidate_names, dict_keys. rewrite !in_map_iff.
  intros (kv & <- & H). apply List.filter_In in H as [H _]. eauto.
Qed.

Lemma filter_other_than_absent (k : string) (l : list string) :
  ~ In k l -> List.filter (other_than k) l = l.
Proof.
  induction l as [|x l IH]; intros H; simpl; [reflexivity|].
  unfold other_than at 1. destruct (String.eqb x k) eqn:E.
  - apply String.eqb_eq in E. subst x. exfalso. apply H. now left.
  - simpl. rewrite IH; [reflexivity|]. intros Hin. apply H. now right.
Qed.

(** Binding a name to a value that is no frame removes it from the
    candidates and leaves the others in their order. *)
Lemma candidate_names_set_other (g : globals) (k : string) (v : pyobj) :
  dict_wf g -> is_dataframe v = false ->
  candidate_names (dict_set g k v)
  = List.filter (other_than k) (candidate_names g).
Proof.
  unfold dict_wf. intros Hwf Hv.
  induction g as [|[k0 v0] g IH]; simpl.
  - unfold candidate_names. simpl. now rewrite Hv.
  - inversion Hwf as [|? ? Hnotin Hwf']; subst.
    destruct (String.eqb k0 k) eqn:E.
    + apply String.eqb_eq in E. subst k0.
      unfold candidate_names. simpl. rewrite Hv.
      assert (Hk : ~ In k (candidate_names g)).
      { intros Hin. apply Hnotin. now apply candidate_names_keys. }
      fold (candidate_names g).
      destruct (is_dataframe v0); simpl.
      * unfold other_than at 1. rewrite String.eqb_refl. simpl.
        symmetry. now apply filter_other_than_absent.
      * symmetry. now apply filter_other_than_absent.
    + unfold candidate_names in *. simpl.
      destruct (is_dataframe v0); simpl.
      * unfold other_than at 1. rewrite E. simpl. f_equal. now apply IH.
      * now apply IH.
Qed.

(** Binding a new name to a frame makes it the last candidate. *)
Lemma candidate_names_set_fresh (g : globals) (k : string) (df : DataFrame) :
  dict_get g k = None ->
  candidate_names (dict_set g k (ODataFrame df))
  = (candidate_names g ++ [k])%list.
Proof.
  unfold candidate_names. induction g as [|[k0 v0] g IH]; simpl; [reflexivity|].
  destruct (String.eqb k0 k) eqn:E; [discriminate|].
  intros H. simpl. destruct (is_dataframe v0); simpl; now rewrite IH.
Qed.

Lemma filter_keeps_last (k name : string) (c : list string) :
  name <> k ->
  List.filter (other_than k) (c ++ [name])
  = (List.filter (other_than k) c ++ [name])%list.
Proof.
  intros Hne. rewrite List.filter_app. simpl. unfold other_than at 2.
  apply String.eqb_neq in Hne. now rewrite Hne.
Qed.

(** *** The selection of the appended lines *)

Lemma untouched_assign (name k : string) (v : pyobj) :
  untouched name (Assign k v) = true ->
  k <> "ans_df" /\ k <> "pd" /\ k <> name.
Proof.
  unfold untouched. cbn [binds ends_run].
  rewrite !andb_true_iff, !negb_true_iff.
  intros [[[[H0 H1] H2] _] _].
  apply String.eqb_neq in H0, H1, H2. tauto.
Qed.

Lemma builtins_unbound_get (g : globals) (name : string) :
  builtins_unbound g = true -> In name guarded_names ->
  dict_get g name = None.
Proof.
  unfold builtins_unbound. rewrite forallb_forall. intros H Hin.
  specialize (H name Hin). unfold dict_mem in H.
  now destruct (dict_get g name).
Qed.

(** Binding a name that is none of the built-in names leaves them as they
    are. *)
Lemma builtins_unbound_set (g : globals) (k : string) (v : pyobj) :
  binds_builtin (Assign k v) = false ->
  builtins_unbound (dict_set g k v) = builtins_unbound g.
Proof.
  unfold binds_builtin, builtins_unbound, guarded_names, builtin_names.
  cbn [existsb forallb binds]. rewrite !orb_false_iff.
  intros (H0 & H1 & H2 & H3 & H4 & _).
  apply String.eqb_neq in H0, H1, H2, H3, H4.
  unfold dict_mem. now rewrite !dict_get_set_ne by assumption.
Qed.

Lemma run_keeps_builtins (prog : list stmt) (g g' : globals)
    (out out' : string) :
  forallb (fun s => negb (binds_builtin s)) prog = true ->
  run_stmts prog g out = Finished g' out' ->
  builtins_unbound g' = builtins_unbound g.
Proof.
  revert g out. induction prog as [|s prog IH]; intros g out Hall Hrun.
  - cbn in Hrun. now injection Hrun as <- _.
  - cbn [forallb] in Hall. apply andb_true_iff in Hall as [Hs Hall].
    apply negb_true_iff in Hs.
    destruct s as [k v|line|tb|rc err|]; cbn [run_stmts] in Hrun;
      try discriminate.
    + rewrite (IH _ _ Hall Hrun). now apply builtins_unbound_set.
    + exact (IH _ _ Hall Hrun).
Qed.

Lemma untouched_spares_builtins (name : string) (prog : list stmt) :
  forallb (untouched name) prog = true ->
  forallb (fun s => negb (binds_builtin s)) prog = true.
Proof.
  rewrite !forallb_forall. intros H s Hs. specialize (H s Hs).
  unfold untouched in H. rewrite !andb_true_iff in H. tauto.
Qed.

Lemma quiet_untouched (name : string) (prog : list stmt) :
  forallb (quiet name) prog = true -> forallb (untouched name) prog = true.
Proof.
  rewrite !forallb_forall. intros H s Hs. specialize (H s Hs).
  unfold quiet in H. apply andb_true_iff in H. tauto.
Qed.

Lemma harmless_spares_builtins (prog : list stmt) :
  forallb harmless prog = true ->
  forallb (fun s => negb (binds_builtin s)) prog = true.
Proof.
  rewrite !forallb_forall. intros H s Hs. specialize (H s Hs).
  unfold harmless in H. rewrite !andb_true_iff in H. tauto.
Qed.

Lemma run_untouched (name : string) (prog : list stmt) (g : globals)
    (out : string) :
  forallb (untouched name) prog = true ->
  dict_wf g -> PyStr.complete_lines out ->
  exists g' out',
    run_stmts prog g out = Finished g' out'
    /\ dict_wf g' /\ PyStr.complete_lines out'
    /\ dict_get g' "ans_df" = dict_get g "ans_df"
    /\ dict_get g' "pd" = dict_get g "pd"
    /\ dict_get g' name = dict_get g name.
Proof.
  revert g out. induction prog as [|s prog IH]; intros g out Hall Hwf Hout.
  - exists g, out. repeat split; assumption.
  - simpl in Hall. apply andb_true_iff in Hall as [Hs Hall].
    destruct s as [k v|line|tb|rc err|]; simpl.
    + apply untouched_assign in Hs as (Ha & Hp & Hn).
      destruct (IH (dict_set g k v) out Hall (dict_wf_set g k v Hwf) Hout)
        as (g' & out' & Hrun & Hwf' & Hout' & E1 & E2 & E3).
      exists g', out'. rewrite Hrun, E1, E2, E3.
      rewrite !dict_get_set_ne by assumption. repeat split; assumption.
    + destruct (IH g (out ++ line ++ PyStr.LF) Hall Hwf
                   (complete_lines_append_line out line))
        as (g' & out' & Hrun & H).
      exists g', out'. split; assumption.
    + discriminate.
    + discriminate.
    + discriminate.
Qed.

Lemma run_quiet (name : string) (prog : list stmt) (g : globals)
    (out : string) (c : list string) :
  forallb (quiet name) prog = true ->
  dict_wf g -> PyStr.complete_lines out ->
  candidate_names g = (c ++ [name])%list ->
  exists g' out' c',
    run_stmts prog g out = Finished g' out'
    /\ dict_wf g' /\ PyStr.complete_lines out'
    /\ dict_get g' "ans_df" = dict_get g "ans_df"
    /\ dict_get g' "pd" = dict_get g "pd"
    /\ dict_get g' name = dict_get g name
    /\ candidate_names g' = (c' ++ [name])%list.
Proof.
  revert g out c. induction prog as [|s prog IH]; intros g out c Hall Hwf Hout Hc.
  - exists g, out, c. repeat split; assumption.
  - simpl in Hall. apply andb_true_iff in Hall as [Hs Hall].
    unfold quiet in Hs. apply andb_true_iff in Hs as [Hu Hq].
    destruct s as [k v|line|tb|rc err|]; simpl.
    + apply untouched_assign in Hu as (Ha & Hp & Hn).
      assert (Hv : is_dataframe v = false)
        by (destruct v; simpl in Hq; [reflexivity..|discriminate|reflexivity]).
      assert (Hc' : candidate_names (dict_set g k v)
                    = (List.filter (other_than k) c ++ [name])%list).
      { rewrite candidate_names_set_other, Hc by assumption.
        apply filter_keeps_last. congruence. }
      destruct (IH (dict_set g k v) out _ Hall (dict_wf_set g k v Hwf) Hout Hc')
        as (g' & out' & c' & Hrun & Hwf' & Hout' & E1 & E2 & E3 & E4).
      exists g', out', c'. rewrite Hrun, E1, E2, E3.
      rewrite !dict_get_set_ne by assumption. repeat split; assumption.
    + destruct (IH g (out ++ line ++ PyStr.LF) c Hall Hwf
                   (complete_lines_append_line out line) Hc)
        as (g' & out' & c' & Hrun & H).
      exists g', out', c'. split; assumption.
    + discriminate.
    + discriminate.
    + discriminate.
Qed.

(** The appended lines select the frame whose name is the last candidate,
    when no [ans_df] is bound. *)
Lemma epilogue_globals_selects_last (g : globals) (c : list string)
    (name : string) (df : DataFrame) :
  dict_wf g -> dict_get g "ans_df" = None ->
  candidate_names g = (c ++ [name])%list ->
  dict_get g name = Some (ODataFrame df) ->
  name <> "json" -> name <> "_candidate_names" ->
  dict_get (epilogue_globals g) "ans_df" = Some (ODataFrame df).
Proof.
  intros Hwf Hans Hc Hname Hj Hcn. unfold epilogue_globals.
  rewrite candidate_names_set_other, Hc by (assumption || reflexivity).
  rewrite filter_keeps_last by assumption.
  set (c1 := List.filter (other_than "json") c).
  set (g2 := dict_set (dict_set g "json" (OModule "json")) "_candidate_names"
                      (OOther "list")).
  assert (Hmem : dict_mem g2 "ans_df" = false).
  { unfold dict_mem, g2. rewrite !dict_get_set_ne, Hans by discriminate.
    reflexivity. }
  assert (Hget : dict_get g2 name = Some (ODataFrame df)).
  { unfold g2. rewrite !dict_get_set_ne by congruence. exact Hname. }
  unfold auto_select. rewrite Hmem, List.last_last, Hget.
  destruct (c1 ++ [name])%list eqn:E.
  - apply app_eq_nil in E as [_ E]. discriminate.
  - apply dict_get_set_eq.
Qed.

(** With the built-in names unbound, every call of the appended lines
    reaches the built-in. *)
Lemma call_builtin_unbound (print_exception : pyexn -> string)
    (undetermined : globals -> string -> run_outcome) (name : string)
    (g : globals) (out : string) (go_on : run_outcome) :
  builtins_unbound g = true -> In name builtin_names ->
  call_builtin print_exception undetermined name g out go_on = go_on.
Proof.
  intros Hfree Hin. unfold call_builtin.
  now rewrite (builtins_unbound_get g name Hfree (or_intror Hin)).
Qed.

Lemma epilogue_emits (to_json : DataFrame -> pyresult string)
    (print_exception : pyexn -> string)
    (undetermined : globals -> string -> run_outcome) (g : globals)
    (out : string) (df : DataFrame) (result : string) :
  builtins_unbound g = true ->
  dict_get g "pd" = Some (OModule "pandas") ->
  dict_get (epilogue_globals g) "ans_df" = Some (ODataFrame df) ->
  to_json df = Ok result ->
  epilogue to_json print_exception undetermined g out
  = Completed 0 (out ++ framed result) EmptyString.
Proof.
  intros Hfree Hpd Hans Hjson. unfold epilogue, dict_mem.
  rewrite (builtins_unbound_get g "__builtins__" Hfree (or_introl eq_refl)).
  assert (Hcall : forall name go_on,
             In name builtin_names ->
             call_builtin print_exception undetermined name g out go_on
             = go_on)
    by (intros; now apply call_builtin_unbound).
  rewrite !Hcall by (unfold builtin_names; cbn [In]; tauto).
  rewrite Hpd. cbn [String.eqb Ascii.eqb Bool.eqb]. cbv iota.
  rewrite ?Hcall by (unfold builtin_names; cbn [In]; tauto).
  rewrite Hans, Hjson.
  rewrite ?Hcall by (unfold builtin_names; cbn [In]; tauto).
  reflexivity.
Qed.

Lemma forallb_concat {A : Type} (p : A -> bool) (ls : list (list A)) :
  forallb p (concat ls) = forallb (forallb p) ls.
Proof.
  induction ls as [|l ls IH]; simpl; [reflexivity|].
  now rewrite forallb_app, IH.
Qed.



Lemma dataset_names_free :
  forallb (fun source : string * string * string =>
             negb (String.eqb (fst (fst source)) "ans_df")
             && negb (String.eqb (fst (fst source)) "pd")
             && negb (binds_builtin (Assign (fst (fst source)) ONone)))
          dataset_sources = true.
Proof. vm_compute. reflexivity. Qed.

(** The statements that load one dataset bind its name and nothing else. *)
Lemma load_stmts_bind (storage_read_csv : string -> pyresult DataFrame)
    (name : string) (source : string * string * string) :
  fst (fst source) <> name -> In source dataset_sources ->
  forallb (untouched name) (load_stmts storage_read_csv source) = true.
Proof.
  intros Hfresh Hs.
  pose proof dataset_names_free as Hfree.
  rewrite forallb_forall in Hfree. specialize (Hfree source Hs).
  apply andb_true_iff in Hfree as [Hfree Hb].
  apply andb_true_iff in Hfree as [Ha Hp].
  destruct source as [[var_name place] url]. cbn [fst snd] in *.
  apply String.eqb_neq in Hfresh.
  assert (Hany : forall v, untouched name (Assign var_name v) = true).
  { intros v. unfold untouched. cbn [binds ends_run].
    change (binds_builtin (Assign var_name v))
      with (binds_builtin (Assign var_name ONone)).
    now rewrite Ha, Hp, Hb, Hfresh. }
  unfold load_stmts. destruct (storage_read_csv url); cbn [forallb];
    rewrite Hany; reflexivity.
Qed.

Section AutoSelection.

Variable DEFAULT_BUCKET : string.
Variable storage_read_csv : string -> pyresult DataFrame.
Variable python_syntax_error : string -> option string.
Variable python_exec : string -> globals -> list stmt.
Variable to_sql_error : string -> DataFrame -> option string.
Variable read_sql_query : list (string * DataFrame) -> string -> pyresult DataFrame.
Variable head_str : DataFrame -> string.
Variable respelled_sql_script : string -> list stmt.
Variable to_json : DataFrame -> pyresult string.
Variable json_loads : string -> pyresult (list record).
Variable print_exception : pyexn -> string.
Variable undetermined : globals -> string -> run_outcome.



(** What the parent cuts out of an output in which the sentinels occur only
    where the appended lines print them. *)
Lemma framed_output_extracted (out json_text : string) :
  PyStr.complete_lines out ->
  PyStr.contains SUCCESS_JSON_START out = false ->
  PyStr.contains SUCCESS_JSON_END out = false ->
  PyStr.contains SUCCESS_JSON_END json_text = false ->
  interpret_run json_loads (Completed 0 (out ++ framed json_text) EmptyString)
  = decode json_loads (PyStr.strip (json_text ++ PyStr.LF)).
Proof.
  intros Hlines Hs He Hj.
  assert (Hns : PyStr.no_line_feed SUCCESS_JSON_START = true) by reflexivity.
  assert (Hne : PyStr.no_line_feed SUCCESS_JSON_END = true) by reflexivity.
  assert (Hs0 : SUCCESS_JSON_START <> EmptyString) by discriminate.
  assert (He0 : SUCCESS_JSON_END <> EmptyString) by discriminate.
  set (output := out ++ framed json_text).
  assert (Hfs : PyStr.find SUCCESS_JSON_START output
                = Z.of_nat (String.length out)).
  { unfold output, framed. now apply find_after_lines. }
  set (before := out ++ SUCCESS_JSON_START ++ PyStr.LF).
  set (body := json_text ++ PyStr.LF).
  assert (Hout : output = before ++ body ++ SUCCESS_JSON_END ++ PyStr.LF).
  { unfold output, framed, before, body. now rewrite !append_assoc. }
  assert (Hfe : PyStr.find SUCCESS_JSON_END output
                = Z.of_nat (String.length (before ++ body))).
  { rewrite Hout, <- append_assoc. apply find_after_lines; try assumption.
    - right. exists (before ++ json_text). unfold body. now rewrite append_assoc.
    - unfold before, body. rewrite !append_assoc.
      rewrite contains_after_lines by assumption. rewrite He. cbn [orb].
      rewrite (contains_across_line_feed SUCCESS_JSON_END SUCCESS_JSON_START
                 (json_text ++ PyStr.LF) Hne He0).
      rewrite (contains_complete_line SUCCESS_JSON_END json_text Hne He0), Hj.
      reflexivity. }
  unfold interpret_run. cbn [Z.eqb negb]. cbv zeta. fold output.
  unfold PyStr.contains at 1 2. rewrite Hfs, Hfe.
  replace (0 <=? Z.of_nat (String.length out))%Z with true
    by (symmetry; apply Z.leb_le; lia).
  replace (0 <=? Z.of_nat (String.length (before ++ body)))%Z with true
    by (symmetry; apply Z.leb_le; lia).
  cbn [andb]. f_equal. unfold json_str_of. fold output. rewrite Hfs, Hfe. f_equal.
  replace (Z.of_nat (String.length out)
           + Z.of_nat (String.length SUCCESS_JSON_START) + 1)%Z
    with (Z.of_nat (String.length before))
    by (unfold before; rewrite !length_append; simpl String.length; lia).
  replace (Z.of_nat (String.length (before ++ body)))
    with (Z.of_nat (String.length before) + Z.of_nat (String.length body))%Z
    by (rewrite length_append; lia).
  rewrite Hout. apply slice_middle.
Qed.


End AutoSelection.




End CodeGenProps.

(** * Further properties *)

(** ** Accounts and sessions *)

Module AuthFacts.

Import Auth AuthProps.

(** *** Order of texts *)

Lemma ascii_compare_trans (a b c : ascii) :
  Ascii.compare a b = Lt -> Ascii.compare b c = Lt -> Ascii.compare a c = Lt.
Proof.
  unfold Ascii.compare. rewrite !N.compare_lt_iff. lia.
Qed.

Lemma string_compare_trans (a b c : string) :
  String.compare a b = Lt -> String.compare b c = Lt -> String.compare a c = Lt.
Proof.
  revert b c. induction a as [|x a IH]; intros [|y b] [|z c]; simpl;
    try congruence.
  destruct (Ascii.compare x y) eqn:Exy; try discriminate.
  - apply Ascii.compare_eq_iff in Exy. subst y.
    destruct (Ascii.compare x z) eqn:Exz; try congruence. apply IH.
  - intros _. destruct (Ascii.compare y z) eqn:Eyz; try discriminate.
    + apply Ascii.compare_eq_iff in Eyz. subst z. now rewrite Exy.
    + intros _. now rewrite (ascii_compare_trans x y z Exy Eyz).
Qed.

Lemma text_lt_trans (a b c : string) :
  text_lt a b = true -> text_lt b c = true -> text_lt a c = true.
Proof.
  unfold text_lt, String.ltb. intros Hab Hbc.
  destruct (String.compare a b) eqn:E1; try discriminate.
  destruct (String.compare b c) eqn:E2; try discriminate.
  now rewrite (string_compare_trans a b c E1 E2).
Qed.

Lemma text_lt_asym (a b : string) :
  text_lt a b = true -> text_lt b a = false.
Proof.
  unfold text_lt, String.ltb. rewrite (String.compare_antisym a b).
  destruct (String.compare b a); simpl; congruence.
Qed.

(** *** Lookups over a changed table *)

Lemma filter_none {A : Type} (p : A -> bool) (l : list A) :
  (forall x, In x l -> p x = false) -> List.filter p l = [].
Proof.
  induction l as [|a l IH]; intros H; [reflexivity|]. cbn [List.filter].
  rewrite (H a (or_introl eq_refl)). apply IH. intros x Hx. apply H. now right.
Qed.

Lemma find_map_same {A : Type} (p : A -> bool) (f : A -> A) (l : list A) :
  (forall x, In x l -> p x = true -> f x = x) ->
  (forall x, In x l -> p x = false -> p (f x) = false) ->
  List.find p (map f l) = List.find p l.
Proof.
  induction l as [|a l IH]; intros Hkeep Hskip; [reflexivity|]. simpl.
  destruct (p a) eqn:E.
  - rewrite (Hkeep a (or_introl eq_refl) E), E. reflexivity.
  - rewrite (Hskip a (or_introl eq_refl) E). apply IH.
    + intros x Hx. apply Hkeep. now right.
    + intros x Hx. apply Hskip. now right.
Qed.

Lemma session_matches_deactivate (h now_text : string) (s : session_row) :
  session_matches h now_text (deactivate s) = false.
Proof.
  unfold session_matches, deactivate. simpl.
  now rewrite andb_false_r.
Qed.

Lemma verify_token_same (sha256_hexdigest : string -> string)
    (db db1 : database) (token : string) (now : datetime) :
  users db1 = users db ->
  Session_find_by_token sha256_hexdigest db1 token now
  = Session_find_by_token sha256_hexdigest db token now ->
  verify_token sha256_hexdigest db1 token now
  = verify_token sha256_hexdigest db token now.
Proof.
  intros Hu Hf. unfold verify_token, User_find_by_id. now rewrite Hf, Hu.
Qed.

(** Sessions appended with another hash than the token's are not seen by
    its lookup. *)
Lemma find_by_token_app_other (sha256_hexdigest : string -> string)
    (users1 users2 : list user_row) (sessions : list session_row)
    (new : session_row) (token : string) (now : datetime) :
  s_token_hash new <> sha256_hexdigest token ->
  Session_find_by_token sha256_hexdigest
    (mk_db users1 (sessions ++ [new])%list) token now
  = Session_find_by_token sha256_hexdigest (mk_db users2 sessions) token now.
Proof.
  intros Hne. unfold Session_find_by_token. simpl. rewrite find_app_last.
  destruct (List.find _ sessions); [reflexivity|].
  unfold session_matches. apply String.eqb_neq in Hne. now rewrite Hne.
Qed.

(** X1: a session lasts until seven days after its creation. For a token
    whose hash no earlier session carries, the session that
    [Session.create] stores is found at every time before
    [created + 7 days] and at no time from that instant on: the comparison
    of the two isoformat texts is the comparison of the two times. *)
Theorem session_lives_until_expiry
    (sha256_hexdigest : string -> string) (plus_7_days : datetime -> datetime)
    (db : database) (user_id : Z) (token : string) (created now : datetime) :
  datetime_wf now -> datetime_wf (plus_7_days created) ->
  (forall s, In s (user_sessions db) ->
     s_token_hash s <> sha256_hexdigest token) ->
  let db1 :=
    fst (Session_create sha256_hexdigest plus_7_days db user_id token created) in
  (datetime_lt now (plus_7_days created) ->
   exists s,
     Session_find_by_token sha256_hexdigest db1 token now = Some s
     /\ s_user_id s = user_id
     /\ s_expires_at s = isoformat (plus_7_days created))
  /\ (~ datetime_lt now (plus_7_days created) ->
      Session_find_by_token sha256_hexdigest db1 token now = None).
Proof.
  intros Hnow Hexp Hfresh db1.
  assert (Hold : List.find (session_matches (sha256_hexdigest token)
                                            (isoformat now))
                           (user_sessions db) = None).
  { apply find_none_iff. intros s Hs. unfold session_matches.
    specialize (Hfresh s Hs). apply String.eqb_neq in Hfresh.
    now rewrite Hfresh. }
  assert (Hfind :
            Session_find_by_token sha256_hexdigest db1 token now
            = if text_lt (isoformat now) (isoformat (plus_7_days created))
              then Some (mk_session (next_rowid (map s_id (user_sessions db)))
                                    user_id (sha256_hexdigest token)
                                    (isoformat (plus_7_days created)) 1)
              else None).
  { unfold db1, Session_create, Session_find_by_token.
    cbn [fst user_sessions]. rewrite find_app_last, Hold.
    unfold session_matches. cbn [s_token_hash s_is_active s_expires_at].
    rewrite String.eqb_refl. change (1 =? 1)%Z with true. reflexivity. }
  rewrite Hfind. split.
  - intros Hlt. apply (text_lt_isoformat now _ Hnow Hexp) in Hlt.
    rewrite Hlt. eexists. repeat split.
  - intros Hge.
    destruct (text_lt (isoformat now) (isoformat (plus_7_days created))) eqn:E;
      [|reflexivity].
    apply (text_lt_isoformat now _ Hnow Hexp) in E. contradiction.
Qed.

(** X2: the cleanup at startup deactivates exactly the sessions that are
    active and whose expiry text is below the current time's. It returns
    their number, touches no user and no other session, leaves no session
    both active and expired, finds nothing more to do when run again at the
    same time, and changes no lookup made at that time or later: a token
    that was usable stays usable, a token that was not stays so. *)
Theorem cleanup_expired_deactivates_only_expired :
  forall (db : database) (now : datetime),
    let current_time := isoformat now in
    let cleaned := Session_cleanup_expired db now in
    users (fst cleaned) = users db
    /\ snd cleaned
       = Z.of_nat (List.length
                     (List.filter (expired_and_active current_time)
                                  (user_sessions db)))
    /\ (forall s, In s (user_sessions (fst cleaned)) ->
          expired_and_active current_time s = false)
    /\ (forall s, In s (user_sessions db) ->
          expired_and_active current_time s = false ->
          In s (user_sessions (fst cleaned)))
    /\ Session_cleanup_expired (fst cleaned) now = (fst cleaned, 0%Z)
    /\ (forall (sha256_hexdigest : string -> string) (token : string)
               (later : datetime),
          text_lt (isoformat later) current_time = false ->
          Session_find_by_token sha256_hexdigest (fst cleaned) token later
          = Session_find_by_token sha256_hexdigest db token later).
Proof.
  intros db now current_time cleaned. subst cleaned.
  unfold Session_cleanup_expired. fold current_time.
  cbn [fst snd users user_sessions].
  set (clean := fun s => if expired_and_active current_time s
                         then deactivate s else s).
  assert (Hclean : forall s, In s (map clean (user_sessions db)) ->
                     expired_and_active current_time s = false).
  { intros s Hs. apply in_map_iff in Hs as (s0 & <- & _). unfold clean.
    destruct (expired_and_active current_time s0) eqn:E; [|exact E].
    unfold expired_and_active, deactivate.
    cbn [s_is_active s_expires_at]. apply andb_false_r. }
  split; [reflexivity|]. split; [reflexivity|]. split; [exact Hclean|].
  split.
  { intros s Hs E. apply in_map_iff. exists s. unfold clean. now rewrite E. }
  split.
  { assert (Hmap : map clean (map clean (user_sessions db))
                   = map clean (user_sessions db)).
    { rewrite <- (map_id (map clean (user_sessions db))) at 2.
      apply map_ext_in. intros s Hs. unfold clean at 1.
      now rewrite (Hclean s Hs). }
    assert (Hnone : List.filter (expired_and_active current_time)
                                (map clean (user_sessions db)) = []).
    { apply filter_none. exact Hclean. }
    fold clean. rewrite Hmap, Hnone. reflexivity. }
  intros sha256_hexdigest token later Hlater.
  unfold Session_find_by_token. cbn [user_sessions].
  apply find_map_same.
  - intros s _ Hm. unfold clean.
    destruct (expired_and_active current_time s) eqn:E; [|reflexivity].
    unfold expired_and_active in E. apply andb_true_iff in E as [E _].
    apply session_matches_spec in Hm as (_ & _ & Hm).
    rewrite (text_lt_trans _ _ _ Hm E) in Hlater. discriminate.
  - intros s _ Hm. unfold clean.
    destruct (expired_and_active current_time s);
      [apply session_matches_deactivate|exact Hm].
Qed.

(** X3: logout always answers with success, also for a token that has no
    session, and then changes nothing. It touches no user and no session of
    another token hash, so every other token is looked up and verified as
    before; logging out twice is logging out once. *)
Theorem logout_ends_only_that_token :
  forall (sha256_hexdigest : string -> string) (db : database)
         (token : string),
    let after := logout sha256_hexdigest db token in
    snd after = Ok "Successfully logged out"
    /\ users (fst after) = users db
    /\ (forall other now,
          sha256_hexdigest other <> sha256_hexdigest token ->
          Session_find_by_token sha256_hexdigest (fst after) other now
          = Session_find_by_token sha256_hexdigest db other now
          /\ verify_token sha256_hexdigest (fst after) other now
             = verify_token sha256_hexdigest db other now)
    /\ ((forall s, In s (user_sessions db) ->
           s_token_hash s <> sha256_hexdigest token) ->
        fst after = db)
    /\ logout sha256_hexdigest (fst after) token = after.
Proof.
  intros sha256_hexdigest db token after.
  split; [reflexivity|]. split; [reflexivity|].
  assert (Hother : forall other now,
             sha256_hexdigest other <> sha256_hexdigest token ->
             Session_find_by_token sha256_hexdigest (fst after) other now
             = Session_find_by_token sha256_hexdigest db other now).
  { intros other now Hne. unfold after, logout, Session_find_by_token. simpl.
    apply find_map_same.
    - intros s _ Hm. apply session_matches_spec in Hm as (Hh & _ & _).
      destruct (String.eqb (s_token_hash s) (sha256_hexdigest token)) eqn:E;
        [|reflexivity].
      apply String.eqb_eq in E. congruence.
    - intros s _ Hm.
      destruct (String.eqb (s_token_hash s) (sha256_hexdigest token));
        [apply session_matches_deactivate|exact Hm]. }
  split.
  { intros other now Hne. split; [now apply Hother|].
    apply verify_token_same; [reflexivity|now apply Hother]. }
  split.
  { intros Hnone. unfold after, logout. simpl. destruct db as [us ss]. simpl in *.
    f_equal. rewrite <- (map_id ss) at 2. apply map_ext_in. intros s Hs.
    specialize (Hnone s Hs). apply String.eqb_neq in Hnone. now rewrite Hnone. }
  unfold after, logout. simpl. f_equal. f_equal. rewrite map_map.
  apply map_ext. intros s.
  destruct (String.eqb (s_token_hash s) (sha256_hexdigest token)) eqn:E.
  - unfold deactivate at 2. simpl. now rewrite E.
  - now rewrite E.
Qed.

(** X4: a login adds at most one session and ends none. A lookup that
    found a session before the login finds the same one after it; a token
    of another hash than the new one's is looked up and verified as
    before; a rejected login leaves the store as it was, an accepted one
    returns the token it drew and stores exactly one more session. *)
Theorem login_keeps_earlier_sessions :
  forall (sha256_hexdigest : string -> string)
         (bcrypt_checkpw : string -> string -> bool)
         (plus_7_days : datetime -> datetime)
         (db : database) (username password token : string) (now : datetime),
    let after :=
      login sha256_hexdigest bcrypt_checkpw plus_7_days db username password
            token now in
    users (fst after) = users db
    /\ (forall other t s,
          Session_find_by_token sha256_hexdigest db other t = Some s ->
          Session_find_by_token sha256_hexdigest (fst after) other t = Some s)
    /\ (forall other t,
          sha256_hexdigest other <> sha256_hexdigest token ->
          Session_find_by_token sha256_hexdigest (fst after) other t
          = Session_find_by_token sha256_hexdigest db other t
          /\ verify_token sha256_hexdigest (fst after) other t
             = verify_token sha256_hexdigest db other t)
    /\ (snd after = bad_credentials -> fst after = db)
    /\ (forall issued, snd after = Ok issued ->
          issued = token
          /\ List.length (user_sessions (fst after))
             = S (List.length (user_sessions db))).
Proof.
  intros sha256_hexdigest bcrypt_checkpw plus_7_days db username password
         token now after.
  unfold after, login.
  destruct (User_find_by_username db username) as [db_user|].
  2:{ simpl. repeat split; auto; try discriminate. }
  destruct (negb (bcrypt_checkpw password (u_password db_user))).
  { simpl. repeat split; auto; try discriminate. }
  unfold Session_create. cbn [fst snd users user_sessions].
  split; [reflexivity|]. split.
  { intros other t s Hs. unfold Session_find_by_token in *.
    cbn [user_sessions]. now rewrite find_app_last, Hs. }
  split.
  { intros other t Hne.
    assert (Hf : Session_find_by_token sha256_hexdigest
                   (mk_db (users db)
                      (user_sessions db
                       ++ [mk_session (next_rowid (map s_id (user_sessions db)))
                             (u_id db_user) (sha256_hexdigest token)
                             (isoformat (plus_7_days now)) 1])%list) other t
                 = Session_find_by_token sha256_hexdigest db other t).
    { destruct db as [us ss]. apply find_by_token_app_other.
      cbn [s_token_hash]. congruence. }
    split; [exact Hf|]. apply verify_token_same; [reflexivity|exact Hf]. }
  split; [discriminate|].
  intros issued H. injection H as <-. split; [reflexivity|].
  rewrite length_app. cbn [List.length]. lia.
Qed.

(** *** Stores reached by requests *)

Lemma find_by_username_none (db : database) (username : string) :
  User_find_by_username db username = None ->
  ~ In username (map u_username (users db)).
Proof.
  unfold User_find_by_username. intros H Hin.
  apply in_map_iff in Hin as (u & Hu & Hin).
  pose proof (List.find_none _ _ H u Hin) as E. cbn beta in E.
  rewrite Hu, String.eqb_refl in E. discriminate.
Qed.

Lemma nodup_app_one {A : Type} (l : list A) (x : A) :
  List.NoDup l -> ~ In x l -> List.NoDup (l ++ [x]).
Proof.
  intros Hl Hx. apply NoDup_ListNoDup. apply NoDup_ListNoDup in Hl.
  apply NoDup_app. split; [exact Hl|]. split.
  - intros y Hy Hy'. apply list_elem_of_In in Hy.
    apply list_elem_of_In in Hy' as [->|[]]. contradiction.
  - apply NoDup_singleton.
Qed.

Lemma sessions_of_map_consistent (us : list user_row)
    (ss : list session_row) (f : session_row -> session_row) :
  (forall s, s_user_id (f s) = s_user_id s) ->
  consistent (mk_db us ss) -> consistent (mk_db us (map f ss)).
Proof.
  intros Hf (Hn & Hi & Hs). split; [exact Hn|]. split; [exact Hi|].
  cbn [users user_sessions] in *. intros s Hin.
  apply in_map_iff in Hin as (s0 & <- & Hin). rewrite Hf. now apply Hs.
Qed.

Lemma session_added_consistent (us : list user_row) (ss : list session_row)
    (new : session_row) (u : user_row) :
  In u us -> u_id u = s_user_id new ->
  consistent (mk_db us ss) -> consistent (mk_db us (ss ++ [new])).
Proof.
  intros Hu Hid (Hn & Hi & Hs). split; [exact Hn|]. split; [exact Hi|].
  cbn [users user_sessions] in *. intros s Hin.
  apply in_app_or in Hin as [Hin|[<-|[]]]; [now apply Hs|].
  exists u. now split.
Qed.

Lemma deactivate_user_id (s : session_row) :
  s_user_id (deactivate s) = s_user_id s.
Proof. reflexivity. Qed.

Lemma handle_consistent (sha256_hexdigest : string -> string)
    (bcrypt_hashpw : string -> string -> string)
    (bcrypt_checkpw : string -> string -> bool)
    (plus_7_days : datetime -> datetime) (db : database) (r : request) :
  consistent db ->
  consistent (handle sha256_hexdigest bcrypt_hashpw bcrypt_checkpw
                     plus_7_days db r).
Proof.
  intros Hdb. destruct db as [us ss].
  destruct r as [name username password salt token now
                |username password token now|token|now];
    unfold handle.
  - unfold register.
    destruct (User_find_by_username (mk_db us ss) username) eqn:E;
      [exact Hdb|].
    unfold User_create, Session_create. cbn [fst snd users user_sessions].
    set (u := mk_user (next_rowid (map u_id us)) username
                      (bcrypt_hashpw password salt) name).
    apply (session_added_consistent _ _ _ u);
      [apply in_or_app; right; now left|reflexivity|].
    destruct Hdb as (Hn & Hi & Hs). unfold consistent.
    cbn [users user_sessions] in *. split; [|split].
    + rewrite map_app. apply nodup_app_one; [exact Hn|].
      exact (find_by_username_none _ _ E).
    + rewrite map_app. apply nodup_app_one; [exact Hi|].
      intros Hin. apply next_rowid_above in Hin. cbn [u_id u] in Hin. lia.
    + intros s Hin. destruct (Hs s Hin) as (u0 & Hu0 & Hid).
      exists u0. split; [apply in_or_app; now left|exact Hid].
  - unfold login.
    destruct (User_find_by_username (mk_db us ss) username) as [db_user|] eqn:E;
      [|exact Hdb].
    destruct (negb (bcrypt_checkpw password (u_password db_user)));
      [exact Hdb|].
    unfold Session_create. cbn [fst snd users user_sessions].
    apply (session_added_consistent _ _ _ db_user); [|reflexivity|exact Hdb].
    unfold User_find_by_username in E. now apply List.find_some in E as [E _].
  - unfold logout. cbn [fst users user_sessions].
    apply sessions_of_map_consistent; [|exact Hdb].
    intros s. now destruct (String.eqb _ _).
  - unfold lifespan_startup, Session_cleanup_expired.
    cbn [fst users user_sessions].
    apply sessions_of_map_consistent; [|exact Hdb].
    intros s. now destruct (expired_and_active _ _).
Qed.

Lemma fold_handle_consistent (sha256_hexdigest : string -> string)
    (bcrypt_hashpw : string -> string -> string)
    (bcrypt_checkpw : string -> string -> bool)
    (plus_7_days : datetime -> datetime) (requests : list request)
    (db : database) :
  consistent db ->
  consistent (fold_left (handle sha256_hexdigest bcrypt_hashpw bcrypt_checkpw
                                plus_7_days) requests db).
Proof.
  revert db. induction requests as [|r requests IH]; intros db Hdb;
    [exact Hdb|].
  cbn [fold_left]. apply IH. now apply handle_consistent.
Qed.

(** X5: whatever requests the application has served since its tables
    were created (registrations, logins, logouts, restarts), no two users
    share a username or an id and every session belongs to a user. So a
    verify never answers "User not found": it is refused as unauthorized or
    answers with the user of a session that carries the token's hash. A
    registration under a username that is taken answers 400 and leaves the
    store as it was. *)
Theorem served_store_stays_consistent :
  forall (sha256_hexdigest : string -> string)
         (bcrypt_hashpw : string -> string -> string)
         (bcrypt_checkpw : string -> string -> bool)
         (plus_7_days : datetime -> datetime) (requests : list request),
    let db :=
      serve sha256_hexdigest bcrypt_hashpw bcrypt_checkpw plus_7_days
            requests in
    consistent db
    /\ (forall token now,
          verify_token sha256_hexdigest db token now = unauthorized
          \/ exists s u,
               In s (user_sessions db) /\ In u (users db)
               /\ s_token_hash s = sha256_hexdigest token
               /\ u_id u = s_user_id s
               /\ verify_token sha256_hexdigest db token now
                  = Ok (mk_verified true (u_id u) (u_username u) (u_name u)))
    /\ (forall name username password salt token now,
          User_find_by_username db username <> None ->
          register sha256_hexdigest bcrypt_hashpw plus_7_days db name username
                   password salt token now
          = (db, Raise (HTTPException 400 "Username already registered"))).
Proof.
  intros sha256_hexdigest bcrypt_hashpw bcrypt_checkpw plus_7_days requests db.
  assert (Hdb : consistent db).
  { unfold db, serve. apply fold_handle_consistent.
    split; [constructor|]. split; [constructor|]. intros s []. }
  split; [exact Hdb|]. split.
  - intros token now. unfold verify_token.
    destruct (Session_find_by_token sha256_hexdigest db token now)
      as [s|] eqn:E; [|now left].
    right. apply find_by_token_some in E as (Hin & Hh & _).
    destruct Hdb as (_ & _ & Hs). destruct (Hs s Hin) as (u & Hu & Hid).
    unfold User_find_by_id.
    destruct (List.find (fun u0 => (u_id u0 =? s_user_id s)%Z) (users db))
      as [u1|] eqn:F.
    + apply List.find_some in F as [Hu1 F]. apply Z.eqb_eq in F.
      exists s, u1. rewrite F. repeat split; assumption.
    + pose proof (List.find_none _ _ F u Hu) as G. cbn beta in G.
      rewrite Hid, Z.eqb_refl in G. discriminate.
  - intros name username password salt token now Hsome. unfold register.
    destruct (User_find_by_username db username); [reflexivity|].
    now contradiction Hsome.
Qed.

(** X6: the token dependency of main.py returns the session row that the
    lookup finds. Every failure is answered with status 401 and the detail
    "Could not validate credentials": the 401 "Invalid or expired token"
    raised inside is caught by the handler's own catch-all and never reaches
    the caller. It fails exactly when verify refuses the token as
    unauthorized, in particular after a logout. *)
Theorem get_current_user_masks_cause :
  forall (sha256_hexdigest : string -> string) (db : database)
         (token : string) (now : datetime),
    let answer := get_current_user sha256_hexdigest db token now in
    let refused : pyresult session_row :=
      Raise (HTTPException 401 "Could not validate credentials") in
    (match Session_find_by_token sha256_hexdigest db token now with
     | Some s => answer = Ok s
     | None => answer = refused
     end)
    /\ answer <> Raise (HTTPException 401 "Invalid or expired token")
    /\ (answer = refused
        <-> verify_token sha256_hexdigest db token now = unauthorized)
    /\ get_current_user sha256_hexdigest
         (fst (logout sha256_hexdigest db token)) token now
       = refused.
Proof.
  intros sha256_hexdigest db token now answer refused.
  unfold answer, refused, get_current_user, verify_token.
  rewrite (find_by_token_after_logout sha256_hexdigest db token now).
  destruct (Session_find_by_token sha256_hexdigest db token now) as [s|].
  - split; [reflexivity|]. split; [discriminate|]. split; [|reflexivity].
    split; [discriminate|].
    destruct (User_find_by_id db (s_user_id s)); discriminate.
  - split; [reflexivity|]. split; [discriminate|]. split; [|reflexivity].
    split; reflexivity.
Qed.

(** The instance for the sample store: a session created at [sample_now]
    is found two days later, and no longer at the instant seven days after
    its creation. *)
Lemma session_lives_until_expiry_witness :
  let db1 :=
    fst (Session_create Samples.sample_sha256 Samples.sample_plus_7_days
                        Samples.sample_database 1 "t-new" Samples.sample_now) in
  (exists s,
     Session_find_by_token Samples.sample_sha256 db1 "t-new"
                           Samples.sample_later = Some s
     /\ s_user_id s = 1%Z
     /\ s_expires_at s
        = isoformat (Samples.sample_plus_7_days Samples.sample_now))
  /\ Session_find_by_token Samples.sample_sha256 db1 "t-new"
                           (mk_datetime 2024 3 17 12 0 0 0) = None.
Proof.
  intros db1.
  assert (Hexp : datetime_wf (Samples.sample_plus_7_days Samples.sample_now))
    by (repeat split; apply Nat.ltb_lt; vm_compute; reflexivity).
  assert (Hfresh : forall s, In s (user_sessions Samples.sample_database) ->
                     s_token_hash s <> Samples.sample_sha256 "t-new").
  { intros s [<-|[<-|[]]]; discriminate. }
  assert (Hwf1 : datetime_wf Samples.sample_later)
    by (repeat split; apply Nat.ltb_lt; vm_compute; reflexivity).
  assert (Hwf2 : datetime_wf (mk_datetime 2024 3 17 12 0 0 0))
    by (repeat split; apply Nat.ltb_lt; vm_compute; reflexivity).
  assert (Hlt : datetime_lt Samples.sample_later
                  (Samples.sample_plus_7_days Samples.sample_now))
    by reflexivity.
  assert (Hge : ~ datetime_lt (mk_datetime 2024 3 17 12 0 0 0)
                    (Samples.sample_plus_7_days Samples.sample_now))
    by (intros H; vm_compute in H; discriminate).
  split.
  - exact (proj1 (session_lives_until_expiry
                    Samples.sample_sha256 Samples.sample_plus_7_days
                    Samples.sample_database 1 "t-new" Samples.sample_now
                    Samples.sample_later Hwf1 Hexp Hfresh) Hlt).
  - exact (proj2 (session_lives_until_expiry
                    Samples.sample_sha256 Samples.sample_plus_7_days
                    Samples.sample_database 1 "t-new" Samples.sample_now
                    (mk_datetime 2024 3 17 12 0 0 0) Hwf2 Hexp Hfresh) Hge).
Defined.

(** The instance for the sample store at [sample_now]: one session is
    deactivated, and the live token is found two days later as before. *)
Lemma cleanup_expired_deactivates_only_expired_witness :
  snd (Session_cleanup_expired Samples.sample_database Samples.sample_now)
  = 1%Z
  /\ Session_find_by_token Samples.sample_sha256
       (fst (Session_cleanup_expired Samples.sample_database
                                     Samples.sample_now))
       "t-live" Samples.sample_later
     = Session_find_by_token Samples.sample_sha256 Samples.sample_database
                             "t-live" Samples.sample_later
  /\ Session_find_by_token Samples.sample_sha256 Samples.sample_database
                           "t-live" Samples.sample_later
     <> None.
Proof.
  destruct (cleanup_expired_deactivates_only_expired
              Samples.sample_database Samples.sample_now)
    as (_ & Hcount & _ & _ & _ & Hfind).
  split; [rewrite Hcount; reflexivity|]. split.
  - apply Hfind. vm_compute. reflexivity.
  - vm_compute. discriminate.
Defined.

(** The instance for the sample store: after the logout of the expired
    token the live token verifies as before. *)
Lemma logout_ends_only_that_token_witness :
  verify_token Samples.sample_sha256
    (fst (logout Samples.sample_sha256 Samples.sample_database "t-old"))
    "t-live" Samples.sample_now
  = verify_token Samples.sample_sha256 Samples.sample_database "t-live"
                 Samples.sample_now
  /\ verify_token Samples.sample_sha256 Samples.sample_database "t-live"
                  Samples.sample_now
     = Ok (mk_verified true 1 "grace" "Grace")
  /\ fst (logout Samples.sample_sha256 Samples.sample_database "t-none")
     = Samples.sample_database.
Proof.
  destruct (logout_ends_only_that_token
              Samples.sample_sha256 Samples.sample_database "t-old")
    as (_ & _ & Hother & _ & _).
  destruct (logout_ends_only_that_token
              Samples.sample_sha256 Samples.sample_database "t-none")
    as (_ & _ & _ & Hnone & _).
  split; [|split].
  - apply Hother. discriminate.
  - vm_compute. reflexivity.
  - apply Hnone. intros s [<-|[<-|[]]]; discriminate.
Defined.

(** The instance for the sample store: a second login of [grace] leaves
    her live token verified as before and stores a third session. *)
Lemma login_keeps_earlier_sessions_witness :
  let after :=
    login Samples.sample_sha256 Samples.sample_checkpw
          Samples.sample_plus_7_days Samples.sample_database
          "grace" "hopper" "t-second" Samples.sample_now in
  verify_token Samples.sample_sha256 (fst after) "t-live" Samples.sample_now
  = verify_token Samples.sample_sha256 Samples.sample_database "t-live"
                 Samples.sample_now
  /\ snd after = Ok "t-second"
  /\ List.length (user_sessions (fst after)) = 3%nat.
Proof.
  intros after.
  destruct (login_keeps_earlier_sessions
              Samples.sample_sha256 Samples.sample_checkpw
              Samples.sample_plus_7_days Samples.sample_database
              "grace" "hopper" "t-second" Samples.sample_now)
    as (_ & _ & Hother & _ & Hissued).
  assert (Hok : snd after = Ok "t-second") by (vm_compute; reflexivity).
  split; [|split].
  - apply Hother. discriminate.
  - exact Hok.
  - exact (proj2 (Hissued "t-second" Hok)).
Defined.

(** The instance for two requests served from the empty tables: [ada]
    registers and logs in, her login token verifies, and a second
    registration under her username answers 400. *)
Lemma served_store_stays_consistent_witness :
  let db :=
    serve Samples.sample_sha256 Samples.sample_hashpw Samples.sample_checkpw
          Samples.sample_plus_7_days
          [ RegisterRequest "Ada" "ada" "lovelace" "s1lt" "t-register"
                            Samples.sample_now;
            LoginRequest "ada" "lovelace" "t-login" Samples.sample_now ] in
  consistent db
  /\ verify_token Samples.sample_sha256 db "t-login" Samples.sample_later
     = Ok (mk_verified true 1 "ada" "Ada")
  /\ register Samples.sample_sha256 Samples.sample_hashpw
              Samples.sample_plus_7_days db "Eve" "ada" "secret" "s2lt"
              "t-eve" Samples.sample_later
     = (db, Raise (HTTPException 400 "Username already registered")).
Proof.
  intros db.
  destruct (served_store_stays_consistent
              Samples.sample_sha256 Samples.sample_hashpw
              Samples.sample_checkpw Samples.sample_plus_7_days
              [ RegisterRequest "Ada" "ada" "lovelace" "s1lt" "t-register"
                                Samples.sample_now;
                LoginRequest "ada" "lovelace" "t-login" Samples.sample_now ])
    as (Hdb & _ & Htaken).
  split; [exact Hdb|]. split; [vm_compute; reflexivity|].
  apply Htaken. vm_compute. discriminate.
Defined.

End AuthFacts.

(** ** Object store *)

Module StorageFacts.

Import Pandas Storage StorageProps.

(** *** Listing a bucket *)

Lemma get_bucket_files_ok (bucket_name : string) (p : provider)
    (objs : gmap string blob) :
  credentials_error p = None -> outage p = None ->
  buckets p !! bucket_name = Some objs ->
  get_bucket_files bucket_name p
  = (p, [ClientInit; BucketExists bucket_name; ListBlobs bucket_name],
     Ok (map entry_of_blob (map_to_list objs))).
Proof.
  intros Hc Ho Hb. unfold get_bucket_files. now run_gcs.
Qed.

Lemma listing_ok (bucket_name : string) (p : provider)
    (objs : gmap string blob) :
  credentials_error p = None -> outage p = None ->
  buckets p !! bucket_name = Some objs ->
  listing p bucket_name = map entry_of_blob (map_to_list objs).
Proof.
  intros Hc Ho Hb. unfold listing.
  now rewrite (get_bucket_files_ok bucket_name p objs Hc Ho Hb).
Qed.

Lemma in_entries (objs : gmap string blob) (f : file_entry) :
  In f (map entry_of_blob (map_to_list objs))
  <-> exists name b, objs !! name = Some b /\ f = entry_of_blob (name, b).
Proof.
  rewrite in_map_iff. split.
  - intros ([name b] & <- & Hin). exists name, b. split; [|reflexivity].
    apply elem_of_map_to_list. now apply list_elem_of_In.
  - intros (name & b & Hl & ->). exists (name, b). split; [reflexivity|].
    apply list_elem_of_In. now apply elem_of_map_to_list.
Qed.

(** X7: what a listing answers. Without credentials it answers 500 with
    the client's message after the one attempt to make a client; during an
    outage 500 "Failed to list files"; for a bucket that does not exist 404;
    otherwise one entry for every object of the bucket and no other, each
    name once, with the object's size, content type and timestamps and no
    source tag. *)
Theorem listing_answers_objects_or_cause :
  forall (bucket_name : string) (p : provider),
    (forall msg, credentials_error p = Some msg ->
       get_bucket_files bucket_name p
       = (p, [ClientInit],
          Raise (HTTPException 500
            ("Failed to initialize GCS client. Make sure you're logged in with 'gcloud auth login': "
             ++ msg))))
    /\ (credentials_error p = None ->
        (forall msg, outage p = Some msg ->
           result_of (get_bucket_files bucket_name p)
           = Raise (HTTPException 500 ("Failed to list files: " ++ msg)))
        /\ (outage p = None ->
            (buckets p !! bucket_name = None ->
             result_of (get_bucket_files bucket_name p)
             = Raise (HTTPException 404
                        ("Bucket '" ++ bucket_name ++ "' not found")))
            /\ (forall objs, buckets p !! bucket_name = Some objs ->
                exists files,
                  result_of (get_bucket_files bucket_name p) = Ok files
                  /\ List.NoDup (map f_name files)
                  /\ (forall name,
                        In name (map f_name files) <-> is_Some (objs !! name))
                  /\ (forall f, In f files ->
                        exists b,
                          objs !! f_name f = Some b
                          /\ f = mk_file (f_name f) (blob_size b)
                                         (blob_content_type b) (blob_updated b)
                                         (blob_time_created b) None None None)))).
Proof.
  intros bucket_name p. split.
  { intros msg Hc. unfold get_bucket_files. now run_gcs. }
  intros Hc. split.
  { intros msg Ho. unfold get_bucket_files, result_of. now run_gcs. }
  intros Ho. split.
  { intros Hb. unfold get_bucket_files, result_of. now run_gcs. }
  intros objs Hb. exists (map entry_of_blob (map_to_list objs)).
  rewrite (get_bucket_files_ok bucket_name p objs Hc Ho Hb).
  split; [reflexivity|]. split.
  { apply NoDup_ListNoDup.
    apply (get_bucket_files_names bucket_name p).
    now rewrite (get_bucket_files_ok bucket_name p objs Hc Ho Hb). }
  split.
  - intros name. rewrite in_map_iff. split.
    + intros (f & <- & Hf). apply in_entries in Hf as (n & b & Hl & ->).
      exists b. exact Hl.
    + intros [b Hl]. exists (entry_of_blob (name, b)). split; [reflexivity|].
      apply in_entries. now exists name, b.
  - intros f Hf. apply in_entries in Hf as (n & b & Hl & ->).
    exists b. split; [exact Hl|reflexivity].
Qed.

(** *** Handlers that only read *)

Lemma get_combined_files_state (DEFAULT_BUCKET : string)
    (public_bucket : option string) (p : provider) :
  state_of (get_combined_files DEFAULT_BUCKET public_bucket p) = p.
Proof.
  unfold get_combined_files, state_of.
  destruct public_bucket as [[|c pb]|]; [reflexivity| |reflexivity].
  unfold gcs_bind, swallow, gcs_ret.
  pose proof (get_bucket_files_state DEFAULT_BUCKET p) as Hs.
  unfold state_of in Hs.
  destruct (get_bucket_files DEFAULT_BUCKET p) as [[p1 t1] r1]. simpl in Hs.
  subst p1.
  pose proof (get_bucket_files_state (String c pb) p) as Hq.
  unfold state_of in Hq.
  destruct (negb (String.eqb (String c pb) DEFAULT_BUCKET));
    destruct r1 as [fs|e]; simpl;
    try reflexivity;
    destruct (get_bucket_files (String c pb) p) as [[p2 t2] [gs|e2]];
    simpl in *; now subst.
Qed.

Lemma preview_file_state
    (bytes_decode : option string -> string -> pyresult string)
    (read_csv : string -> pyresult DataFrame)
    (preview_json : string -> Z -> string) (bucket_name file_name : string)
    (rows : Z) (p : provider) :
  state_of (preview_file bytes_decode read_csv preview_json bucket_name
                         file_name rows p)
  = p.
Proof.
  unfold preview_file, state_of.
  destruct (credentials_error p) eqn:Hc; [now run_gcs|].
  destruct (outage p) eqn:Ho; [now run_gcs|].
  destruct (buckets p !! bucket_name) as [objs|] eqn:Hb; [|now run_gcs].
  destruct (objs !! file_name) as [b|] eqn:Hf; [|now run_gcs].
  run_gcs.
  destruct (bytes_decode (blob_content_type b) (blob_bytes b))
    as [content|[]]; try reflexivity.
  cbn -[PyStr.split PyStr.lower to_dict_records head].
  destruct (String.eqb _ "csv"); [destruct (read_csv content) as [df|[]]|];
    try reflexivity.
  destruct (String.eqb _ "json"); reflexivity.
Qed.

Lemma delete_file_failure_state (DEFAULT_BUCKET bucket_name file_name : string)
    (p : provider) (e : pyexn) :
  result_of (delete_file DEFAULT_BUCKET bucket_name file_name p) = Raise e ->
  state_of (delete_file DEFAULT_BUCKET bucket_name file_name p) = p.
Proof.
  unfold delete_file, reraise_http, state_of, result_of.
  destruct (String.eqb bucket_name DEFAULT_BUCKET) eqn:E; [|reflexivity].
  destruct (credentials_error p) eqn:Hc; [now run_gcs|].
  destruct (outage p) eqn:Ho; [now run_gcs|].
  destruct (buckets p !! bucket_name) as [objs|] eqn:Hb; [|now run_gcs].
  destruct (objs !! file_name) as [b|] eqn:Hf; [|now run_gcs].
  run_gcs. discriminate.
Qed.

(** X8: listing a bucket, the combined listing and a preview never
    change the store, whatever they answer; and a delete that does not
    answer with success leaves the store as it was. *)
Theorem reading_leaves_the_store :
  forall (DEFAULT_BUCKET : string)
         (bytes_decode : option string -> string -> pyresult string)
         (read_csv : string -> pyresult DataFrame)
         (preview_json : string -> Z -> string) (p : provider),
    (forall bucket_name, state_of (get_bucket_files bucket_name p) = p)
    /\ state_of (get_default_bucket_files DEFAULT_BUCKET p) = p
    /\ (forall public_bucket,
          state_of (get_combined_files DEFAULT_BUCKET public_bucket p) = p)
    /\ (forall bucket_name file_name rows,
          state_of (preview_file bytes_decode read_csv preview_json bucket_name
                                 file_name rows p) = p)
    /\ (forall bucket_name file_name e,
          result_of (delete_file DEFAULT_BUCKET bucket_name file_name p)
          = Raise e ->
          state_of (delete_file DEFAULT_BUCKET bucket_name file_name p) = p).
Proof.
  intros DEFAULT_BUCKET bytes_decode read_csv preview_json p.
  split; [intros; apply get_bucket_files_state|].
  split; [apply get_bucket_files_state|].
  split; [intros; apply get_combined_files_state|].
  split; [intros; apply preview_file_state|].
  intros bucket_name file_name e. apply delete_file_failure_state.
Qed.

(** *** The combined listing *)

Lemma get_combined_files_same_bucket (DEFAULT_BUCKET : string) (p : provider) :
  DEFAULT_BUCKET <> EmptyString ->
  result_of (get_combined_files DEFAULT_BUCKET (Some DEFAULT_BUCKET) p)
  = Ok (map (tag "uploaded" DEFAULT_BUCKET "Your uploaded files")
            (listing p DEFAULT_BUCKET)).
Proof.
  intros Hne. unfold get_combined_files, listing, result_of.
  destruct DEFAULT_BUCKET as [|c d]; [contradiction|].
  rewrite String.eqb_refl. simpl negb. cbv iota.
  unfold gcs_bind, swallow, gcs_ret.
  destruct (get_bucket_files (String c d) p) as [[p1 t1] [fs|e]]; reflexivity.
Qed.

Lemma filter_all {A : Type} (p : A -> bool) (l : list A) :
  (forall x, p x = true) -> List.filter p l = l.
Proof.
  intros H. induction l as [|a l IH]; [reflexivity|].
  cbn [List.filter]. now rewrite H, IH.
Qed.

Lemma filter_name_unique (l : list file_entry) (f : file_entry) :
  List.NoDup (map f_name l) -> In f l ->
  List.filter (fun g => String.eqb (f_name g) (f_name f)) l = [f].
Proof.
  induction l as [|g l IH]; intros Hnd Hin; [destruct Hin|].
  inversion Hnd as [|? ? Hnotin Hrest]; subst.
  cbn [List.filter]. destruct Hin as [->|Hin].
  - rewrite String.eqb_refl. f_equal. apply AuthFacts.filter_none.
    intros x Hx. apply String.eqb_neq. intros E. apply Hnotin.
    rewrite <- E. now apply in_map.
  - assert (E : String.eqb (f_name g) (f_name f) = false).
    { apply String.eqb_neq. intros E. apply Hnotin. rewrite E.
      now apply in_map. }
    rewrite E. now apply IH.
Qed.

Lemma tagged_names (source bucket info : string) (files : list file_entry) :
  map f_name (map (tag source bucket info) files) = map f_name files.
Proof. rewrite map_map. apply map_ext. intros f. reflexivity. Qed.

Lemma has_name_in (name : string) (files : list file_entry) :
  has_name name files = true <-> In name (map f_name files).
Proof.
  unfold has_name. rewrite existsb_exists, in_map_iff. split.
  - intros (f & Hf & E). apply String.eqb_eq in E. now exists f.
  - intros (f & E & Hf). exists f. split; [exact Hf|]. now apply String.eqb_eq.
Qed.

Lemma nodup_names_filter (p : file_entry -> bool) (files : list file_entry) :
  List.NoDup (map f_name files) ->
  List.NoDup (map f_name (List.filter p files)).
Proof.
  induction files as [|f files IH]; intros H; [constructor|].
  inversion H as [|? ? Hnotin Hrest]; subst. cbn [List.filter].
  destruct (p f); [|now apply IH].
  cbn [map]. constructor; [|now apply IH].
  intros Hin. apply Hnotin. apply in_map_iff in Hin as (g & E & Hg).
  apply List.filter_In in Hg as [Hg _]. apply in_map_iff. now exists g.
Qed.

Lemma nodup_names_app (l1 l2 : list string) :
  List.NoDup l1 -> List.NoDup l2 -> (forall x, In x l1 -> ~ In x l2) ->
  List.NoDup (l1 ++ l2).
Proof.
  intros H1 H2 Hd. apply NoDup_ListNoDup. apply NoDup_ListNoDup in H1, H2.
  apply NoDup_app. split; [exact H1|]. split; [|exact H2].
  intros x Hx Hx'. apply list_elem_of_In in Hx, Hx'. exact (Hd x Hx Hx').
Qed.

(** X9: the combined listing never raises: whatever the provider does
    (no credentials, an outage, a bucket that is missing) the answer is a
    list, and no two of its entries share a name. A bucket that cannot be
    listed contributes nothing, so with a default bucket that is missing
    the public files are still listed; and when the public bucket is the
    default bucket itself its files are listed once, as uploaded. *)
Theorem combined_listing_never_raises :
  forall (DEFAULT_BUCKET : string) (public_bucket : option string)
         (p : provider),
    (exists files,
        result_of (get_combined_files DEFAULT_BUCKET public_bucket p)
        = Ok files
        /\ List.NoDup (map f_name files))
    /\ (forall bucket,
          public_bucket = Some bucket -> bucket <> EmptyString ->
          bucket <> DEFAULT_BUCKET ->
          (exists e, result_of (get_bucket_files DEFAULT_BUCKET p) = Raise e) ->
          result_of (get_combined_files DEFAULT_BUCKET public_bucket p)
          = Ok (map (tag "public" bucket ("Public bucket: " ++ bucket))
                    (listing p bucket)))
    /\ (public_bucket = Some DEFAULT_BUCKET -> DEFAULT_BUCKET <> EmptyString ->
        result_of (get_combined_files DEFAULT_BUCKET public_bucket p)
        = Ok (map (tag "uploaded" DEFAULT_BUCKET "Your uploaded files")
                  (listing p DEFAULT_BUCKET))).
Proof.
  intros DEFAULT_BUCKET public_bucket p.
  assert (Hup : List.NoDup
                  (map f_name
                     (map (tag "uploaded" DEFAULT_BUCKET "Your uploaded files")
                          (listing p DEFAULT_BUCKET)))).
  { rewrite tagged_names. apply NoDup_ListNoDup, listing_names. }
  split; [|split].
  - destruct public_bucket as [bucket|];
      [|exists []; split; [reflexivity|constructor]].
    destruct (String.eqb bucket EmptyString) eqn:E0.
    { apply String.eqb_eq in E0. subst bucket.
      exists []. split; [reflexivity|constructor]. }
    apply String.eqb_neq in E0.
    destruct (String.eqb bucket DEFAULT_BUCKET) eqn:Ed.
    { apply String.eqb_eq in Ed. subst bucket. eexists. split.
      - now apply get_combined_files_same_bucket.
      - exact Hup. }
    apply String.eqb_neq in Ed. eexists. split.
    { now apply get_combined_files_result. }
    rewrite add_public_files_filter by apply listing_names.
    rewrite map_app. apply nodup_names_app; [exact Hup| |].
    + rewrite tagged_names. apply nodup_names_filter.
      apply NoDup_ListNoDup, listing_names.
    + intros x Hx Hx'. rewrite tagged_names in Hx'.
      apply in_map_iff in Hx' as (g & <- & Hg).
      apply List.filter_In in Hg as [_ Hg]. apply negb_true_iff in Hg.
      apply has_name_in in Hx. congruence.
  - intros bucket -> Hne Hd [e Hmissing].
    rewrite (get_combined_files_result DEFAULT_BUCKET bucket p Hne Hd).
    rewrite add_public_files_filter by apply listing_names.
    assert (Hl : listing p DEFAULT_BUCKET = [])
      by (unfold listing; now rewrite Hmissing).
    rewrite Hl. cbn [map app].
    rewrite filter_all by reflexivity. reflexivity.
  - intros -> Hne. now apply get_combined_files_same_bucket.
Qed.

(** *** Deleting and uploading *)

(** X10: deleting a file that the default bucket holds answers with
    success after three calls (client, existence check, delete); the file
    is then gone from the bucket and from its listing, every other object
    is where it was, and deleting it again answers 404. *)
Theorem delete_removes_exactly_that_file :
  forall (DEFAULT_BUCKET file_name : string) (p : provider) (b : blob),
    credentials_error p = None -> outage p = None ->
    lookup_blob p DEFAULT_BUCKET file_name = Some b ->
    let done := delete_file DEFAULT_BUCKET DEFAULT_BUCKET file_name p in
    result_of done = Ok ("File '" ++ file_name ++ "' deleted successfully")
    /\ calls_of done
       = [ClientInit; BlobExists DEFAULT_BUCKET file_name;
          BlobDelete DEFAULT_BUCKET file_name]
    /\ lookup_blob (state_of done) DEFAULT_BUCKET file_name = None
    /\ (forall bucket_name other,
          (bucket_name, other) <> (DEFAULT_BUCKET, file_name) ->
          lookup_blob (state_of done) bucket_name other
          = lookup_blob p bucket_name other)
    /\ has_name file_name (listing (state_of done) DEFAULT_BUCKET) = false
    /\ result_of (delete_file DEFAULT_BUCKET DEFAULT_BUCKET file_name
                              (state_of done))
       = Raise (HTTPException 404 ("File '" ++ file_name ++ "' not found")).
Proof.
  intros DEFAULT_BUCKET file_name p b Hc Ho Hl done.
  unfold lookup_blob in Hl.
  destruct (buckets p !! DEFAULT_BUCKET) as [objs|] eqn:Hb; [|discriminate].
  set (p1 := mk_provider (credentials_error p) (outage p)
               (<[DEFAULT_BUCKET := delete file_name objs]> (buckets p))).
  assert (Hdone : done
                  = (p1,
                     [ClientInit; BlobExists DEFAULT_BUCKET file_name;
                      BlobDelete DEFAULT_BUCKET file_name],
                     Ok ("File '" ++ file_name ++ "' deleted successfully"))).
  { unfold done, delete_file. rewrite String.eqb_refl. subst p1.
    now run_gcs. }
  rewrite Hdone. unfold result_of, calls_of, state_of. cbn [fst snd].
  assert (Hgone : lookup_blob p1 DEFAULT_BUCKET file_name = None).
  { unfold lookup_blob, p1. cbn [buckets].
    rewrite lookup_insert_eq. apply lookup_delete_eq. }
  split; [reflexivity|]. split; [reflexivity|]. split; [exact Hgone|].
  split.
  { intros bucket_name other Hne. unfold lookup_blob, p1. cbn [buckets].
    destruct (String.eqb bucket_name DEFAULT_BUCKET) eqn:E.
    - apply String.eqb_eq in E. subst bucket_name.
      rewrite lookup_insert_eq, Hb. apply lookup_delete_ne. congruence.
    - apply String.eqb_neq in E. now rewrite lookup_insert_ne by congruence. }
  split.
  { assert (Hb1 : buckets p1 !! DEFAULT_BUCKET = Some (delete file_name objs))
      by (unfold p1; cbn [buckets]; apply lookup_insert_eq).
    rewrite (listing_ok DEFAULT_BUCKET p1 _ Hc Ho Hb1).
    destruct (has_name file_name _) eqn:E; [|reflexivity].
    apply has_name_in in E. apply in_map_iff in E as (f & Hn & Hf).
    apply in_entries in Hf as (n & b' & Hl' & ->). cbn [entry_of_blob f_name fst] in Hn.
    subst n. rewrite lookup_delete_eq in Hl'. discriminate. }
  now rewrite (delete_file_missing DEFAULT_BUCKET file_name p1 Hc Ho Hgone).
Qed.

Lemma upload_failure (DEFAULT_BUCKET : string) (filename : option string)
    (content : string) (content_type : option string) (stamp : string)
    (p : provider) (e : pyexn) :
  snd (upload_to_default_bucket DEFAULT_BUCKET filename content content_type
                                stamp p) = Raise e ->
  fst (upload_to_default_bucket DEFAULT_BUCKET filename content content_type
                                stamp p) = p
  /\ exists cause, e = HTTPException 500 ("Failed to upload file: " ++ cause).
Proof.
  unfold upload_to_default_bucket, blob_upload_from_string, get_gcs_client,
    result_of.
  destruct filename as [[|c name]|]; cbn [fst snd];
    try (intros [= <-]; split; [reflexivity|eexists; reflexivity]).
  destruct (Z.of_nat (String.length content) =? 0)%Z; cbn [fst snd];
    try (intros [= <-]; split; [reflexivity|eexists; reflexivity]).
  destruct (credentials_error p); cbn [fst snd];
    try (intros [= <-]; split; [reflexivity|eexists; reflexivity]).
  destruct (outage p); cbn [fst snd];
    try (intros [= <-]; split; [reflexivity|eexists; reflexivity]).
  destruct (buckets p !! DEFAULT_BUCKET); cbn [fst snd];
    try (intros [= <-]; split; [reflexivity|eexists; reflexivity]).
  discriminate.
Qed.

(** X11: an upload never answers 400. The two checks of the request
    raise 400 inside the handler's [try], and its one catch-all turns them,
    like every other failure, into status 500 with the cause in the detail:
    "Failed to upload file: 400: No filename provided" for a missing or
    empty filename, "Failed to upload file: 400: Empty file provided" for
    an empty content. A failed upload leaves the store as it was. *)
Theorem upload_answers_every_failure_with_500 :
  forall (DEFAULT_BUCKET content : string) (content_type : option string)
         (stamp : string) (p : provider),
    upload_to_default_bucket DEFAULT_BUCKET None content content_type stamp p
    = (p, Raise (HTTPException 500
                   "Failed to upload file: 400: No filename provided"))
    /\ upload_to_default_bucket DEFAULT_BUCKET (Some EmptyString) content
                                content_type stamp p
       = (p, Raise (HTTPException 500
                      "Failed to upload file: 400: No filename provided"))
    /\ (forall c name,
          upload_to_default_bucket DEFAULT_BUCKET (Some (String c name))
                                   EmptyString content_type stamp p
          = (p, Raise (HTTPException 500
                         "Failed to upload file: 400: Empty file provided")))
    /\ (forall filename e,
          snd (upload_to_default_bucket DEFAULT_BUCKET filename content
                                        content_type stamp p) = Raise e ->
          fst (upload_to_default_bucket DEFAULT_BUCKET filename content
                                        content_type stamp p) = p
          /\ exists cause,
               e = HTTPException 500 ("Failed to upload file: " ++ cause)).
Proof.
  intros DEFAULT_BUCKET content content_type stamp p.
  split; [reflexivity|]. split; [reflexivity|]. split; [reflexivity|].
  intros filename e. apply upload_failure.
Qed.

(** X12: an upload that goes through writes the bytes of the content
    under the original filename in the default bucket, replacing an object
    of that name, and reports their number as the size. Afterwards the
    object holds those bytes; read back as text it gives what decoding them
    gives, so the content itself when the decoder returns it and the
    decoder's error when the bytes are no text. The listing of the default
    bucket has one entry of that name with that size, every other object is
    where it was, and a delete of the file succeeds. *)
Theorem upload_then_read_back :
  forall (DEFAULT_BUCKET name content : string) (content_type : option string)
         (stamp : string) (p : provider) (objs : gmap string blob),
    credentials_error p = None -> outage p = None ->
    buckets p !! DEFAULT_BUCKET = Some objs ->
    name <> EmptyString -> content <> EmptyString ->
    let uploaded :=
      upload_to_default_bucket DEFAULT_BUCKET (Some name) content content_type
                               stamp p in
    let size := Z.of_nat (String.length content) in
    let stored_type := Some (default "application/octet-stream" content_type) in
    snd uploaded
    = Ok (mk_upload ("File '" ++ name ++ "' uploaded successfully") name size
                    content_type)
    /\ (exists b,
          lookup_blob (fst uploaded) DEFAULT_BUCKET name = Some b
          /\ blob_bytes b = content /\ blob_size b = size
          /\ blob_content_type b = stored_type)
    /\ (forall bytes_decode,
          result_of (blob_download_as_text bytes_decode DEFAULT_BUCKET name
                                           (fst uploaded))
          = bytes_decode stored_type content)
    /\ (exists f,
          List.filter (fun g => String.eqb (f_name g) name)
                      (listing (fst uploaded) DEFAULT_BUCKET) = [f]
          /\ f_size f = size)
    /\ (forall bucket_name other,
          (bucket_name, other) <> (DEFAULT_BUCKET, name) ->
          lookup_blob (fst uploaded) bucket_name other
          = lookup_blob p bucket_name other)
    /\ result_of (delete_file DEFAULT_BUCKET DEFAULT_BUCKET name (fst uploaded))
       = Ok ("File '" ++ name ++ "' deleted successfully").
Proof.
  intros DEFAULT_BUCKET name content content_type stamp p objs Hc Ho Hb Hname
         Hcontent uploaded size stored_type.
  set (b := mk_blob size
              (Some (default "application/octet-stream" content_type))
              (Some stamp) (Some stamp) content).
  set (p1 := mk_provider (credentials_error p) (outage p)
               (<[DEFAULT_BUCKET := <[name := b]> objs]> (buckets p))).
  assert (Hup : uploaded
                = (p1, Ok (mk_upload
                             ("File '" ++ name ++ "' uploaded successfully")
                             name size content_type))).
  { unfold uploaded, upload_to_default_bucket, blob_upload_from_string,
      get_gcs_client, result_of.
    destruct name as [|c name]; [contradiction|].
    destruct (Z.eqb_spec (Z.of_nat (String.length content)) 0) as [E|_].
    { destruct content; [contradiction|discriminate]. }
    subst p1. rewrite !Hc, !Ho, Hb. reflexivity. }
  rewrite Hup. cbn [fst snd].
  assert (Hb1 : buckets p1 !! DEFAULT_BUCKET = Some (<[name := b]> objs))
    by (unfold p1; cbn [buckets]; apply lookup_insert_eq).
  assert (Hl1 : lookup_blob p1 DEFAULT_BUCKET name = Some b).
  { unfold lookup_blob. rewrite Hb1. apply lookup_insert_eq. }
  split; [reflexivity|]. split.
  { exists b. split; [exact Hl1|]. repeat split. }
  split.
  { intros bytes_decode.
    unfold blob_download_as_text, gcs_bind, blob_download_as_bytes, api,
      result_of.
    cbn [outage p1]. rewrite Ho, Hl1. cbn [blob_content_type blob_bytes b].
    fold stored_type.
    now destruct (bytes_decode stored_type content). }
  split.
  { rewrite (listing_ok DEFAULT_BUCKET p1 _ Hc Ho Hb1).
    exists (entry_of_blob (name, b)). split; [|reflexivity].
    assert (Hnd : List.NoDup
                    (map f_name
                       (map entry_of_blob (map_to_list (<[name := b]> objs))))).
    { apply NoDup_ListNoDup. rewrite map_map. cbn [entry_of_blob f_name].
      change (fun x : string * blob => x.1) with (@fst string blob).
      rewrite map_is_fmap. apply NoDup_fst_map_to_list. }
    assert (Hin : In (entry_of_blob (name, b))
                     (map entry_of_blob (map_to_list (<[name := b]> objs)))).
    { apply in_entries. exists name, b. split; [apply lookup_insert_eq|reflexivity]. }
    exact (filter_name_unique _ (entry_of_blob (name, b)) Hnd Hin). }
  split.
  { intros bucket_name other Hne. unfold lookup_blob, p1. cbn [buckets].
    destruct (String.eqb bucket_name DEFAULT_BUCKET) eqn:E.
    - apply String.eqb_eq in E. subst bucket_name.
      rewrite lookup_insert_eq, Hb. apply lookup_insert_ne. congruence.
    - apply String.eqb_neq in E. now rewrite lookup_insert_ne by congruence. }
  assert (Hc1 : credentials_error p1 = None) by exact Hc.
  assert (Ho1 : outage p1 = None) by exact Ho.
  assert (Hn1 : <[name := b]> objs !! name = Some b) by apply lookup_insert_eq.
  clearbody p1. clear Hup Hb Hc Ho. unfold lookup_blob in Hl1.
  unfold delete_file, result_of. rewrite String.eqb_refl. now run_gcs.
Qed.

(** *** Previews *)

Lemma take_length (n : nat) (s : string) :
  (n <= String.length s)%nat -> String.length (PyStr.take n s) = n.
Proof.
  revert s. induction n as [|n IH]; intros [|c s] H; cbn in *;
    try reflexivity; try lia.
  rewrite IH; [reflexivity|lia].
Qed.

Lemma slice_to_take (s : string) (n : nat) :
  (n <= String.length s)%nat ->
  PyStr.slice_to s (Z.of_nat n) = PyStr.take n s.
Proof.
  intros H. unfold PyStr.slice_to, PyStr.slice, PyStr.clamp_index.
  replace (0 <? 0)%Z with false by reflexivity.
  replace (Z.of_nat n <? 0)%Z with false by (symmetry; apply Z.ltb_ge; lia).
  replace (Z.max 0 (Z.min (Z.of_nat (String.length s)) 0)) with 0%Z by lia.
  replace (Z.max 0 (Z.min (Z.of_nat (String.length s)) (Z.of_nat n)))
    with (Z.of_nat n) by lia.
  rewrite Z.sub_0_r, Nat2Z.id. reflexivity.
Qed.

(** X13: the preview of a file that is neither CSV nor JSON, by the text
    after the last dot of its lowercased name. When the bytes of the object
    decode it is raw text: the whole content when it has at most 2000
    characters, else its first 2000 characters followed by three dots, so
    never more than 2003; no rows are counted, and the type reported is that
    extension. When they do not decode, as for an image or a spreadsheet,
    the answer is 500 with the decoder's message. *)
Theorem preview_of_other_files_is_bounded_text :
  forall (bytes_decode : option string -> string -> pyresult string)
         (read_csv : string -> pyresult DataFrame)
         (preview_json : string -> Z -> string)
         (bucket_name file_name : string) (rows : Z) (p : provider) (b : blob),
    credentials_error p = None -> outage p = None ->
    lookup_blob p bucket_name file_name = Some b ->
    let file_extension :=
      List.last (PyStr.split "." (PyStr.lower file_name)) EmptyString in
    let answer :=
      preview_file bytes_decode read_csv preview_json bucket_name file_name
                   rows p in
    let calls :=
      [ClientInit; BlobExists bucket_name file_name;
       BlobDownload bucket_name file_name] in
    file_extension <> "csv" -> file_extension <> "json" ->
    (forall content,
       bytes_decode (blob_content_type b) (blob_bytes b) = Ok content ->
       exists data,
         answer
         = (p, calls,
            Ok (PreviewRaw file_extension data 0 0
                           ("Raw preview of " ++ file_extension ++ " file")))
         /\ ((String.length content <= 2000)%nat -> data = content)
         /\ ((2000 < String.length content)%nat ->
             data = PyStr.take 2000 content ++ "...")
         /\ (String.length data <= 2003)%nat)
    /\ (forall cls msg,
          bytes_decode (blob_content_type b) (blob_bytes b)
          = Raise (PyError cls msg) ->
          answer
          = (p, calls,
             Raise (HTTPException 500 ("Failed to preview file: " ++ msg)))).
Proof.
  intros bytes_decode read_csv preview_json bucket_name file_name rows p b
         Hc Ho Hl file_extension answer calls Hcsv Hjson.
  apply String.eqb_neq in Hcsv, Hjson.
  assert (Hrun : forall r,
             bytes_decode (blob_content_type b) (blob_bytes b) = r ->
             answer
             = match r with
               | Ok content =>
                   (p, calls,
                    Ok (PreviewRaw file_extension
                          (if (2000 <? Z.of_nat (String.length content))%Z
                           then PyStr.slice_to content 2000 ++ "..."
                           else content)
                          0 0
                          ("Raw preview of " ++ file_extension ++ " file")))
               | Raise (PyError cls msg) =>
                   (p, calls,
                    Raise (HTTPException 500
                             ("Failed to preview file: " ++ msg)))
               | Raise e => (p, calls, Raise e)
               end).
  { intros r Hdec. unfold answer, preview_file, blob_download_as_text.
    unfold lookup_blob in Hl.
    destruct (buckets p !! bucket_name) as [objs|] eqn:Hb; [|discriminate].
    unfold gcs_bind, get_gcs_client, blob_exists, blob_download_as_bytes, api,
      gcs_ret, gcs_raise, reraise_http, lookup_blob.
    rewrite Hc, Ho, Hb, Hl. cbn [negb]. rewrite Ho, Hb, Hl, Hdec.
    destruct r as [content|[status detail|cls msg]]; try reflexivity.
    fold file_extension. rewrite Hcsv, Hjson. reflexivity. }
  split.
  - intros content Hdec. rewrite (Hrun _ Hdec).
    eexists. split; [reflexivity|].
    destruct (Z.ltb_spec 2000 (Z.of_nat (String.length content)))
      as [Hlong|Hshort].
    + change 2000%Z with (Z.of_nat 2000).
      rewrite slice_to_take by lia.
      split; [intros; lia|]. split; [reflexivity|].
      rewrite PyStrProps.length_append, take_length by lia. cbn. lia.
    + split; [reflexivity|]. split; [intros; lia|]. lia.
  - intros cls msg Hdec. now rewrite (Hrun _ Hdec).
Qed.

(** X14: a preview of a file that the bucket does not hold answers 404
    after the existence check, without a download; a CSV file that pandas
    cannot parse answers 500 with the parser's message in the detail, and a
    file whose bytes do not decode answers 500 with the decoder's, whatever
    its extension. *)
Theorem preview_reports_missing_and_unreadable_files :
  forall (bytes_decode : option string -> string -> pyresult string)
         (read_csv : string -> pyresult DataFrame)
         (preview_json : string -> Z -> string)
         (bucket_name file_name : string) (rows : Z) (p : provider),
    credentials_error p = None -> outage p = None ->
    let answer :=
      preview_file bytes_decode read_csv preview_json bucket_name file_name
                   rows p in
    (lookup_blob p bucket_name file_name = None ->
     answer
     = (p, [ClientInit; BlobExists bucket_name file_name],
        Raise (HTTPException 404
                 ("File '" ++ file_name ++ "' not found in bucket '"
                  ++ bucket_name ++ "'"))))
    /\ (forall b content cls msg,
          lookup_blob p bucket_name file_name = Some b ->
          List.last (PyStr.split "." (PyStr.lower file_name)) EmptyString
          = "csv" ->
          bytes_decode (blob_content_type b) (blob_bytes b) = Ok content ->
          read_csv content = Raise (PyError cls msg) ->
          answer
          = (p,
             [ClientInit; BlobExists bucket_name file_name;
              BlobDownload bucket_name file_name],
             Raise (HTTPException 500 ("Failed to preview file: " ++ msg))))
    /\ (forall b cls msg,
          lookup_blob p bucket_name file_name = Some b ->
          bytes_decode (blob_content_type b) (blob_bytes b)
          = Raise (PyError cls msg) ->
          answer
          = (p,
             [ClientInit; BlobExists bucket_name file_name;
              BlobDownload bucket_name file_name],
             Raise (HTTPException 500 ("Failed to preview file: " ++ msg)))).
Proof.
  intros bytes_decode read_csv preview_json bucket_name file_name rows p Hc Ho
         answer.
  split; [|split].
  - intros Hl. unfold answer, preview_file.
    unfold gcs_bind, get_gcs_client, blob_exists, api, gcs_raise, reraise_http.
    rewrite Hc, Ho, Hl. reflexivity.
  - intros b content cls msg Hl Hext Hdec Hread.
    unfold answer, preview_file, blob_download_as_text.
    unfold lookup_blob in Hl.
    destruct (buckets p !! bucket_name) as [objs|] eqn:Hb; [|discriminate].
    unfold gcs_bind, get_gcs_client, blob_exists, blob_download_as_bytes, api,
      gcs_ret, gcs_raise, reraise_http, lookup_blob.
    rewrite Hc, Ho, Hb, Hl. cbn [negb]. rewrite Ho, Hb, Hl, Hdec.
    rewrite Hext. cbn [String.eqb Ascii.eqb Bool.eqb andb].
    rewrite Hread. reflexivity.
  - intros b cls msg Hl Hdec.
    unfold answer, preview_file, blob_download_as_text.
    unfold lookup_blob in Hl.
    destruct (buckets p !! bucket_name) as [objs|] eqn:Hb; [|discriminate].
    unfold gcs_bind, get_gcs_client, blob_exists, blob_download_as_bytes, api,
      gcs_ret, gcs_raise, reraise_http, lookup_blob.
    rewrite Hc, Ho, Hb, Hl. cbn [negb]. rewrite Ho, Hb, Hl, Hdec.
    reflexivity.
Qed.

(** *** Instances on the sample store *)

(** The instances for the sample stores: a provider without credentials,
    one that is down, a bucket that does not exist, and the listing of
    [uploads]. *)
Lemma listing_answers_objects_or_cause_witness :
  get_bucket_files "uploads" Samples.provider_without_credentials
  = (Samples.provider_without_credentials, [ClientInit],
     Raise (HTTPException 500
       ("Failed to initialize GCS client. Make sure you're logged in with 'gcloud auth login': "
        ++ "Your default credentials were not found.")))
  /\ result_of (get_bucket_files "uploads" Samples.provider_in_outage)
     = Raise (HTTPException 500
                ("Failed to list files: " ++ "503 Service Unavailable"))
  /\ result_of (get_bucket_files "archive" Samples.sample_provider)
     = Raise (HTTPException 404 ("Bucket '" ++ "archive" ++ "' not found"))
  /\ exists files,
       result_of (get_bucket_files "uploads" Samples.sample_provider)
       = Ok files
       /\ List.NoDup (map f_name files)
       /\ In "notes.txt" (map f_name files).
Proof.
  assert (Hc : credentials_error Samples.sample_provider = None)
    by reflexivity.
  assert (Ho : outage Samples.sample_provider = None) by reflexivity.
  assert (Hc' : credentials_error Samples.provider_in_outage = None)
    by reflexivity.
  assert (Hmissing : buckets Samples.sample_provider !! "archive" = None)
    by (vm_compute; reflexivity).
  assert (Hb : buckets Samples.sample_provider !! "uploads"
               = Some (<["data.csv" := Samples.sample_blob Samples.sample_csv]>
                         (<["notes.txt" := Samples.sample_blob "hello"]> ∅)))
    by (vm_compute; reflexivity).
  split; [|split; [|split]].
  - apply (proj1 (listing_answers_objects_or_cause
                    "uploads" Samples.provider_without_credentials)).
    reflexivity.
  - apply (proj1 (proj2 (listing_answers_objects_or_cause
                           "uploads" Samples.provider_in_outage) Hc')).
    reflexivity.
  - exact (proj1 (proj2 (proj2 (listing_answers_objects_or_cause
                                  "archive" Samples.sample_provider) Hc) Ho)
                 Hmissing).
  - destruct (proj2 (proj2 (proj2 (listing_answers_objects_or_cause
                                     "uploads" Samples.sample_provider) Hc) Ho)
                    _ Hb)
      as (files & Hres & Hnd & Hnames & _).
    exists files. split; [exact Hres|]. split; [exact Hnd|].
    apply Hnames. exists (Samples.sample_blob "hello").
    vm_compute. reflexivity.
Defined.

(** The instance for the sample store: the combined listing and a refused
    delete leave it as it was. *)
Lemma reading_leaves_the_store_witness :
  state_of (get_combined_files "uploads" (Some "public")
                               Samples.sample_provider)
  = Samples.sample_provider
  /\ result_of (delete_file "uploads" "public" "races.csv"
                            Samples.sample_provider)
     = Raise forbidden
  /\ state_of (delete_file "uploads" "public" "races.csv"
                           Samples.sample_provider)
     = Samples.sample_provider.
Proof.
  destruct (reading_leaves_the_store
              "uploads" Samples.sample_bytes_decode Samples.sample_read_csv
              Samples.sample_preview_json
              Samples.sample_provider)
    as (_ & _ & Hcombined & _ & Hdelete).
  assert (Hforbidden : result_of (delete_file "uploads" "public" "races.csv"
                                              Samples.sample_provider)
                       = Raise forbidden) by (vm_compute; reflexivity).
  split; [apply Hcombined|]. split; [exact Hforbidden|].
  exact (Hdelete "public" "races.csv" forbidden Hforbidden).
Defined.

(** The instances for the sample store: with a default bucket [inbox]
    that does not exist the two public files are listed, and with the
    default bucket as public bucket its files are listed as uploaded. *)
Lemma combined_listing_never_raises_witness :
  result_of (get_combined_files "inbox" (Some "public")
                                Samples.sample_provider)
  = Ok (map (tag "public" "public" ("Public bucket: " ++ "public"))
            (listing Samples.sample_provider "public"))
  /\ map f_name (listing Samples.sample_provider "public")
     = ["races.csv"; "data.csv"]
  /\ result_of (get_combined_files "uploads" (Some "uploads")
                                   Samples.sample_provider)
     = Ok (map (tag "uploaded" "uploads" "Your uploaded files")
               (listing Samples.sample_provider "uploads")).
Proof.
  destruct (combined_listing_never_raises
              "inbox" (Some "public") Samples.sample_provider)
    as (_ & Hpublic & _).
  destruct (combined_listing_never_raises
              "uploads" (Some "uploads") Samples.sample_provider)
    as (_ & _ & Hsame).
  assert (H1 : "public" <> EmptyString) by discriminate.
  assert (H2 : "public" <> "inbox") by discriminate.
  assert (H3 : exists e,
             result_of (get_bucket_files "inbox" Samples.sample_provider)
             = Raise e) by (eexists; vm_compute; reflexivity).
  assert (H4 : "uploads" <> EmptyString) by discriminate.
  split; [|split].
  - exact (Hpublic "public" eq_refl H1 H2 H3).
  - vm_compute. reflexivity.
  - exact (Hsame eq_refl H4).
Defined.

(** The instance for the sample store: [notes.txt] is deleted from
    [uploads], [data.csv] stays, and a second delete answers 404. *)
Lemma delete_removes_exactly_that_file_witness :
  let done :=
    delete_file "uploads" "uploads" "notes.txt" Samples.sample_provider in
  result_of done = Ok ("File '" ++ "notes.txt" ++ "' deleted successfully")
  /\ lookup_blob (state_of done) "uploads" "notes.txt" = None
  /\ lookup_blob (state_of done) "uploads" "data.csv"
     = lookup_blob Samples.sample_provider "uploads" "data.csv"
  /\ result_of (delete_file "uploads" "uploads" "notes.txt" (state_of done))
     = Raise (HTTPException 404 ("File '" ++ "notes.txt" ++ "' not found")).
Proof.
  intros done.
  assert (Hc : credentials_error Samples.sample_provider = None)
    by reflexivity.
  assert (Ho : outage Samples.sample_provider = None) by reflexivity.
  assert (Hl : lookup_blob Samples.sample_provider "uploads" "notes.txt"
               = Some (Samples.sample_blob "hello"))
    by (vm_compute; reflexivity).
  destruct (delete_removes_exactly_that_file
              "uploads" "notes.txt" Samples.sample_provider
              (Samples.sample_blob "hello") Hc Ho Hl)
    as (Hres & _ & Hgone & Hother & _ & Hagain).
  split; [exact Hres|]. split; [exact Hgone|]. split; [|exact Hagain].
  apply Hother. discriminate.
Defined.

(** The instances for the sample store: an empty file, and an upload
    when the default bucket does not exist. *)
Lemma upload_answers_every_failure_with_500_witness :
  upload_to_default_bucket "uploads" (Some "empty.txt") EmptyString
                           (Some "text/plain") "2024-03-10 12:00:00"
                           Samples.sample_provider
  = (Samples.sample_provider,
     Raise (HTTPException 500
              "Failed to upload file: 400: Empty file provided"))
  /\ fst (upload_to_default_bucket "inbox" (Some "a.txt") "content"
                                   (Some "text/plain") "2024-03-10 12:00:00"
                                   Samples.sample_provider)
     = Samples.sample_provider
  /\ snd (upload_to_default_bucket "inbox" (Some "a.txt") "content"
                                   (Some "text/plain") "2024-03-10 12:00:00"
                                   Samples.sample_provider)
     = Raise (HTTPException 500
                ("Failed to upload file: " ++ "404 bucket not found")).
Proof.
  assert (Hfail : snd (upload_to_default_bucket "inbox" (Some "a.txt")
                         "content" (Some "text/plain") "2024-03-10 12:00:00"
                         Samples.sample_provider)
                  = Raise (HTTPException 500
                             ("Failed to upload file: "
                              ++ "404 bucket not found")))
    by (vm_compute; reflexivity).
  destruct (upload_answers_every_failure_with_500
              "uploads" EmptyString (Some "text/plain") "2024-03-10 12:00:00"
              Samples.sample_provider) as (_ & _ & Hempty & _).
  destruct (upload_answers_every_failure_with_500
              "inbox" "content" (Some "text/plain") "2024-03-10 12:00:00"
              Samples.sample_provider) as (_ & _ & _ & Hany).
  split; [apply Hempty|]. split; [|exact Hfail].
  exact (proj1 (Hany (Some "a.txt") _ Hfail)).
Defined.

(** The instance for the sample store: [plan.md] is uploaded to
    [uploads], read back as its text, and deleted; [notes.txt] stays. *)
Lemma upload_then_read_back_witness :
  let uploaded :=
    upload_to_default_bucket "uploads" (Some "plan.md") "# plan"
                             (Some "text/markdown") "2024-03-10 12:00:00"
                             Samples.sample_provider in
  snd uploaded
  = Ok (mk_upload ("File '" ++ "plan.md" ++ "' uploaded successfully")
                  "plan.md" (Z.of_nat (String.length "# plan"))
                  (Some "text/markdown"))
  /\ result_of (blob_download_as_text Samples.sample_bytes_decode
                                      "uploads" "plan.md" (fst uploaded))
     = Ok "# plan"
  /\ lookup_blob (fst uploaded) "uploads" "notes.txt"
     = lookup_blob Samples.sample_provider "uploads" "notes.txt"
  /\ result_of (delete_file "uploads" "uploads" "plan.md" (fst uploaded))
     = Ok ("File '" ++ "plan.md" ++ "' deleted successfully").
Proof.
  intros uploaded.
  assert (Hc : credentials_error Samples.sample_provider = None)
    by reflexivity.
  assert (Ho : outage Samples.sample_provider = None) by reflexivity.
  assert (Hb : buckets Samples.sample_provider !! "uploads"
               = Some (<["data.csv" := Samples.sample_blob Samples.sample_csv]>
                         (<["notes.txt" := Samples.sample_blob "hello"]> ∅)))
    by (vm_compute; reflexivity).
  assert (Hname : "plan.md" <> EmptyString) by discriminate.
  assert (Hcontent : "# plan" <> EmptyString) by discriminate.
  destruct (upload_then_read_back
              "uploads" "plan.md" "# plan" (Some "text/markdown")
              "2024-03-10 12:00:00" Samples.sample_provider _
              Hc Ho Hb Hname Hcontent)
    as (Hres & _ & Hread & _ & Hother & Hdelete).
  split; [exact Hres|]. split; [|split; [|exact Hdelete]].
  - fold uploaded in Hread. rewrite (Hread Samples.sample_bytes_decode).
    vm_compute. reflexivity.
  - apply Hother. discriminate.
Defined.

(** The instances: the preview of [notes.txt] in the sample store is its
    five characters, and the preview of the image [logo.png] answers 500
    with the decoder's message. *)
Lemma preview_of_other_files_is_bounded_text_witness :
  (exists data,
     preview_file Samples.sample_bytes_decode Samples.sample_read_csv
                  Samples.sample_preview_json
                  "uploads" "notes.txt" 10 Samples.sample_provider
     = (Samples.sample_provider,
        [ClientInit; BlobExists "uploads" "notes.txt";
         BlobDownload "uploads" "notes.txt"],
        Ok (PreviewRaw
              (List.last (PyStr.split "." (PyStr.lower "notes.txt")) EmptyString)
              data 0 0
              ("Raw preview of "
               ++ List.last (PyStr.split "." (PyStr.lower "notes.txt"))
                            EmptyString
               ++ " file")))
     /\ data = "hello"
     /\ List.last (PyStr.split "." (PyStr.lower "notes.txt")) EmptyString
        = "txt")
  /\ preview_file Samples.sample_bytes_decode Samples.sample_read_csv
                  Samples.sample_preview_json
                  "uploads" "logo.png" 10 Samples.image_provider
     = (Samples.image_provider,
        [ClientInit; BlobExists "uploads" "logo.png";
         BlobDownload "uploads" "logo.png"],
        Raise (HTTPException 500
                 ("Failed to preview file: "
                  ++ "'utf-8' codec can't decode bytes: invalid start byte"))).
Proof.
  assert (Hc : credentials_error Samples.sample_provider = None)
    by reflexivity.
  assert (Ho : outage Samples.sample_provider = None) by reflexivity.
  assert (Hl : lookup_blob Samples.sample_provider "uploads" "notes.txt"
               = Some (Samples.sample_blob "hello"))
    by (vm_compute; reflexivity).
  assert (Hcsv : List.last (PyStr.split "." (PyStr.lower "notes.txt"))
                           EmptyString <> "csv") by (vm_compute; discriminate).
  assert (Hjson : List.last (PyStr.split "." (PyStr.lower "notes.txt"))
                            EmptyString <> "json") by (vm_compute; discriminate).
  assert (Hdec : Samples.sample_bytes_decode
                   (blob_content_type (Samples.sample_blob "hello"))
                   (blob_bytes (Samples.sample_blob "hello"))
                 = Ok "hello") by (vm_compute; reflexivity).
  assert (Hci : credentials_error Samples.image_provider = None)
    by reflexivity.
  assert (Hoi : outage Samples.image_provider = None) by reflexivity.
  assert (Hli : lookup_blob Samples.image_provider "uploads" "logo.png"
                = Some Samples.image_blob)
    by (vm_compute; reflexivity).
  assert (Hcsvi : List.last (PyStr.split "." (PyStr.lower "logo.png"))
                            EmptyString <> "csv") by (vm_compute; discriminate).
  assert (Hjsoni : List.last (PyStr.split "." (PyStr.lower "logo.png"))
                             EmptyString <> "json")
    by (vm_compute; discriminate).
  assert (Hdeci : Samples.sample_bytes_decode
                    (blob_content_type Samples.image_blob)
                    (blob_bytes Samples.image_blob)
                  = Raise (PyError "UnicodeDecodeError"
                             "'utf-8' codec can't decode bytes: invalid start byte"))
    by (vm_compute; reflexivity).
  split.
  - destruct (proj1 (preview_of_other_files_is_bounded_text
                       Samples.sample_bytes_decode Samples.sample_read_csv
                       Samples.sample_preview_json
                       "uploads" "notes.txt" 10 Samples.sample_provider
                       (Samples.sample_blob "hello") Hc Ho Hl Hcsv Hjson)
                    "hello" Hdec)
      as (data & Hres & Hshort & _).
    exists data. split; [exact Hres|]. split; [|vm_compute; reflexivity].
    apply Hshort. vm_compute. lia.
  - exact (proj2 (preview_of_other_files_is_bounded_text
                    Samples.sample_bytes_decode Samples.sample_read_csv
                    Samples.sample_preview_json
                    "uploads" "logo.png" 10 Samples.image_provider
                    Samples.image_blob Hci Hoi Hli Hcsvi Hjsoni)
                 _ _ Hdeci).
Defined.

(** The instances for the sample store: a file that is not there, and a
    CSV file that the reader rejects. *)
Lemma preview_reports_missing_and_unreadable_files_witness :
  preview_file Samples.sample_bytes_decode Samples.sample_read_csv
               Samples.sample_preview_json
               "uploads" "absent.csv" 10 Samples.sample_provider
  = (Samples.sample_provider, [ClientInit; BlobExists "uploads" "absent.csv"],
     Raise (HTTPException 404
              ("File '" ++ "absent.csv" ++ "' not found in bucket '"
               ++ "uploads" ++ "'")))
  /\ preview_file Samples.sample_bytes_decode Samples.sample_read_csv
                  Samples.sample_preview_json
                  "public" "data.csv" 10 Samples.sample_provider
     = (Samples.sample_provider,
        [ClientInit; BlobExists "public" "data.csv";
         BlobDownload "public" "data.csv"],
        Raise (HTTPException 500
                 ("Failed to preview file: " ++ "Error tokenizing data"))).
Proof.
  assert (Hc : credentials_error Samples.sample_provider = None)
    by reflexivity.
  assert (Ho : outage Samples.sample_provider = None) by reflexivity.
  assert (Habsent : lookup_blob Samples.sample_provider "uploads" "absent.csv"
                    = None) by (vm_compute; reflexivity).
  assert (Hl : lookup_blob Samples.sample_provider "public" "data.csv"
               = Some (Samples.sample_blob "x,y"))
    by (vm_compute; reflexivity).
  assert (Hext : List.last (PyStr.split "." (PyStr.lower "data.csv"))
                           EmptyString = "csv") by (vm_compute; reflexivity).
  assert (Hdec : Samples.sample_bytes_decode
                   (blob_content_type (Samples.sample_blob "x,y"))
                   (blob_bytes (Samples.sample_blob "x,y"))
                 = Ok "x,y") by (vm_compute; reflexivity).
  assert (Hread : Samples.sample_read_csv "x,y"
                  = Raise (PyError "ParserError" "Error tokenizing data"))
    by (vm_compute; reflexivity).
  split.
  - exact (proj1 (preview_reports_missing_and_unreadable_files
                    Samples.sample_bytes_decode Samples.sample_read_csv
                    Samples.sample_preview_json
                    "uploads" "absent.csv" 10 Samples.sample_provider Hc Ho)
                 Habsent).
  - exact (proj1 (proj2 (preview_reports_missing_and_unreadable_files
                           Samples.sample_bytes_decode Samples.sample_read_csv
                           Samples.sample_preview_json
                           "public" "data.csv" 10 Samples.sample_provider
                           Hc Ho))
                 _ _ _ _ Hl Hext Hdec Hread).
Defined.

End StorageFacts.

(** ** Code generation and execution *)

Module CodeGenFacts.

Import Pandas CodeGen PyStrProps CodeGenProps.

(** *** Running the scripts *)

Lemma loads_keep (storage_read_csv : string -> pyresult DataFrame)
    (name : string) (sources : list (string * string * string)) :
  (forall s, In s sources -> In s dataset_sources /\ fst (fst s) <> name) ->
  forallb (untouched name)
          (concat (map (load_stmts storage_read_csv) sources)) = true.
Proof.
  intros H. rewrite forallb_concat. apply forallb_forall. intros l Hl.
  apply in_map_iff in Hl as (s & <- & Hs). destruct (H s Hs).
  now apply load_stmts_bind.
Qed.

Lemma to_sql_stmts_keep (to_sql_error : string -> DataFrame -> option string)
    (name : string) (tables : list (string * DataFrame)) :
  forallb (untouched name) (concat (map (to_sql_stmts to_sql_error) tables))
  = true.
Proof.
  rewrite forallb_concat. apply forallb_forall. intros l Hl.
  apply in_map_iff in Hl as (nd & <- & _). unfold to_sql_stmts.
  destruct (to_sql_error (fst nd) (snd nd)); reflexivity.
Qed.

(** A designated result that is bound is not replaced by the selection. *)
Lemma epilogue_globals_keeps_designated (g : globals) (v : pyobj) :
  dict_get g "ans_df" = Some v ->
  dict_get (epilogue_globals g) "ans_df" = Some v.
Proof.
  intros H. unfold epilogue_globals, auto_select.
  set (g2 := dict_set (dict_set g "json" (OModule "json")) "_candidate_names"
                      (OOther "list")).
  assert (Hget : dict_get g2 "ans_df" = Some v).
  { unfold g2. rewrite !dict_get_set_ne by discriminate. exact H. }
  unfold dict_mem. rewrite Hget.
  destruct (candidate_names _); exact Hget.
Qed.

Lemma dataset_sources_other_than_ans_df :
  forall s, In s dataset_sources ->
    In s dataset_sources /\ fst (fst s) <> "ans_df".
Proof.
  intros s Hs. split; [exact Hs|].
  pose proof dataset_names_free as Hfree.
  rewrite forallb_forall in Hfree. specialize (Hfree s Hs).
  rewrite !andb_true_iff in Hfree. destruct Hfree as [[Ha _] _].
  apply negb_true_iff in Ha. now apply String.eqb_neq.
Qed.

(** With the built-in names unbound, [pd] bound to pandas and [ans_df]
    bound to [None], the appended lines fail at [ans_df.to_json]. *)
Lemma epilogue_on_none (to_json : DataFrame -> pyresult string)
    (print_exception : pyexn -> string)
    (undetermined : globals -> string -> run_outcome) (g : globals)
    (out : string) :
  builtins_unbound g = true ->
  dict_get g "pd" = Some (OModule "pandas") ->
  dict_get g "ans_df" = Some ONone ->
  epilogue to_json print_exception undetermined g out
  = Completed 1 out (print_exception (none_has_no "to_json")).
Proof.
  intros Hfree Hpd Hans. unfold epilogue, dict_mem.
  rewrite (builtins_unbound_get g "__builtins__" Hfree (or_introl eq_refl)).
  assert (Hcall : forall name go_on,
             In name builtin_names ->
             call_builtin print_exception undetermined name g out go_on
             = go_on)
    by (intros; now apply call_builtin_unbound).
  rewrite !Hcall by (unfold builtin_names; cbn [In]; tauto).
  rewrite Hpd. cbn [String.eqb Ascii.eqb Bool.eqb]. cbv iota.
  rewrite ?Hcall by (unfold builtin_names; cbn [In]; tauto).
  now rewrite (epilogue_globals_keeps_designated g ONone Hans).
Qed.

(** The same with [ans_df] bound to a frame that [to_json] rejects. *)
Lemma epilogue_on_rejected (to_json : DataFrame -> pyresult string)
    (print_exception : pyexn -> string)
    (undetermined : globals -> string -> run_outcome) (g : globals)
    (out : string) (df : DataFrame) (e : pyexn) :
  builtins_unbound g = true ->
  dict_get g "pd" = Some (OModule "pandas") ->
  dict_get g "ans_df" = Some (ODataFrame df) ->
  to_json df = Raise e ->
  epilogue to_json print_exception undetermined g out
  = Completed 1 out (print_exception e).
Proof.
  intros Hfree Hpd Hans Hjson. unfold epilogue, dict_mem.
  rewrite (builtins_unbound_get g "__builtins__" Hfree (or_introl eq_refl)).
  assert (Hcall : forall name go_on,
             In name builtin_names ->
             call_builtin print_exception undetermined name g out go_on
             = go_on)
    by (intros; now apply call_builtin_unbound).
  rewrite !Hcall by (unfold builtin_names; cbn [In]; tauto).
  rewrite Hpd. cbn [String.eqb Ascii.eqb Bool.eqb]. cbv iota.
  rewrite ?Hcall by (unfold builtin_names; cbn [In]; tauto).
  now rewrite (epilogue_globals_keeps_designated g _ Hans), Hjson.
Qed.

(** The SQL script up to the query: it runs to its end, leaves [pd] bound
    to pandas, [ans_df] and the built-in names unbound, and prints complete
    lines. *)
Lemma sql_setup_run (storage_read_csv : string -> pyresult DataFrame)
    (to_sql_error : string -> DataFrame -> option string) (code : string)
    (more : list stmt) :
  forallb (untouched "ans_df") more = true ->
  exists g out,
    run_stmts
      ([ Assign "pd" (OModule "pandas"); Assign "np" (OModule "numpy");
         Assign "sqlite3" (OModule "sqlite3"); Assign "io" (OModule "io") ]
       ++ concat (map (load_stmts storage_read_csv) dataset_sources)
       ++ [ Assign "conn" (OOther "Connection") ]
       ++ concat (map (to_sql_stmts to_sql_error)
                      (loaded_datasets storage_read_csv))
       ++ [ PrintLine "Executing SQL query:"; PrintLine "```sql";
            PrintLine code; PrintLine "```" ]
       ++ more)%list [] EmptyString
    = Finished g out
    /\ dict_wf g /\ PyStr.complete_lines out
    /\ dict_get g "ans_df" = None
    /\ dict_get g "pd" = Some (OModule "pandas")
    /\ builtins_unbound g = true.
Proof.
  intros Hmore. cbn [app run_stmts].
  set (g0 := dict_set [] "pd" (OModule "pandas")).
  assert (Hwf : dict_wf g0) by (apply dict_wf_set; constructor).
  assert (Hall : forallb (untouched "ans_df")
                   (Assign "np" (OModule "numpy")
                    :: Assign "sqlite3" (OModule "sqlite3")
                    :: Assign "io" (OModule "io")
                    :: concat (map (load_stmts storage_read_csv) dataset_sources)
                    ++ Assign "conn" (OOther "Connection")
                    :: concat (map (to_sql_stmts to_sql_error)
                                   (loaded_datasets storage_read_csv))
                    ++ PrintLine "Executing SQL query:" :: PrintLine "```sql"
                    :: PrintLine code :: PrintLine "```" :: more)%list = true).
  { cbn [forallb]. rewrite forallb_app. cbn [forallb].
    rewrite forallb_app. cbn [forallb].
    rewrite (loads_keep storage_read_csv "ans_df" dataset_sources
               dataset_sources_other_than_ans_df).
    rewrite to_sql_stmts_keep, Hmore. reflexivity. }
  destruct (run_untouched "ans_df" _ g0 EmptyString Hall Hwf (or_introl eq_refl))
    as (g & out & Hrun & Hwf' & Hout & Ha & Hp & _).
  exists g, out. split; [exact Hrun|]. split; [exact Hwf'|].
  split; [exact Hout|]. split; [now rewrite Ha|]. split; [now rewrite Hp|].
  now rewrite (run_keeps_builtins _ g0 g EmptyString out
                 (untouched_spares_builtins "ans_df" _ Hall) Hrun).
Qed.

(** What the response is once the text between the sentinels is known. *)
Lemma response_of_decode (json_loads : string -> pyresult (list record))
    (text : string) :
  (forall data,
     json_loads text = Ok data ->
     response_of (decode json_loads text)
     = mk_exec_response true (Some (json_to_html_table data)) None)
  /\ (forall msg,
        json_loads text = Raise (PyError "JSONDecodeError" msg) ->
        response_of (decode json_loads text)
        = mk_exec_response false None
            (Some ("Failed to parse JSON result: " ++ msg))).
Proof.
  split.
  - intros data H. unfold decode. now rewrite H.
  - intros msg H. unfold decode. now rewrite H.
Qed.

(** *** SQL requests *)

(** X15: when the query of an SQL request fails, the error of the query
    is printed by the child and lost. For a query text that stays as it is
    between the triple quotes of the script, the script binds [ans_df] to
    [None], the appended lines read [to_json] from it, the child exits with
    status 1, and the response is a process failure whose error is what the
    interpreter printed for that AttributeError, not the error of the query.
    The selected files of the request play no part. *)
Theorem failed_query_is_reported_as_attribute_error :
  forall (DEFAULT_BUCKET : string)
         (storage_read_csv : string -> pyresult DataFrame)
         (python_syntax_error : string -> option string)
         (python_exec : string -> globals -> list stmt)
         (to_sql_error : string -> DataFrame -> option string)
         (read_sql_query :
            list (string * DataFrame) -> string -> pyresult DataFrame)
         (head_str : DataFrame -> string)
         (respelled_sql_script : string -> list stmt)
         (to_json : DataFrame -> pyresult string)
         (json_loads : string -> pyresult (list record))
         (print_exception : pyexn -> string)
         (undetermined : globals -> string -> run_outcome)
         (request : CodeExecutionRequest) (e : pyexn),
    x_language request = sql ->
    fits_triple_quotes (x_code request) = true ->
    read_sql_query (sqlite_tables storage_read_csv to_sql_error)
                   (x_code request) = Raise e ->
    let stderr :=
      print_exception
        (PyError "AttributeError"
                 "'NoneType' object has no attribute 'to_json'") in
    (exists out,
        subprocess_run to_json print_exception undetermined
          (sql_script storage_read_csv to_sql_error read_sql_query head_str
                      respelled_sql_script (x_code request))
        = Completed 1
            (out ++ "SQL execution error: " ++ str_exn e ++ PyStr.LF) stderr)
    /\ execute_code DEFAULT_BUCKET storage_read_csv python_syntax_error
                    python_exec to_sql_error read_sql_query head_str
                    respelled_sql_script to_json json_loads print_exception
                    undetermined None request
       = mk_exec_response false None
           (Some ("Code execution failed: " ++ stderr)).
Proof.
  intros DEFAULT_BUCKET storage_read_csv python_syntax_error python_exec
         to_sql_error read_sql_query head_str respelled_sql_script to_json
         json_loads print_exception undetermined request e Hlang Hfits Hquery
         stderr.
  destruct (sql_setup_run storage_read_csv to_sql_error (x_code request) []
              eq_refl)
    as (g & out & Hrun & Hwf & Hout & Ha & Hp & Hfree).
  rewrite !app_nil_r in Hrun.
  assert (Hsub :
            subprocess_run to_json print_exception undetermined
              (sql_script storage_read_csv to_sql_error read_sql_query head_str
                          respelled_sql_script (x_code request))
            = Completed 1
                (out ++ "SQL execution error: " ++ str_exn e ++ PyStr.LF)
                stderr).
  { unfold subprocess_run, sql_script, sql_statements. rewrite Hfits, Hquery.
    rewrite !app_assoc. rewrite run_stmts_app. rewrite <- !app_assoc.
    rewrite Hrun. cbn [run_stmts].
    apply epilogue_on_none.
    - now rewrite builtins_unbound_set by reflexivity.
    - rewrite dict_get_set_ne by discriminate. exact Hp.
    - apply dict_get_set_eq. }
  split; [exists out; exact Hsub|].
  unfold execute_code, execute_python_code_in_kernel. rewrite Hlang, Hsub.
  reflexivity.
Qed.

(** X16: when the query of an SQL request succeeds, its result is the
    designated result, whatever datasets were loaded. For a query text that
    stays as it is between the triple quotes of the script: when [to_json]
    writes the result, the child exits with status 0 and prints the JSON
    between the sentinels, and the response is what that JSON text parses
    and renders to, provided the sentinel texts occur neither in what was
    printed before (which includes the query itself and the first rows) nor,
    for the end sentinel, in the JSON; when [to_json] rejects the result, as
    for the repeated column labels of a join, the child exits with status 1
    and the response is a process failure. *)
Theorem query_result_is_the_table :
  forall (DEFAULT_BUCKET : string)
         (storage_read_csv : string -> pyresult DataFrame)
         (python_syntax_error : string -> option string)
         (python_exec : string -> globals -> list stmt)
         (to_sql_error : string -> DataFrame -> option string)
         (read_sql_query :
            list (string * DataFrame) -> string -> pyresult DataFrame)
         (head_str : DataFrame -> string)
         (respelled_sql_script : string -> list stmt)
         (to_json : DataFrame -> pyresult string)
         (json_loads : string -> pyresult (list record))
         (print_exception : pyexn -> string)
         (undetermined : globals -> string -> run_outcome)
         (request : CodeExecutionRequest) (result_df : DataFrame),
    x_language request = sql ->
    fits_triple_quotes (x_code request) = true ->
    read_sql_query (sqlite_tables storage_read_csv to_sql_error)
                   (x_code request) = Ok result_df ->
    let child :=
      subprocess_run to_json print_exception undetermined
        (sql_script storage_read_csv to_sql_error read_sql_query head_str
                    respelled_sql_script (x_code request)) in
    let response :=
      execute_code DEFAULT_BUCKET storage_read_csv python_syntax_error
                   python_exec to_sql_error read_sql_query head_str
                   respelled_sql_script to_json json_loads print_exception
                   undetermined None request in
    exists out,
      (forall json_text,
         to_json result_df = Ok json_text ->
         child = Completed 0 (out ++ framed json_text) EmptyString
         /\ (PyStr.contains SUCCESS_JSON_START out = false ->
             PyStr.contains SUCCESS_JSON_END out = false ->
             PyStr.contains SUCCESS_JSON_END json_text = false ->
             (forall data,
                json_loads (PyStr.strip (json_text ++ PyStr.LF)) = Ok data ->
                response
                = mk_exec_response true (Some (json_to_html_table data)) None)
             /\ (forall msg,
                   json_loads (PyStr.strip (json_text ++ PyStr.LF))
                   = Raise (PyError "JSONDecodeError" msg) ->
                   response
                   = mk_exec_response false None
                       (Some ("Failed to parse JSON result: " ++ msg)))))
      /\ (forall e,
            to_json result_df = Raise e ->
            child = Completed 1 out (print_exception e)
            /\ response
               = mk_exec_response false None
                   (Some ("Code execution failed: " ++ print_exception e))).
Proof.
  intros DEFAULT_BUCKET storage_read_csv python_syntax_error python_exec
         to_sql_error read_sql_query head_str respelled_sql_script to_json
         json_loads print_exception undetermined request result_df
         Hlang Hfits Hquery child response.
  set (before :=
         [ Assign "result_df" (ODataFrame result_df);
           PrintLine ("Query executed successfully. Result shape: "
                      ++ shape_str result_df);
           PrintLine (PyStr.LF ++ "First few rows:");
           PrintLine (head_str result_df) ]).
  destruct (sql_setup_run storage_read_csv to_sql_error (x_code request) before
              eq_refl)
    as (g & out & Hrun & Hwf & Hout & Ha & Hp & Hfree).
  set (g1 := dict_set g "ans_df" (ODataFrame result_df)).
  set (out1 := out ++ (PyStr.LF ++ "Result stored as 'ans_df'") ++ PyStr.LF).
  assert (Hchild : child
                   = epilogue to_json print_exception undetermined g1 out1).
  { unfold child, subprocess_run, sql_script, sql_statements.
    rewrite Hfits, Hquery.
    change [ Assign "result_df" (ODataFrame result_df);
             PrintLine ("Query executed successfully. Result shape: "
                        ++ shape_str result_df);
             PrintLine (PyStr.LF ++ "First few rows:");
             PrintLine (head_str result_df);
             Assign "ans_df" (ODataFrame result_df);
             PrintLine (PyStr.LF ++ "Result stored as 'ans_df'") ]
      with (before ++ [ Assign "ans_df" (ODataFrame result_df);
                        PrintLine (PyStr.LF ++ "Result stored as 'ans_df'") ])%list.
    rewrite !app_assoc. rewrite run_stmts_app. rewrite <- !app_assoc.
    rewrite Hrun. reflexivity. }
  assert (Hfree1 : builtins_unbound g1 = true)
    by (unfold g1; now rewrite builtins_unbound_set by reflexivity).
  assert (Hp1 : dict_get g1 "pd" = Some (OModule "pandas"))
    by (unfold g1; rewrite dict_get_set_ne by discriminate; exact Hp).
  assert (Ha1 : dict_get g1 "ans_df" = Some (ODataFrame result_df))
    by apply dict_get_set_eq.
  assert (Hresponse : response
                      = response_of (interpret_run json_loads child)).
  { unfold response, execute_code, execute_python_code_in_kernel.
    now rewrite Hlang. }
  exists out1. split.
  - intros json_text Hjson.
    assert (Hsub : child = Completed 0 (out1 ++ framed json_text) EmptyString).
    { rewrite Hchild. apply (epilogue_emits _ _ _ g1 out1 result_df);
        try assumption.
      now apply epilogue_globals_keeps_designated. }
    split; [exact Hsub|].
    intros Hs He Hj.
    assert (Hr : response
                 = response_of
                     (decode json_loads (PyStr.strip (json_text ++ PyStr.LF)))).
    { rewrite Hresponse, Hsub. f_equal.
      apply framed_output_extracted; try assumption.
      apply complete_lines_append_line. }
    rewrite Hr. apply response_of_decode.
  - intros e Hjson.
    assert (Hsub : child = Completed 1 out1 (print_exception e)).
    { rewrite Hchild. now apply (epilogue_on_rejected _ _ _ g1 out1 result_df). }
    split; [exact Hsub|]. rewrite Hresponse, Hsub. reflexivity.
Qed.

(** *** Python requests *)

Lemma run_harmless (prog : list stmt) (g : globals) (out : string) :
  forallb harmless prog = true ->
  dict_wf g -> PyStr.complete_lines out ->
  exists g' out',
    run_stmts prog g out = Finished g' out'
    /\ dict_wf g' /\ PyStr.complete_lines out'
    /\ dict_get g' "pd" = dict_get g "pd".
Proof.
  revert g out. induction prog as [|s prog IH]; intros g out Hall Hwf Hout.
  - exists g, out. repeat split; assumption.
  - cbn [forallb] in Hall. apply andb_true_iff in Hall as [Hs Hall].
    unfold harmless in Hs. rewrite !andb_true_iff in Hs.
    destruct Hs as [[Hp _] He].
    destruct s as [k v|line|tb|rc err|]; cbn [run_stmts]; try discriminate.
    + cbn [binds] in Hp. apply negb_true_iff, String.eqb_neq in Hp.
      destruct (IH (dict_set g k v) out Hall (dict_wf_set g k v Hwf) Hout)
        as (g' & out' & Hrun & Hwf' & Hout' & E).
      exists g', out'. rewrite Hrun, E.
      rewrite dict_get_set_ne by assumption. repeat split; assumption.
    + destruct (IH g (out ++ line ++ PyStr.LF) Hall Hwf
                   (complete_lines_append_line out line))
        as (g' & out' & Hrun & H).
      exists g', out'. split; assumption.
Qed.

(** A run of statements that bind no frame keeps the globals without a
    frame. *)
Lemma run_frameless (prog : list stmt) (g : globals) (out : string) :
  forallb (quiet "ans_df") prog = true ->
  dict_wf g -> PyStr.complete_lines out -> candidate_names g = [] ->
  exists g' out',
    run_stmts prog g out = Finished g' out'
    /\ dict_wf g' /\ PyStr.complete_lines out'
    /\ dict_get g' "ans_df" = dict_get g "ans_df"
    /\ dict_get g' "pd" = dict_get g "pd"
    /\ candidate_names g' = [].
Proof.
  revert g out. induction prog as [|s prog IH]; intros g out Hall Hwf Hout Hc.
  - exists g, out. repeat split; assumption.
  - cbn [forallb] in Hall. apply andb_true_iff in Hall as [Hs Hall].
    unfold quiet in Hs. apply andb_true_iff in Hs as [Hu Hq].
    destruct s as [k v|line|tb|rc err|]; cbn [run_stmts]; try discriminate.
    + apply untouched_assign in Hu as (Ha & Hp & _).
      assert (Hv : is_dataframe v = false)
        by (destruct v; cbn in Hq; [reflexivity..|discriminate|reflexivity]).
      assert (Hc' : candidate_names (dict_set g k v) = []).
      { rewrite candidate_names_set_other, Hc by assumption. reflexivity. }
      destruct (IH (dict_set g k v) out Hall (dict_wf_set g k v Hwf) Hout Hc')
        as (g' & out' & Hrun & Hwf' & Hout' & E1 & E2 & E3).
      exists g', out'. rewrite Hrun, E1, E2.
      rewrite !dict_get_set_ne by assumption. repeat split; assumption.
    + destruct (IH g (out ++ line ++ PyStr.LF) Hall Hwf
                   (complete_lines_append_line out line) Hc)
        as (g' & out' & Hrun & H).
      exists g', out'. split; assumption.
Qed.

(** The preamble of a Python request: it runs to its end, leaves [pd]
    bound to pandas, [ans_df] and the built-in names unbound, and prints
    complete lines. *)
Lemma python_preamble_run (storage_read_csv : string -> pyresult DataFrame) :
  exists g out,
    run_stmts (python_preamble storage_read_csv) [] EmptyString
    = Finished g out
    /\ dict_wf g /\ PyStr.complete_lines out
    /\ dict_get g "ans_df" = None
    /\ dict_get g "pd" = Some (OModule "pandas")
    /\ builtins_unbound g = true.
Proof.
  unfold python_preamble. cbn [app run_stmts].
  set (g0 := dict_set [] "pd" (OModule "pandas")).
  assert (Hwf : dict_wf g0) by (apply dict_wf_set; constructor).
  assert (Hall : forallb (untouched "ans_df")
                   (Assign "np" (OModule "numpy")
                    :: concat (map (load_stmts storage_read_csv)
                                   dataset_sources)) = true).
  { cbn [forallb].
    rewrite (loads_keep storage_read_csv "ans_df" dataset_sources
               dataset_sources_other_than_ans_df).
    reflexivity. }
  destruct (run_untouched "ans_df" _ g0 EmptyString Hall Hwf (or_introl eq_refl))
    as (g & out & Hrun & Hwf' & Hout & Ha & Hp & _).
  exists g, out. split; [exact Hrun|]. split; [exact Hwf'|].
  split; [exact Hout|]. split; [now rewrite Ha|]. split; [now rewrite Hp|].
  now rewrite (run_keeps_builtins _ g0 g EmptyString out
                 (untouched_spares_builtins "ans_df" _ Hall) Hrun).
Qed.

Lemma globals_after_finished (prog : list stmt) (g : globals) (out : string) :
  run_stmts prog [] EmptyString = Finished g out -> globals_after prog = g.
Proof. unfold globals_after. now intros ->. Qed.

(** X17: the designated result wins. When the script of a Python request
    compiles and its code binds [ans_df] to a frame that [to_json] writes,
    and no statement before it ends the run or rebinds [pd] or a built-in
    name of the appended lines, and none after it does so or rebinds
    [ans_df], that frame is the one printed between the sentinels with exit
    status 0, whatever other frames the code binds before or after; and the
    response is what its JSON parses and renders to, provided the sentinel
    texts occur only where the appended lines print them and the selected
    files map to identifiers. *)
Theorem designated_result_is_shown :
  forall (DEFAULT_BUCKET : string)
         (storage_read_csv : string -> pyresult DataFrame)
         (python_syntax_error : string -> option string)
         (python_exec : string -> globals -> list stmt)
         (to_sql_error : string -> DataFrame -> option string)
         (read_sql_query :
            list (string * DataFrame) -> string -> pyresult DataFrame)
         (head_str : DataFrame -> string)
         (respelled_sql_script : string -> list stmt)
         (to_json : DataFrame -> pyresult string)
         (json_loads : string -> pyresult (list record))
         (print_exception : pyexn -> string)
         (undetermined : globals -> string -> run_outcome)
         (request : CodeExecutionRequest) (u1 u2 : list stmt)
         (df : DataFrame) (json_text : string),
    x_language request = python ->
    python_syntax_error (x_code request) = None ->
    python_exec (x_code request)
                (globals_after (python_preamble storage_read_csv))
    = (u1 ++ Assign "ans_df" (ODataFrame df) :: u2)%list ->
    forallb harmless u1 = true ->
    forallb (untouched "ans_df") u2 = true ->
    to_json df = Ok json_text ->
    exists out,
      subprocess_run to_json print_exception undetermined
        (python_script storage_read_csv python_syntax_error python_exec
                       (x_code request))
      = Completed 0 (out ++ framed json_text) EmptyString
      /\ (PyStr.contains SUCCESS_JSON_START out = false ->
          PyStr.contains SUCCESS_JSON_END out = false ->
          PyStr.contains SUCCESS_JSON_END json_text = false ->
          (exists file_mapping,
              build_file_mapping DEFAULT_BUCKET (x_selected_files request) []
              = Ok file_mapping) ->
          let response :=
            execute_code DEFAULT_BUCKET storage_read_csv python_syntax_error
                         python_exec to_sql_error read_sql_query head_str
                         respelled_sql_script to_json json_loads
                         print_exception undetermined None request in
          (forall data,
             json_loads (PyStr.strip (json_text ++ PyStr.LF)) = Ok data ->
             response
             = mk_exec_response true (Some (json_to_html_table data)) None)
          /\ (forall msg,
                json_loads (PyStr.strip (json_text ++ PyStr.LF))
                = Raise (PyError "JSONDecodeError" msg) ->
                response
                = mk_exec_response false None
                    (Some ("Failed to parse JSON result: " ++ msg)))).
Proof.
  intros DEFAULT_BUCKET storage_read_csv python_syntax_error python_exec
         to_sql_error read_sql_query head_str respelled_sql_script to_json
         json_loads print_exception undetermined request u1 u2 df json_text
         Hlang Hsyntax Hexec Hu1 Hu2 Hjson.
  destruct (python_preamble_run storage_read_csv)
    as (g0 & out0 & Hpre & Hwf0 & Hout0 & _ & Hpd0 & Hfree0).
  destruct (run_harmless u1 g0 out0 Hu1 Hwf0 Hout0)
    as (g1 & out1 & Hrun1 & Hwf1 & Hout1 & Hpd1).
  destruct (run_untouched "ans_df" u2 (dict_set g1 "ans_df" (ODataFrame df))
              out1 Hu2 (dict_wf_set g1 _ _ Hwf1) Hout1)
    as (g & out & Hrun2 & Hwf & Hout & Hans & Hpd & _).
  assert (Hfree : builtins_unbound g = true).
  { rewrite (run_keeps_builtins u2 _ g out1 out
               (untouched_spares_builtins "ans_df" u2 Hu2) Hrun2).
    rewrite builtins_unbound_set by reflexivity.
    rewrite (run_keeps_builtins u1 g0 g1 out0 out1
               (harmless_spares_builtins u1 Hu1) Hrun1).
    exact Hfree0. }
  rewrite dict_get_set_eq in Hans.
  rewrite dict_get_set_ne, Hpd1, Hpd0 in Hpd by discriminate.
  assert (Hsub : subprocess_run to_json print_exception undetermined
                   (python_script storage_read_csv python_syntax_error
                                  python_exec (x_code request))
                 = Completed 0 (out ++ framed json_text) EmptyString).
  { unfold subprocess_run, python_script. rewrite Hsyntax, Hexec.
    rewrite run_stmts_app, Hpre, run_stmts_app, Hrun1. cbn [run_stmts].
    rewrite Hrun2. apply (epilogue_emits _ _ _ g out df); try assumption.
    now apply epilogue_globals_keeps_designated. }
  exists out. split; [exact Hsub|].
  intros Hs He Hj (file_mapping & Hmap) response.
  assert (Hr : response
               = response_of
                   (decode json_loads (PyStr.strip (json_text ++ PyStr.LF)))).
  { unfold response, execute_code, execute_python_code_in_kernel.
    rewrite Hlang, Hmap, Hsub. f_equal.
    now apply framed_output_extracted. }
  rewrite Hr. apply response_of_decode.
Qed.

Lemma other_datasets_are_not_status :
  forall s, In s (removelast dataset_sources) ->
    In s dataset_sources /\ fst (fst s) <> "status".
Proof.
  assert (H : forallb (fun s : string * string * string =>
                         negb (String.eqb (fst (fst s)) "status")
                         && existsb (fun s' => String.eqb (fst (fst s'))
                                                          (fst (fst s))
                                               && String.eqb (snd (fst s'))
                                                             (snd (fst s))
                                               && String.eqb (snd s') (snd s))
                                    dataset_sources)
                      (removelast dataset_sources) = true)
    by (vm_compute; reflexivity).
  rewrite forallb_forall in H. intros s Hs. specialize (H s Hs).
  apply andb_true_iff in H as [Hne Hin]. split.
  - apply existsb_exists in Hin as (s' & Hs' & E).
    apply andb_true_iff in E as [E E3]. apply andb_true_iff in E as [E1 E2].
    apply String.eqb_eq in E1, E2, E3.
    destruct s as [[a b] c], s' as [[a' b'] c']. cbn [fst snd] in *.
    now subst.
  - apply negb_true_iff in Hne. now apply String.eqb_neq.
Qed.

(** X18: code that defines no table still gets one. When the script of
    a Python request compiles, the last dataset of the preamble, [status],
    loads and [to_json] writes it, and the code neither binds a frame nor
    [ans_df], [pd], [status] or a built-in name of the appended lines, and
    does not end the run, the selection takes [status]: its JSON is printed
    between the sentinels with exit status 0, and under the usual provisos
    the response is the table of that dataset, reported as a success. *)
Theorem code_without_a_table_shows_the_last_dataset :
  forall (DEFAULT_BUCKET : string)
         (storage_read_csv : string -> pyresult DataFrame)
         (python_syntax_error : string -> option string)
         (python_exec : string -> globals -> list stmt)
         (to_sql_error : string -> DataFrame -> option string)
         (read_sql_query :
            list (string * DataFrame) -> string -> pyresult DataFrame)
         (head_str : DataFrame -> string)
         (respelled_sql_script : string -> list stmt)
         (to_json : DataFrame -> pyresult string)
         (json_loads : string -> pyresult (list record))
         (print_exception : pyexn -> string)
         (undetermined : globals -> string -> run_outcome)
         (request : CodeExecutionRequest) (status : DataFrame)
         (json_text : string),
    x_language request = python ->
    python_syntax_error (x_code request) = None ->
    storage_read_csv (sample_url "status.csv") = Ok status ->
    forallb (quiet "status")
            (python_exec (x_code request)
                         (globals_after (python_preamble storage_read_csv)))
    = true ->
    to_json status = Ok json_text ->
    exists out,
      subprocess_run to_json print_exception undetermined
        (python_script storage_read_csv python_syntax_error python_exec
                       (x_code request))
      = Completed 0 (out ++ framed json_text) EmptyString
      /\ (PyStr.contains SUCCESS_JSON_START out = false ->
          PyStr.contains SUCCESS_JSON_END out = false ->
          PyStr.contains SUCCESS_JSON_END json_text = false ->
          (exists file_mapping,
              build_file_mapping DEFAULT_BUCKET (x_selected_files request) []
              = Ok file_mapping) ->
          let response :=
            execute_code DEFAULT_BUCKET storage_read_csv python_syntax_error
                         python_exec to_sql_error read_sql_query head_str
                         respelled_sql_script to_json json_loads
                         print_exception undetermined None request in
          (forall data,
             json_loads (PyStr.strip (json_text ++ PyStr.LF)) = Ok data ->
             response
             = mk_exec_response true (Some (json_to_html_table data)) None)
          /\ (forall msg,
                json_loads (PyStr.strip (json_text ++ PyStr.LF))
                = Raise (PyError "JSONDecodeError" msg) ->
                response
                = mk_exec_response false None
                    (Some ("Failed to parse JSON result: " ++ msg)))).
Proof.
  intros DEFAULT_BUCKET storage_read_csv python_syntax_error python_exec
         to_sql_error read_sql_query head_str respelled_sql_script to_json
         json_loads print_exception undetermined request status json_text
         Hlang Hsyntax Hstatus Hquiet Hjson.
  set (user := python_exec (x_code request)
                 (globals_after (python_preamble storage_read_csv))) in *.
  assert (Hsplit : dataset_sources
                   = (removelast dataset_sources
                      ++ [("status", "sample bucket",
                           sample_url "status.csv")])%list)
    by reflexivity.
  set (others := removelast dataset_sources) in *.
  assert (Hpre : python_preamble storage_read_csv
                 = (Assign "pd" (OModule "pandas")
                    :: (Assign "np" (OModule "numpy")
                        :: concat (map (load_stmts storage_read_csv) others))
                    ++ [ Assign "status" (ODataFrame status);
                         PrintLine ("Loaded " ++ "status" ++ " from "
                                    ++ "sample bucket" ++ " with shape: "
                                    ++ shape_str status) ])%list).
  { unfold python_preamble. rewrite Hsplit at 1.
    rewrite map_app, concat_app. cbn [map concat load_stmts].
    rewrite Hstatus, app_nil_r. reflexivity. }
  set (g0 := dict_set [] "pd" (OModule "pandas")).
  assert (Hwf0 : dict_wf g0) by (apply dict_wf_set; constructor).
  assert (Hall : forallb (untouched "status")
                   (Assign "np" (OModule "numpy")
                    :: concat (map (load_stmts storage_read_csv) others))
                 = true).
  { cbn [forallb].
    rewrite (loads_keep storage_read_csv "status" others
               other_datasets_are_not_status).
    reflexivity. }
  destruct (run_untouched "status" _ g0 EmptyString Hall Hwf0
              (or_introl eq_refl))
    as (g1 & out1 & Hrun1 & Hwf1 & Hout1 & Ha1 & Hp1 & Hs1).
  set (g2 := dict_set g1 "status" (ODataFrame status)).
  set (out2 := out1 ++ ("Loaded " ++ "status" ++ " from " ++ "sample bucket"
                        ++ " with shape: " ++ shape_str status) ++ PyStr.LF).
  assert (Hrunpre : run_stmts (python_preamble storage_read_csv) []
                              EmptyString = Finished g2 out2).
  { rewrite Hpre. cbn [run_stmts]. fold g0. rewrite run_stmts_app, Hrun1.
    reflexivity. }
  assert (Hc2 : candidate_names g2 = (candidate_names g1 ++ ["status"])%list)
    by (apply candidate_names_set_fresh; rewrite Hs1; reflexivity).
  destruct (run_quiet "status" user g2 out2 _ Hquiet (dict_wf_set g1 _ _ Hwf1)
              (complete_lines_append_line out1 _) Hc2)
    as (g & out & c & Hrun & Hwf & Hout & Ha & Hp & Hs & Hc).
  assert (Hfree : builtins_unbound g = true).
  { rewrite (run_keeps_builtins user g2 g out2 out
               (untouched_spares_builtins "status" user
                  (quiet_untouched "status" user Hquiet)) Hrun).
    unfold g2. rewrite builtins_unbound_set by reflexivity.
    now rewrite (run_keeps_builtins _ g0 g1 EmptyString out1
                   (untouched_spares_builtins "status" _ Hall) Hrun1). }
  unfold g2 in Ha, Hp, Hs.
  rewrite dict_get_set_ne, Ha1 in Ha by discriminate.
  rewrite dict_get_set_ne, Hp1 in Hp by discriminate.
  rewrite dict_get_set_eq in Hs.
  assert (Hsub : subprocess_run to_json print_exception undetermined
                   (python_script storage_read_csv python_syntax_error
                                  python_exec (x_code request))
                 = Completed 0 (out ++ framed json_text) EmptyString).
  { unfold subprocess_run, python_script. rewrite Hsyntax. fold user.
    rewrite run_stmts_app, Hrunpre, Hrun.
    apply (epilogue_emits _ _ _ g out status); try assumption.
    apply (epilogue_globals_selects_last g c "status" status);
      try assumption; discriminate. }
  exists out. split; [exact Hsub|].
  intros Hst He Hj (file_mapping & Hmap) response.
  assert (Hr : response
               = response_of
                   (decode json_loads (PyStr.strip (json_text ++ PyStr.LF)))).
  { unfold response, execute_code, execute_python_code_in_kernel.
    rewrite Hlang, Hmap, Hsub. f_equal.
    now apply framed_output_extracted. }
  rewrite Hr. apply response_of_decode.
Qed.

Lemma failing_loads_bind_no_frame
    (storage_read_csv : string -> pyresult DataFrame)
    (sources : list (string * string * string)) :
  (forall s, In s sources -> In s dataset_sources) ->
  (forall s, In s sources -> exists e, storage_read_csv (snd s) = Raise e) ->
  forallb (quiet "ans_df")
          (concat (map (load_stmts storage_read_csv) sources)) = true.
Proof.
  intros Hin Hfail. rewrite forallb_concat. apply forallb_forall. intros l Hl.
  apply in_map_iff in Hl as (s & <- & Hs).
  destruct (Hfail s Hs) as [e He].
  destruct (dataset_sources_other_than_ans_df s (Hin s Hs)) as [_ Hne].
  pose proof (load_stmts_bind storage_read_csv "ans_df" s Hne (Hin s Hs))
    as Hkeep.
  destruct s as [[var_name place] url]. cbn [fst snd] in *.
  unfold load_stmts in *. rewrite He in *.
  cbn [forallb] in *. unfold quiet.
  rewrite !andb_true_iff in Hkeep. destruct Hkeep as (_ & Hu & _).
  rewrite Hu. reflexivity.
Qed.

(** X19: when the script of a Python request compiles, no dataset of the
    preamble loads, and the code binds no frame (nor [ans_df], [pd] or a
    built-in name of the appended lines) and does not end the run, there is
    nothing to select: the child prints "ERROR: No ans_df found" and exits
    with status 0, and, unless the start sentinel was printed by the code
    itself, the response is the failure "No valid result found in code
    output". *)
Theorem nothing_to_show_without_a_frame :
  forall (DEFAULT_BUCKET : string)
         (storage_read_csv : string -> pyresult DataFrame)
         (python_syntax_error : string -> option string)
         (python_exec : string -> globals -> list stmt)
         (to_sql_error : string -> DataFrame -> option string)
         (read_sql_query :
            list (string * DataFrame) -> string -> pyresult DataFrame)
         (head_str : DataFrame -> string)
         (respelled_sql_script : string -> list stmt)
         (to_json : DataFrame -> pyresult string)
         (json_loads : string -> pyresult (list record))
         (print_exception : pyexn -> string)
         (undetermined : globals -> string -> run_outcome)
         (request : CodeExecutionRequest),
    x_language request = python ->
    python_syntax_error (x_code request) = None ->
    (forall source, In source dataset_sources ->
       exists e, storage_read_csv (snd source) = Raise e) ->
    forallb (quiet "ans_df")
            (python_exec (x_code request)
                         (globals_after (python_preamble storage_read_csv)))
    = true ->
    exists out,
      subprocess_run to_json print_exception undetermined
        (python_script storage_read_csv python_syntax_error python_exec
                       (x_code request))
      = Completed 0 (out ++ "ERROR: No ans_df found" ++ PyStr.LF) EmptyString
      /\ (PyStr.contains SUCCESS_JSON_START out = false ->
          (exists file_mapping,
              build_file_mapping DEFAULT_BUCKET (x_selected_files request) []
              = Ok file_mapping) ->
          execute_code DEFAULT_BUCKET storage_read_csv python_syntax_error
                       python_exec to_sql_error read_sql_query head_str
                       respelled_sql_script to_json json_loads print_exception
                       undetermined None request
          = mk_exec_response false None
              (Some "No valid result found in code output")).
Proof.
  intros DEFAULT_BUCKET storage_read_csv python_syntax_error python_exec
         to_sql_error read_sql_query head_str respelled_sql_script to_json
         json_loads print_exception undetermined request
         Hlang Hsyntax Hfail Hquiet.
  set (user := python_exec (x_code request)
                 (globals_after (python_preamble storage_read_csv))) in *.
  set (g0 := dict_set [] "pd" (OModule "pandas")).
  assert (Hwf0 : dict_wf g0) by (apply dict_wf_set; constructor).
  assert (Hall : forallb (quiet "ans_df")
                   ((Assign "np" (OModule "numpy")
                     :: concat (map (load_stmts storage_read_csv)
                                    dataset_sources))
                    ++ user) = true).
  { rewrite forallb_app. cbn [forallb].
    rewrite (failing_loads_bind_no_frame storage_read_csv dataset_sources
               (fun s H => H) Hfail), Hquiet.
    reflexivity. }
  destruct (run_frameless _ g0 EmptyString Hall Hwf0 (or_introl eq_refl)
              eq_refl)
    as (g & out & Hrun & Hwf & Hout & Ha & Hp & Hc).
  assert (Hfree : builtins_unbound g = true)
    by now rewrite (run_keeps_builtins _ g0 g EmptyString out
                      (untouched_spares_builtins "ans_df" _
                         (quiet_untouched "ans_df" _ Hall)) Hrun).
  assert (Hsub : subprocess_run to_json print_exception undetermined
                   (python_script storage_read_csv python_syntax_error
                                  python_exec (x_code request))
                 = Completed 0 (out ++ "ERROR: No ans_df found" ++ PyStr.LF)
                             EmptyString).
  { assert (Hscript :
              python_script storage_read_csv python_syntax_error python_exec
                            (x_code request)
              = (Assign "pd" (OModule "pandas")
                 :: (Assign "np" (OModule "numpy")
                     :: concat (map (load_stmts storage_read_csv)
                                    dataset_sources))
                 ++ user)%list)
      by (unfold python_script; rewrite Hsyntax; reflexivity).
    unfold subprocess_run. rewrite Hscript.
    change (run_stmts (Assign "pd" (OModule "pandas") :: ?rest) [] EmptyString)
      with (run_stmts rest g0 EmptyString).
    rewrite Hrun. unfold epilogue, dict_mem.
    rewrite (builtins_unbound_get g "__builtins__" Hfree (or_introl eq_refl)).
    assert (Hcall : forall name go_on,
               In name builtin_names ->
               call_builtin print_exception undetermined name g out go_on
               = go_on)
      by (intros; now apply call_builtin_unbound).
    rewrite !Hcall by (unfold builtin_names; cbn [In]; tauto).
    rewrite Hp. cbn [g0 dict_set dict_get String.eqb Ascii.eqb Bool.eqb].
    cbv iota.
    rewrite ?Hcall by (unfold builtin_names; cbn [In]; tauto).
    assert (Hnone : dict_get (epilogue_globals g) "ans_df" = None).
    { unfold epilogue_globals.
      rewrite candidate_names_set_other, Hc by (assumption || reflexivity).
      cbn [List.filter auto_select].
      rewrite !dict_get_set_ne by discriminate. now rewrite Ha. }
    rewrite Hnone.
    now rewrite ?Hcall by (unfold builtin_names; cbn [In]; tauto). }
  exists out. split; [exact Hsub|].
  intros Hst (file_mapping & Hmap).
  unfold execute_code, execute_python_code_in_kernel.
  rewrite Hlang, Hmap, Hsub. unfold interpret_run. cbn [Z.eqb negb].
  rewrite (contains_after_lines SUCCESS_JSON_START out _ eq_refl)
    by (discriminate || assumption).
  rewrite Hst. reflexivity.
Qed.

(** *** The generation route *)

(** X20: the generation route never answers with an HTTP error. A missing
    API key and an empty selection raise 500 and 400 inside its [try], and
    its catch-all returns them in the body with [success = false] and the
    text "<status>: <detail>"; a file without a filename is reported the
    same way. When the hosted model fails on every prompt the route still
    answers [success = true]: the code it returns is the cleaned fallback
    print statement, and no error is set. *)
Theorem generation_reports_in_the_body :
  forall (DEFAULT_BUCKET : string) (key : option string)
         (generate_content : string -> string -> pyresult string)
         (request : CodeGenerationRequest),
    (api_key_missing key = true ->
     generate_code DEFAULT_BUCKET key generate_content request
     = mk_gen_response EmptyString false
         (Some "500: GEMINI_API_KEY not configured. Please set the environment variable."))
    /\ (api_key_missing key = false ->
        (g_selected_files request = [] ->
         generate_code DEFAULT_BUCKET key generate_content request
         = mk_gen_response EmptyString false
             (Some "400: No files selected for analysis"))
        /\ (forall file rest,
              g_selected_files request = file :: rest ->
              file !! "filename" = None ->
              generate_code DEFAULT_BUCKET key generate_content request
              = mk_gen_response EmptyString false (Some "'filename'"))
        /\ (forall file_mapping e,
              g_selected_files request <> [] ->
              build_file_mapping DEFAULT_BUCKET (g_selected_files request) []
              = Ok file_mapping ->
              (forall model prompt, generate_content model prompt = Raise e) ->
              generate_code DEFAULT_BUCKET key generate_content request
              = mk_gen_response
                  (_clean_response
                     ("print('Error generating code: "
                      ++ PyStr.replace_char "'"%char (PyStr.backslash ++ "'")
                                            (str_exn e)
                      ++ "')")
                     (g_language request))
                  true None)).
Proof.
  intros DEFAULT_BUCKET key generate_content request. split.
  { intros Hkey. unfold generate_code. now rewrite Hkey. }
  intros Hkey. split; [|split].
  - intros Hfiles. unfold generate_code. now rewrite Hkey, Hfiles.
  - intros file rest Hfiles Hname. unfold generate_code.
    rewrite Hkey, Hfiles. cbn [build_file_mapping]. unfold file_mapping_step.
    rewrite Hname. reflexivity.
  - intros file_mapping e Hfiles Hmap Hfail. unfold generate_code.
    rewrite Hkey. destruct (g_selected_files request) as [|file rest] eqn:E;
      [contradiction|].
    rewrite Hmap. unfold _generate_response. rewrite Hkey, Hfail.
    reflexivity.
Qed.

(** *** Identifiers of the selected files *)

Lemma identifier_char_fixed (c : ascii) :
  is_identifier_char c = true ->
  PyStr.lower_char (if is_alnum_ascii c then c else "_"%char) = c
  /\ Ascii.eqb c "."%char = false.
Proof. destruct c as [[] [] [] [] [] [] [] []]; vm_compute; intuition congruence. Qed.

Lemma identifier_fixed (s : string) :
  PyStr.all_chars is_identifier_char s = true ->
  PyStr.lower (re_sub_non_alnum s) = s /\ PyStr.split "." s = [s].
Proof.
  induction s as [|c s IH]; intros H; [split; reflexivity|].
  cbn [PyStr.all_chars] in H. apply andb_true_iff in H as [Hc Hs].
  destruct (identifier_char_fixed c Hc) as [Hl Hd].
  destruct (IH Hs) as [IH1 IH2]. split.
  - cbn [re_sub_non_alnum PyStr.lower]. now rewrite Hl, IH1.
  - cbn [PyStr.split]. now rewrite Hd, IH2.
Qed.

(** The text before the first dot. *)
Lemma stem_of_dotted (stem rest : string) :
  PyStr.all_chars (fun c => negb (Ascii.eqb c "."%char)) stem = true ->
  List.hd EmptyString (PyStr.split "." (stem ++ "." ++ rest)) = stem.
Proof.
  induction stem as [|c stem IH]; intros H.
  - reflexivity.
  - cbn [PyStr.all_chars] in H. apply andb_true_iff in H as [Hc Hs].
    apply negb_true_iff in Hc. rewrite append_cons. cbn [PyStr.split].
    rewrite Hc. specialize (IH Hs).
    destruct (PyStr.split "." (stem ++ "." ++ rest)) as [|w ws];
      cbn [List.hd] in *; now subst.
Qed.

Lemma stem_has_no_dot (s : string) :
  PyStr.all_chars (fun c => negb (Ascii.eqb c "."%char))
                  (List.hd EmptyString (PyStr.split "." s)) = true.
Proof.
  induction s as [|c s IH]; [reflexivity|]. cbn [PyStr.split].
  destruct (Ascii.eqb c "."%char) eqn:E; [reflexivity|].
  destruct (PyStr.split "." s) as [|w ws]; cbn [List.hd PyStr.all_chars] in *;
    rewrite E; [reflexivity|exact IH].
Qed.

(** X21: the identifier of a file depends only on the text before the
    first dot of its name, so two files that differ in what follows it get
    the same identifier; and the mapping is stable: an identifier it
    produced is not empty, is made of lowercase letters, digits and
    underscores, does not start with a digit, and is mapped to itself. *)
Theorem identifier_is_stable_and_ignores_the_extension :
  forall (filename name : string),
    variable_name_of filename = Ok name ->
    name <> EmptyString
    /\ PyStr.all_chars is_identifier_char name = true
    /\ PyStr.isdigit (List.hd "a"%char (list_ascii_of_string name)) = false
    /\ variable_name_of name = Ok name
    /\ (forall rest,
          variable_name_of
            (List.hd EmptyString (PyStr.split "." filename) ++ "." ++ rest)
          = Ok name).
Proof.
  intros filename name Hname.
  pose proof (variable_name_sanitized filename) as H. rewrite Hname in H.
  destruct H as (Hall & (c & rest & -> & Hd) & _).
  split; [discriminate|]. split; [exact Hall|]. split; [exact Hd|].
  destruct (identifier_fixed _ Hall) as [Hfix Hsplit]. split.
  - unfold variable_name_of. rewrite Hsplit. cbn [List.hd].
    rewrite Hfix. now rewrite Hd.
  - intros rest'. rewrite <- Hname. unfold variable_name_of.
    now rewrite (stem_of_dotted _ rest' (stem_has_no_dot filename)).
Qed.

(** *** The mapping of the selected files *)

Lemma dict_set_length {V : Type} (d : pydict V) (k : string) (v : V) :
  (List.length (dict_set d k v) <= S (List.length d))%nat.
Proof.
  induction d as [|[k0 v0] d IH]; cbn [dict_set List.length]; [lia|].
  destruct (String.eqb k0 k); cbn [List.length]; lia.
Qed.

Lemma file_mapping_step_inv (DEFAULT_BUCKET : string)
    (m m' : pydict mapping_entry) (file : file_info) :
  file_mapping_step DEFAULT_BUCKET m file = Ok m' ->
  exists filename v entry,
    file !! "filename" = Some filename
    /\ variable_name_of filename = Ok v
    /\ m_filename entry = filename
    /\ m' = dict_set m v entry.
Proof.
  unfold file_mapping_step.
  destruct (file !! "filename") as [filename|]; [|discriminate].
  unfold bind.
  destruct (variable_name_of filename) as [v|] eqn:Hv; [|discriminate].
  intros [= <-]. exists filename, v. eexists.
  split; [reflexivity|]. split; [exact Hv|]. split; [|reflexivity].
  reflexivity.
Qed.

Lemma build_file_mapping_app (DEFAULT_BUCKET : string)
    (l1 l2 : list file_info) (m : pydict mapping_entry) :
  build_file_mapping DEFAULT_BUCKET (l1 ++ l2) m
  = match build_file_mapping DEFAULT_BUCKET l1 m with
    | Ok m1 => build_file_mapping DEFAULT_BUCKET l2 m1
    | Raise e => Raise e
    end.
Proof.
  revert m. induction l1 as [|file l1 IH]; intros m; [reflexivity|].
  cbn [app build_file_mapping]. unfold bind.
  destruct (file_mapping_step DEFAULT_BUCKET m file); [apply IH|reflexivity].
Qed.

Lemma build_file_mapping_inv (DEFAULT_BUCKET : string)
    (files : list file_info) (m m' : pydict mapping_entry) :
  build_file_mapping DEFAULT_BUCKET files m = Ok m' ->
  (dict_wf m -> dict_wf m')
  /\ (List.length m' <= List.length m + List.length files)%nat
  /\ (forall v entry, dict_get m' v = Some entry ->
        dict_get m v = Some entry
        \/ exists file, In file files
                        /\ file !! "filename" = Some (m_filename entry)
                        /\ variable_name_of (m_filename entry) = Ok v)
  /\ (forall v,
        (forall file filename, In file files ->
           file !! "filename" = Some filename ->
           variable_name_of filename <> Ok v) ->
        dict_get m' v = dict_get m v).
Proof.
  revert m. induction files as [|file files IH]; intros m H.
  - cbn in H. injection H as <-. repeat split; auto. cbn. lia.
  - cbn [build_file_mapping] in H. unfold bind in H.
    destruct (file_mapping_step DEFAULT_BUCKET m file) as [m1|] eqn:E;
      [|discriminate].
    apply file_mapping_step_inv in E as (filename & v & entry & Hf & Hv & He & ->).
    destruct (IH _ H) as (Hwf & Hlen & Hfrom & Hkeep).
    split; [|split; [|split]].
    + intros Hm. apply Hwf. now apply dict_wf_set.
    + pose proof (dict_set_length m v entry). cbn [List.length]. lia.
    + intros v' entry' Hget. destruct (Hfrom v' entry' Hget) as [Hin|Hin].
      * destruct (String.eqb v v') eqn:Ev.
        -- apply String.eqb_eq in Ev. subst v'.
           rewrite dict_get_set_eq in Hin. injection Hin as <-.
           right. exists file. rewrite He. repeat split; [now left|assumption..].
        -- apply String.eqb_neq in Ev.
           rewrite dict_get_set_ne in Hin by assumption. now left.
      * destruct Hin as (file' & Hin & H1 & H2). right. exists file'.
        repeat split; [now right|assumption..].
    + intros v' Hnone. rewrite Hkeep.
      * apply dict_get_set_ne. intros ->.
        exact (Hnone file filename (or_introl eq_refl) Hf Hv).
      * intros file' fn Hin. apply Hnone. now right.
Qed.

(** X22: the mapping of the selected files holds one entry per
    identifier. Its keys are distinct and at most as many as the files;
    every entry comes from a selected file whose name maps to its key; and
    of the files that map to one identifier the last one wins: the entry of
    an identifier is that of the last selected file with it, so an earlier
    file of the same identifier is dropped without a notice. *)
Theorem file_mapping_keeps_the_last_file_of_an_identifier :
  forall (DEFAULT_BUCKET : string) (files : list file_info)
         (file_mapping : pydict mapping_entry),
    build_file_mapping DEFAULT_BUCKET files [] = Ok file_mapping ->
    dict_wf file_mapping
    /\ (List.length file_mapping <= List.length files)%nat
    /\ (forall v entry, dict_get file_mapping v = Some entry ->
          exists file, In file files
                       /\ file !! "filename" = Some (m_filename entry)
                       /\ variable_name_of (m_filename entry) = Ok v)
    /\ (forall earlier file later filename v,
          files = (earlier ++ file :: later)%list ->
          file !! "filename" = Some filename ->
          variable_name_of filename = Ok v ->
          (forall other other_name, In other later ->
             other !! "filename" = Some other_name ->
             variable_name_of other_name <> Ok v) ->
          exists entry,
            dict_get file_mapping v = Some entry
            /\ m_filename entry = filename).
Proof.
  intros DEFAULT_BUCKET files file_mapping H.
  destruct (build_file_mapping_inv _ _ _ _ H) as (Hwf & Hlen & Hfrom & _).
  split; [apply Hwf; constructor|]. split; [exact Hlen|]. split.
  - intros v entry Hget. destruct (Hfrom v entry Hget) as [Hin|Hin];
      [discriminate|exact Hin].
  - intros earlier file later filename v -> Hf Hv Hlater.
    rewrite build_file_mapping_app in H.
    destruct (build_file_mapping DEFAULT_BUCKET earlier []) as [m1|];
      [|discriminate].
    cbn [build_file_mapping] in H. unfold bind in H.
    destruct (file_mapping_step DEFAULT_BUCKET m1 file) as [m2|] eqn:E;
      [|discriminate].
    apply file_mapping_step_inv in E as (fn & v' & entry & Hf' & Hv' & He & ->).
    rewrite Hf in Hf'. injection Hf' as <-. rewrite Hv in Hv'.
    injection Hv' as <-.
    destruct (build_file_mapping_inv _ _ _ _ H) as (_ & _ & _ & Hkeep).
    exists entry. split; [|exact He].
    rewrite (Hkeep v Hlater). apply dict_get_set_eq.
Qed.

(** *** Cleaning a response *)

Lemma startswith_cons (c d : ascii) (pat s : string) :
  PyStr.startswith (String c pat) (String d s)
  = Ascii.eqb c d && PyStr.startswith pat s.
Proof. reflexivity. Qed.

Lemma startswith_shorter (p q s : string) :
  PyStr.startswith (p ++ q) s = true -> PyStr.startswith p s = true.
Proof.
  revert s. induction p as [|c p IH]; intros s H; [reflexivity|].
  rewrite append_cons in H. destruct s as [|d s]; [discriminate|].
  rewrite startswith_cons in *. apply andb_true_iff in H as [Hc H].
  now rewrite Hc, (IH s H).
Qed.

Lemma startswith_longer_text (p a t : string) :
  PyStr.startswith p a = true -> PyStr.startswith p (a ++ t) = true.
Proof.
  revert a. induction p as [|c p IH]; intros a H; [reflexivity|].
  destruct a as [|d a]; [discriminate|]. rewrite append_cons.
  rewrite startswith_cons in *. apply andb_true_iff in H as [Hc H].
  now rewrite Hc, (IH a H).
Qed.

Lemma contains_tail (p : string) (c : ascii) (s : string) :
  PyStr.contains p (String c s) = false -> PyStr.contains p s = false.
Proof. rewrite contains_cons. now intros H%orb_false_iff. Qed.

Lemma contains_head (p : string) (c : ascii) (s : string) :
  PyStr.contains p (String c s) = false ->
  PyStr.startswith p (String c s) = false.
Proof. rewrite contains_cons. now intros H%orb_false_iff. Qed.

Lemma contains_shorter (p q s : string) :
  PyStr.contains p s = false -> PyStr.contains (p ++ q) s = false.
Proof.
  induction s as [|c s IH]; intros H.
  - destruct p as [|d p]; [discriminate|]. rewrite append_cons. reflexivity.
  - rewrite contains_cons. rewrite (IH (contains_tail _ _ _ H)), orb_false_r.
    apply contains_head in H.
    destruct (PyStr.startswith (p ++ q) (String c s)) eqn:E; [|reflexivity].
    apply startswith_shorter in E. congruence.
Qed.

Lemma contains_prefix (p a t : string) :
  PyStr.contains p (a ++ t) = false -> PyStr.contains p a = false.
Proof.
  induction a as [|c a IH]; intros H.
  - destruct p as [|d p]; [|reflexivity].
    rewrite append_empty in H. destruct t; discriminate.
  - rewrite append_cons in H. rewrite contains_cons.
    rewrite (IH (contains_tail _ _ _ H)), orb_false_r.
    apply contains_head in H.
    destruct (PyStr.startswith p (String c a)) eqn:E; [|reflexivity].
    apply (startswith_longer_text p (String c a) t) in E.
    rewrite append_cons in E. congruence.
Qed.

(** What [lstrip] and [rstrip] leave. *)
Lemma lstrip_keeps_absent (p s : string) :
  PyStr.contains p s = false -> PyStr.contains p (PyStr.lstrip s) = false.
Proof.
  induction s as [|c s IH]; intros H; [exact H|]. cbn [PyStr.lstrip].
  destruct (PyStr.isspace c); [|exact H]. apply IH. exact (contains_tail _ _ _ H).
Qed.

Lemma rstrip_is_prefix (s : string) : exists t, s = PyStr.rstrip s ++ t.
Proof.
  induction s as [|c s [t IH]]; [now exists EmptyString|].
  cbn [PyStr.rstrip]. destruct (PyStr.rstrip s) as [|d r] eqn:E.
  - destruct (PyStr.isspace c).
    + exists (String c s). reflexivity.
    + exists s. reflexivity.
  - exists t. rewrite !append_cons. rewrite <- append_cons. now rewrite <- IH.
Qed.

Lemma rstrip_keeps_absent (p s : string) :
  PyStr.contains p s = false -> PyStr.contains p (PyStr.rstrip s) = false.
Proof.
  intros H. destruct (rstrip_is_prefix s) as [t Ht]. rewrite Ht in H.
  exact (contains_prefix _ _ _ H).
Qed.

Lemma rstrip_rstrip (s : string) :
  PyStr.rstrip (PyStr.rstrip s) = PyStr.rstrip s.
Proof.
  induction s as [|c s IH]; [reflexivity|]. cbn [PyStr.rstrip].
  destruct (PyStr.rstrip s) as [|d r] eqn:E.
  - destruct (PyStr.isspace c) eqn:Hc; [reflexivity|].
    cbn [PyStr.rstrip]. now rewrite Hc.
  - cbn [PyStr.rstrip] in *. now rewrite IH.
Qed.

Lemma lstrip_head (s : string) :
  PyStr.lstrip s = EmptyString
  \/ exists c rest, PyStr.lstrip s = String c rest /\ PyStr.isspace c = false.
Proof.
  induction s as [|c s IH]; [now left|]. cbn [PyStr.lstrip].
  destruct (PyStr.isspace c) eqn:E; [exact IH|]. right. now exists c, s.
Qed.

Lemma strip_strip (s : string) : PyStr.strip (PyStr.strip s) = PyStr.strip s.
Proof.
  unfold PyStr.strip.
  assert (H : PyStr.lstrip (PyStr.rstrip (PyStr.lstrip s))
              = PyStr.rstrip (PyStr.lstrip s)).
  { destruct (lstrip_head s) as [->|(c & rest & -> & Hc)]; [reflexivity|].
    cbn [PyStr.rstrip]. destruct (PyStr.rstrip rest); rewrite ?Hc;
      cbn [PyStr.lstrip]; now rewrite Hc. }
  rewrite H. apply rstrip_rstrip.
Qed.

Lemma drop_length_le (n : nat) (s : string) :
  (String.length (PyStr.drop n s) <= String.length s)%nat.
Proof.
  revert s. induction n as [|n IH]; intros s; [cbn; lia|].
  destruct s as [|c s]; cbn [PyStr.drop String.length]; [lia|].
  specialize (IH s). lia.
Qed.

(** Removing the fences. *)
Lemma replace_keeps_ticks (fuel : nat) (s : string) :
  (PyStr.startswith "`" (PyStr.replace_fuel fuel "```" EmptyString s) = true ->
   PyStr.startswith "`" s = true)
  /\ (PyStr.startswith "``" (PyStr.replace_fuel fuel "```" EmptyString s) = true ->
      PyStr.startswith "``" s = true).
Proof.
  revert s. induction fuel as [|fuel IH]; intros s; [split; auto|].
  destruct s as [|c s]; [split; discriminate|].
  cbn [PyStr.replace_fuel].
  destruct (PyStr.startswith "```" (String c s)) eqn:E.
  - split; intros _.
    + exact (startswith_shorter "`" "``" _ E).
    + exact (startswith_shorter "``" "`" _ E).
  - split; intros H; rewrite startswith_cons in H;
      apply andb_true_iff in H as [Hc H]; rewrite startswith_cons, Hc;
      [reflexivity|].
    cbn [andb]. exact (proj1 (IH s) H).
Qed.

Lemma replace_removes_fences (fuel : nat) (s : string) :
  (String.length s <= fuel)%nat ->
  PyStr.contains "```" (PyStr.replace_fuel fuel "```" EmptyString s) = false.
Proof.
  revert s. induction fuel as [|fuel IH]; intros s Hlen.
  - destruct s; [reflexivity|cbn in Hlen; lia].
  - destruct s as [|c s]; [reflexivity|]. cbn [PyStr.replace_fuel].
    destruct (PyStr.startswith "```" (String c s)) eqn:E.
    + rewrite append_empty. apply IH.
      change (PyStr.drop (String.length "```") (String c s))
        with (PyStr.drop 2 s).
      pose proof (drop_length_le 2 s). cbn [String.length] in Hlen. lia.
    + rewrite contains_cons, IH by (cbn in Hlen; lia).
      rewrite orb_false_r.
      destruct (PyStr.startswith "```"
                  (String c (PyStr.replace_fuel fuel "```" EmptyString s)))
        eqn:F; [|reflexivity].
      rewrite startswith_cons in F. apply andb_true_iff in F as [Hc F].
      apply (proj2 (replace_keeps_ticks fuel s)) in F.
      rewrite startswith_cons, Hc, F in E. discriminate.
Qed.

Lemma replace_absent (fuel : nat) (p s : string) :
  PyStr.contains p s = false ->
  PyStr.replace_fuel fuel p EmptyString s = s.
Proof.
  revert s. induction fuel as [|fuel IH]; intros s H; [reflexivity|].
  destruct s as [|c s]; [reflexivity|]. cbn [PyStr.replace_fuel].
  rewrite (contains_head _ _ _ H), (IH s (contains_tail _ _ _ H)).
  reflexivity.
Qed.

(** X23: a cleaned response holds no Markdown fence and no white space
    at its ends, whatever the model wrote and whatever the language; and a
    text that is already so is returned as it is. *)
Theorem cleaned_response_has_no_fence :
  forall (text : string) (lang : language),
    PyStr.contains "```" (_clean_response text lang) = false
    /\ PyStr.strip (_clean_response text lang) = _clean_response text lang
    /\ (PyStr.contains "```" text = false -> PyStr.strip text = text ->
        _clean_response text lang = text).
Proof.
  intros text lang. unfold _clean_response. split; [|split].
  - unfold PyStr.strip at 1. apply rstrip_keeps_absent, lstrip_keeps_absent.
    unfold PyStr.replace at 1. apply replace_removes_fences. lia.
  - apply strip_strip.
  - intros Hfence Hstrip. rewrite Hstrip.
    assert (H1 : PyStr.replace ("```" ++ language_str lang) EmptyString text
                 = text).
    { unfold PyStr.replace. destruct lang; apply replace_absent;
        exact (contains_shorter "```" _ text Hfence). }
    rewrite H1.
    assert (H2 : PyStr.replace "```python" EmptyString text = text).
    { unfold PyStr.replace. apply replace_absent.
      exact (contains_shorter "```" "python" text Hfence). }
    rewrite H2.
    assert (H3 : PyStr.replace "```sql" EmptyString text = text).
    { unfold PyStr.replace. apply replace_absent.
      exact (contains_shorter "```" "sql" text Hfence). }
    rewrite H3.
    assert (H4 : PyStr.replace "```" EmptyString text = text).
    { unfold PyStr.replace. now apply replace_absent. }
    rewrite H4. exact Hstrip.
Qed.

(** *** The download helper *)

(** X24: the download helper reports every failure as a plain exception
    whose message starts with "Failed to download <file> from <bucket>: ",
    the HTTP error of a client without credentials and its own "not found"
    included, and never changes the store. When the object is there it
    returns [True] with the object's bytes written at the local path. *)
Theorem download_reports_every_failure_as_exception :
  forall (bucket_name file_name local_path : string)
         (local_files : gmap string string) (p : Storage.provider),
    let answer :=
      download_file_from_gcs bucket_name file_name local_path local_files p in
    Storage.state_of answer = p
    /\ (forall e, Storage.result_of answer = Raise e ->
          exists cause,
            e = PyError "Exception"
                  ("Failed to download " ++ file_name ++ " from "
                   ++ bucket_name ++ ": " ++ cause))
    /\ (forall msg, Storage.credentials_error p = Some msg ->
          Storage.result_of answer
          = Raise (PyError "Exception"
                     ("Failed to download " ++ file_name ++ " from "
                      ++ bucket_name ++ ": "
                      ++ "500: Failed to initialize GCS client: " ++ msg)))
    /\ (Storage.credentials_error p = None -> Storage.outage p = None ->
        (Storage.lookup_blob p bucket_name file_name = None ->
         Storage.result_of answer
         = Raise (PyError "Exception"
                    ("Failed to download " ++ file_name ++ " from "
                     ++ bucket_name ++ ": " ++ "File " ++ file_name
                     ++ " not found in bucket " ++ bucket_name)))
        /\ (forall b, Storage.lookup_blob p bucket_name file_name = Some b ->
              Storage.result_of answer
              = Ok (true, <[local_path := Storage.blob_bytes b]> local_files))).
Proof.
  intros bucket_name file_name local_path local_files p answer.
  unfold answer, download_file_from_gcs, get_gcs_client, Storage.state_of,
    Storage.result_of, Storage.gcs_bind, Storage.blob_exists,
    Storage.blob_download_as_bytes, Storage.api, Storage.gcs_raise,
    Storage.gcs_ret.
  destruct (Storage.credentials_error p) as [msg|] eqn:Hc.
  { cbn. split; [reflexivity|]. split.
    - intros e [= <-]. eexists. reflexivity.
    - split; [|discriminate]. intros msg' [= <-]. reflexivity. }
  destruct (Storage.outage p) as [down|] eqn:Ho.
  { cbn. rewrite ?Ho. cbn. split; [reflexivity|]. split.
    - intros e [= <-]. eexists. reflexivity.
    - split; [discriminate|]. discriminate. }
  cbn. rewrite ?Ho.
  destruct (Storage.lookup_blob p bucket_name file_name) as [b|] eqn:Hl.
  - cbn. rewrite ?Ho, ?Hl. cbn. split; [reflexivity|]. split; [discriminate|].
    split; [discriminate|]. intros _ _. split; [discriminate|].
    intros b' [= <-]. reflexivity.
  - cbn. split; [reflexivity|]. split.
    + intros e [= <-]. eexists. reflexivity.
    + split; [discriminate|]. intros _ _. split; [|discriminate].
      intros _. reflexivity.
Qed.

(** *** Instances on the sample child *)

(** The instance for a query bridge that rejects every query. *)
Lemma failed_query_is_reported_as_attribute_error_witness :
  let request := mk_exec_request "SELECT * FROM nowhere" sql [] in
  let stderr := Samples.sample_print_exception (none_has_no "to_json") in
  (exists out,
      subprocess_run Samples.sample_to_json Samples.sample_print_exception
        Samples.sample_undetermined
        (sql_script Samples.sample_storage_read_csv Samples.sample_to_sql_error
                    Samples.sample_read_sql_query Samples.sample_head_str
                    Samples.sample_respelled_sql_script (x_code request))
      = Completed 1
          (out ++ "SQL execution error: " ++ "Execution failed on sql"
           ++ PyStr.LF)
          stderr)
  /\ execute_code "uploads" Samples.sample_storage_read_csv
                  Samples.sample_python_syntax_error
                  Samples.sample_python_exec Samples.sample_to_sql_error
                  Samples.sample_read_sql_query Samples.sample_head_str
                  Samples.sample_respelled_sql_script
                  Samples.sample_to_json Samples.sample_json_loads
                  Samples.sample_print_exception Samples.sample_undetermined
                  None request
     = mk_exec_response false None (Some ("Code execution failed: " ++ stderr)).
Proof.
  intros request stderr.
  assert (Hfits : fits_triple_quotes (x_code request) = true)
    by (vm_compute; reflexivity).
  exact (failed_query_is_reported_as_attribute_error
           "uploads" Samples.sample_storage_read_csv
           Samples.sample_python_syntax_error
           Samples.sample_python_exec Samples.sample_to_sql_error
           Samples.sample_read_sql_query Samples.sample_head_str
           Samples.sample_respelled_sql_script
           Samples.sample_to_json Samples.sample_json_loads
           Samples.sample_print_exception Samples.sample_undetermined request
           (PyError "DatabaseError" "Execution failed on sql")
           eq_refl Hfits eq_refl).
Defined.

(** The instances: for a query bridge that answers with two rows the
    response is their table; for one that answers with the columns of a
    join, which carry the label [id] twice, it is a process failure. *)
Lemma query_result_is_the_table_witness :
  let request := mk_exec_request "SELECT * FROM circuits LIMIT 2" sql [] in
  let result_df := head 2 Samples.sample_frame in
  let respond read_sql_query :=
    execute_code "uploads" Samples.sample_storage_read_csv
                 Samples.sample_python_syntax_error
                 Samples.sample_python_exec Samples.sample_to_sql_error
                 read_sql_query Samples.sample_head_str
                 Samples.sample_respelled_sql_script
                 Samples.sample_to_json Samples.sample_json_loads
                 Samples.sample_print_exception Samples.sample_undetermined
                 None request in
  (exists out,
      subprocess_run Samples.sample_to_json Samples.sample_print_exception
        Samples.sample_undetermined
        (sql_script Samples.sample_storage_read_csv Samples.sample_to_sql_error
                    Samples.first_table_read_sql_query Samples.sample_head_str
                    Samples.sample_respelled_sql_script (x_code request))
      = Completed 0 (out ++ framed (Samples.json_text_of result_df))
                  EmptyString)
  /\ respond Samples.first_table_read_sql_query
     = mk_exec_response true
         (Some (json_to_html_table (to_dict_records result_df))) None
  /\ respond Samples.joining_read_sql_query
     = mk_exec_response false None
         (Some ("Code execution failed: "
                ++ Samples.sample_print_exception
                     (PyError "ValueError"
                        "DataFrame columns must be unique for orient='records'."))).
Proof.
  intros request result_df respond.
  assert (Hfits : fits_triple_quotes (x_code request) = true)
    by (vm_compute; reflexivity).
  assert (Hquery : Samples.first_table_read_sql_query
                     (sqlite_tables Samples.sample_storage_read_csv
                                    Samples.sample_to_sql_error)
                     (x_code request) = Ok result_df)
    by (vm_compute; reflexivity).
  assert (Hjoin : Samples.joining_read_sql_query
                    (sqlite_tables Samples.sample_storage_read_csv
                                   Samples.sample_to_sql_error)
                    (x_code request) = Ok Samples.joined_frame)
    by reflexivity.
  split.
  - destruct (query_result_is_the_table
                "uploads" Samples.sample_storage_read_csv
                Samples.sample_python_syntax_error
                Samples.sample_python_exec Samples.sample_to_sql_error
                Samples.first_table_read_sql_query Samples.sample_head_str
                Samples.sample_respelled_sql_script
                Samples.sample_to_json Samples.sample_json_loads
                Samples.sample_print_exception Samples.sample_undetermined
                request result_df eq_refl Hfits Hquery)
      as (out & Hok & _).
    destruct (Hok (Samples.json_text_of result_df) eq_refl) as (Hchild & _).
    exists out. exact Hchild.
  - split; [vm_compute; reflexivity|].
    destruct (query_result_is_the_table
                "uploads" Samples.sample_storage_read_csv
                Samples.sample_python_syntax_error
                Samples.sample_python_exec Samples.sample_to_sql_error
                Samples.joining_read_sql_query Samples.sample_head_str
                Samples.sample_respelled_sql_script
                Samples.sample_to_json Samples.sample_json_loads
                Samples.sample_print_exception Samples.sample_undetermined
                request Samples.joined_frame eq_refl Hfits Hjoin)
      as (out & _ & Hbad).
    exact (proj2 (Hbad _ eq_refl)).
Defined.

(** The instance for a source that binds [ans_df] between two other
    frames: the response is the table of [ans_df]. *)
Lemma designated_result_is_shown_witness :
  let request := mk_exec_request Samples.designated_code python [] in
  let df := head 2 Samples.sample_frame in
  (exists out,
      subprocess_run Samples.sample_to_json Samples.sample_print_exception
        Samples.sample_undetermined
        (python_script Samples.sample_storage_read_csv
                       Samples.sample_python_syntax_error
                       Samples.more_python_exec (x_code request))
      = Completed 0 (out ++ framed (Samples.json_text_of df)) EmptyString)
  /\ execute_code "uploads" Samples.sample_storage_read_csv
                  Samples.sample_python_syntax_error
                  Samples.more_python_exec Samples.sample_to_sql_error
                  Samples.sample_read_sql_query Samples.sample_head_str
                  Samples.sample_respelled_sql_script
                  Samples.sample_to_json Samples.sample_json_loads
                  Samples.sample_print_exception Samples.sample_undetermined
                  None request
     = mk_exec_response true (Some (json_to_html_table (to_dict_records df)))
                        None.
Proof.
  intros request df.
  assert (Hexec :
            Samples.more_python_exec (x_code request)
              (globals_after (python_preamble Samples.sample_storage_read_csv))
            = ([Assign "scratch" (ODataFrame Samples.sample_frame)]
               ++ Assign "ans_df" (ODataFrame df)
                  :: [Assign "later" (ODataFrame Samples.sample_frame)])%list)
    by (vm_compute; reflexivity).
  split; [|vm_compute; reflexivity].
  destruct (designated_result_is_shown
              "uploads" Samples.sample_storage_read_csv
              Samples.sample_python_syntax_error Samples.more_python_exec
              Samples.sample_to_sql_error Samples.sample_read_sql_query
              Samples.sample_head_str Samples.sample_respelled_sql_script
              Samples.sample_to_json Samples.sample_json_loads
              Samples.sample_print_exception Samples.sample_undetermined
              request _ _ df (Samples.json_text_of df)
              eq_refl eq_refl Hexec eq_refl eq_refl eq_refl)
    as (out & Hsub & _).
  exists out. exact Hsub.
Defined.

(** The instance for a source that only prints: the response is the
    table of the [status] dataset. *)
Lemma code_without_a_table_shows_the_last_dataset_witness :
  let request := mk_exec_request Samples.printing_code python [] in
  (exists out,
      subprocess_run Samples.sample_to_json Samples.sample_print_exception
        Samples.sample_undetermined
        (python_script Samples.sample_storage_read_csv
                       Samples.sample_python_syntax_error
                       Samples.more_python_exec (x_code request))
      = Completed 0 (out ++ framed (Samples.json_text_of Samples.sample_frame))
                  EmptyString)
  /\ execute_code "uploads" Samples.sample_storage_read_csv
                  Samples.sample_python_syntax_error
                  Samples.more_python_exec Samples.sample_to_sql_error
                  Samples.sample_read_sql_query Samples.sample_head_str
                  Samples.sample_respelled_sql_script
                  Samples.sample_to_json Samples.sample_json_loads
                  Samples.sample_print_exception Samples.sample_undetermined
                  None request
     = mk_exec_response true
         (Some (json_to_html_table (to_dict_records Samples.sample_frame)))
         None.
Proof.
  intros request.
  assert (Hquiet :
            forallb (quiet "status")
                    (Samples.more_python_exec (x_code request)
                       (globals_after
                          (python_preamble Samples.sample_storage_read_csv)))
            = true) by (vm_compute; reflexivity).
  split; [|vm_compute; reflexivity].
  destruct (code_without_a_table_shows_the_last_dataset
              "uploads" Samples.sample_storage_read_csv
              Samples.sample_python_syntax_error Samples.more_python_exec
              Samples.sample_to_sql_error Samples.sample_read_sql_query
              Samples.sample_head_str Samples.sample_respelled_sql_script
              Samples.sample_to_json Samples.sample_json_loads
              Samples.sample_print_exception Samples.sample_undetermined
              request Samples.sample_frame
              (Samples.json_text_of Samples.sample_frame)
              eq_refl eq_refl eq_refl Hquiet eq_refl)
    as (out & Hsub & _).
  exists out. exact Hsub.
Defined.

(** The instance for a store from which no dataset can be read and a
    source that only prints. *)
Lemma nothing_to_show_without_a_frame_witness :
  let request := mk_exec_request Samples.printing_code python [] in
  (exists out,
      subprocess_run Samples.sample_to_json Samples.sample_print_exception
        Samples.sample_undetermined
        (python_script Samples.failing_storage_read_csv
                       Samples.sample_python_syntax_error
                       Samples.more_python_exec (x_code request))
      = Completed 0 (out ++ "ERROR: No ans_df found" ++ PyStr.LF) EmptyString)
  /\ execute_code "uploads" Samples.failing_storage_read_csv
                  Samples.sample_python_syntax_error
                  Samples.more_python_exec Samples.sample_to_sql_error
                  Samples.sample_read_sql_query Samples.sample_head_str
                  Samples.sample_respelled_sql_script
                  Samples.sample_to_json Samples.sample_json_loads
                  Samples.sample_print_exception Samples.sample_undetermined
                  None request
     = mk_exec_response false None
         (Some "No valid result found in code output").
Proof.
  intros request.
  assert (Hfail : forall source, In source dataset_sources ->
                    exists e, Samples.failing_storage_read_csv (snd source)
                              = Raise e)
    by (intros source _; eexists; reflexivity).
  assert (Hquiet :
            forallb (quiet "ans_df")
                    (Samples.more_python_exec (x_code request)
                       (globals_after
                          (python_preamble Samples.failing_storage_read_csv)))
            = true) by (vm_compute; reflexivity).
  split; [|vm_compute; reflexivity].
  destruct (nothing_to_show_without_a_frame
              "uploads" Samples.failing_storage_read_csv
              Samples.sample_python_syntax_error Samples.more_python_exec
              Samples.sample_to_sql_error Samples.sample_read_sql_query
              Samples.sample_head_str Samples.sample_respelled_sql_script
              Samples.sample_to_json Samples.sample_json_loads
              Samples.sample_print_exception Samples.sample_undetermined
              request eq_refl eq_refl Hfail Hquiet)
    as (out & Hsub & _).
  exists out. exact Hsub.
Defined.

(** The instances: no API key, no selected file, and a hosted model
    that fails. *)
Lemma generation_reports_in_the_body_witness :
  generate_code "uploads" None Samples.failing_generate_content
                (mk_gen_request "Which driver won most races?" python
                                Samples.colliding_files)
  = mk_gen_response EmptyString false
      (Some "500: GEMINI_API_KEY not configured. Please set the environment variable.")
  /\ generate_code "uploads" (Some "key") Samples.failing_generate_content
                   (mk_gen_request "Which driver won most races?" python [])
     = mk_gen_response EmptyString false
         (Some "400: No files selected for analysis")
  /\ r_success
       (generate_code "uploads" (Some "key") Samples.failing_generate_content
                      (mk_gen_request "Which driver won most races?" python
                                      Samples.colliding_files))
     = true.
Proof.
  assert (Hkey : api_key_missing (Some "key") = false) by reflexivity.
  assert (Hmap : build_file_mapping "uploads" Samples.colliding_files []
                 = Ok [("sales_data",
                        mk_entry "sales_data.json" "open-data" "public")])
    by (vm_compute; reflexivity).
  assert (Hfiles : Samples.colliding_files <> []) by discriminate.
  split; [|split].
  - apply (generation_reports_in_the_body
             "uploads" None Samples.failing_generate_content). reflexivity.
  - apply (proj2 (generation_reports_in_the_body
                    "uploads" (Some "key") Samples.failing_generate_content
                    (mk_gen_request "Which driver won most races?" python []))
                 Hkey).
    reflexivity.
  - rewrite (proj2 (proj2 (proj2 (generation_reports_in_the_body
                "uploads" (Some "key") Samples.failing_generate_content
                (mk_gen_request "Which driver won most races?" python
                                Samples.colliding_files)) Hkey))
              _ (PyError "InvalidArgument" Samples.two_line_message)
              Hfiles Hmap (fun _ _ => eq_refl)).
    reflexivity.
Defined.

(** The instance for [Sales Data.2024.csv]: its identifier is
    [sales_data], which maps to itself, and [Sales Data.json] has it too. *)
Lemma identifier_is_stable_and_ignores_the_extension_witness :
  variable_name_of "Sales Data.2024.csv" = Ok "sales_data"
  /\ variable_name_of "sales_data" = Ok "sales_data"
  /\ variable_name_of
       (List.hd EmptyString (PyStr.split "." "Sales Data.2024.csv")
        ++ "." ++ "json")
     = Ok "sales_data".
Proof.
  assert (Hname : variable_name_of "Sales Data.2024.csv" = Ok "sales_data")
    by (vm_compute; reflexivity).
  destruct (identifier_is_stable_and_ignores_the_extension
              "Sales Data.2024.csv" "sales_data" Hname)
    as (_ & _ & _ & Hstable & Hrest).
  split; [exact Hname|]. split; [exact Hstable|]. apply Hrest.
Defined.

(** The instance for two files of the identifier [sales_data]: the
    mapping holds the second one. *)
Lemma file_mapping_keeps_the_last_file_of_an_identifier_witness :
  build_file_mapping "uploads" Samples.colliding_files []
  = Ok [("sales_data", mk_entry "sales_data.json" "open-data" "public")]
  /\ exists entry,
       dict_get [("sales_data", mk_entry "sales_data.json" "open-data" "public")]
                "sales_data" = Some entry
       /\ m_filename entry = "sales_data.json".
Proof.
  assert (Hmap : build_file_mapping "uploads" Samples.colliding_files []
                 = Ok [("sales_data",
                        mk_entry "sales_data.json" "open-data" "public")])
    by (vm_compute; reflexivity).
  split; [exact Hmap|].
  destruct (file_mapping_keeps_the_last_file_of_an_identifier
              "uploads" Samples.colliding_files _ Hmap)
    as (_ & _ & _ & Hlast).
  apply (Hlast [ {[ "filename" := "Sales Data.csv" ]} ]
               (<[ "source" := "public" ]>
                  (<[ "bucket" := "open-data" ]>
                     {[ "filename" := "sales_data.json" ]}))
               [] "sales_data.json" "sales_data").
  - reflexivity.
  - vm_compute. reflexivity.
  - vm_compute. reflexivity.
  - intros other other_name [].
Defined.

(** The instances: a fenced response is reduced to its code, and the
    code is returned as it is. *)
Lemma cleaned_response_has_no_fence_witness :
  _clean_response Samples.fenced_response python = "ans_df = races.head(5)"
  /\ _clean_response "ans_df = races.head(5)" python
     = "ans_df = races.head(5)".
Proof.
  split; [vm_compute; reflexivity|].
  apply (cleaned_response_has_no_fence "ans_df = races.head(5)" python);
    vm_compute; reflexivity.
Defined.

(** The instances for the sample store: a file that is there, one that
    is not, and a client without credentials. *)
Lemma download_reports_every_failure_as_exception_witness :
  Storage.result_of
    (download_file_from_gcs "uploads" "notes.txt" "/tmp/notes.txt" ∅
                            Samples.sample_provider)
  = Ok (true, {[ "/tmp/notes.txt" := "hello" ]})
  /\ Storage.result_of
       (download_file_from_gcs "uploads" "absent.csv" "/tmp/absent.csv" ∅
                               Samples.sample_provider)
     = Raise (PyError "Exception"
                ("Failed to download " ++ "absent.csv" ++ " from " ++ "uploads"
                 ++ ": " ++ "File " ++ "absent.csv" ++ " not found in bucket "
                 ++ "uploads"))
  /\ Storage.result_of
       (download_file_from_gcs "uploads" "notes.txt" "/tmp/notes.txt" ∅
                               Samples.provider_without_credentials)
     = Raise (PyError "Exception"
                ("Failed to download " ++ "notes.txt" ++ " from " ++ "uploads"
                 ++ ": " ++ "500: Failed to initialize GCS client: "
                 ++ "Your default credentials were not found.")).
Proof.
  assert (Hc : Storage.credentials_error Samples.sample_provider = None)
    by reflexivity.
  assert (Ho : Storage.outage Samples.sample_provider = None) by reflexivity.
  assert (Hl : Storage.lookup_blob Samples.sample_provider "uploads" "notes.txt"
               = Some (Samples.sample_blob "hello"))
    by (vm_compute; reflexivity).
  assert (Habsent : Storage.lookup_blob Samples.sample_provider "uploads"
                                        "absent.csv" = None)
    by (vm_compute; reflexivity).
  destruct (download_reports_every_failure_as_exception
              "uploads" "notes.txt" "/tmp/notes.txt" ∅ Samples.sample_provider)
    as (_ & _ & _ & Hfound).
  destruct (download_reports_every_failure_as_exception
              "uploads" "absent.csv" "/tmp/absent.csv" ∅
              Samples.sample_provider)
    as (_ & _ & _ & Hmissing).
  destruct (download_reports_every_failure_as_exception
              "uploads" "notes.txt" "/tmp/notes.txt" ∅
              Samples.provider_without_credentials)
    as (_ & _ & Hcred & _).
  split; [|split].
  - exact (proj2 (Hfound Hc Ho) _ Hl).
  - exact (proj1 (Hmissing Hc Ho) Habsent).
  - apply Hcred. reflexivity.
Defined.

End CodeGenFacts.

(** ** Application setup *)

Module AppFacts.

Import App CodeGenProps.

(** X25: the allowed origins are the four listed in the source followed
    by the one of the environment, each once and in that order: an origin
    of the environment that is already listed is not added again, and
    without the environment variable the list is the four listed ones. *)
Theorem allowed_origins_are_listed_once :
  forall (FRONTEND_URL : option string),
    let url := default "http://localhost:3000" FRONTEND_URL in
    List.NoDup (origins FRONTEND_URL)
    /\ (forall o, In o (origins FRONTEND_URL)
                  <-> In o listed_origins \/ o = url)
    /\ (In url listed_origins -> origins FRONTEND_URL = listed_origins)
    /\ (~ In url listed_origins ->
        origins FRONTEND_URL = (listed_origins ++ [url])%list)
    /\ origins None = listed_origins.
Proof.
  intros FRONTEND_URL url.
  assert (Hkeys : dict_keys (fromkeys listed_origins) = listed_origins)
    by reflexivity.
  assert (Hwf : dict_wf (fromkeys listed_origins)).
  { unfold dict_wf. rewrite Hkeys.
    repeat constructor; cbn; intuition discriminate. }
  assert (Horigins : origins FRONTEND_URL
                     = dict_keys (dict_set (fromkeys listed_origins) url tt)).
  { unfold origins, fromkeys. fold url. now rewrite fold_left_app. }
  assert (Hcase : (In url listed_origins
                   /\ origins FRONTEND_URL = listed_origins)
                  \/ (~ In url listed_origins
                      /\ origins FRONTEND_URL = (listed_origins ++ [url])%list)).
  { rewrite Horigins, dict_keys_set, Hkeys. unfold dict_mem.
    destruct (dict_get (fromkeys listed_origins) url) eqn:E.
    - left. split; [|reflexivity].
      destruct (in_dec string_dec url listed_origins) as [Hin|Hout];
        [exact Hin|].
      rewrite <- Hkeys in Hout. apply dict_get_none_keys in Hout. congruence.
    - right. split; [|reflexivity]. rewrite <- Hkeys.
      now apply dict_get_none_keys. }
  split; [|split; [|split; [|split]]].
  - rewrite Horigins. apply dict_wf_set. exact Hwf.
  - intros o. destruct Hcase as [[Hin ->]|[Hout ->]].
    + split; [now left|]. intros [H| ->]; assumption.
    + rewrite in_app_iff. cbn [In]. intuition auto.
  - intros Hin. destruct Hcase as [[_ H]|[Hout _]]; [exact H|contradiction].
  - intros Hout. destruct Hcase as [[Hin _]|[_ H]]; [contradiction|exact H].
  - reflexivity.
Qed.

(** The instances: an origin of the environment that is listed, and one
    that is not. *)
Lemma allowed_origins_are_listed_once_witness :
  origins (Some "http://localhost:8080") = listed_origins
  /\ origins (Some "https://app.example.com")
     = (listed_origins ++ ["https://app.example.com"])%list.
Proof.
  destruct (allowed_origins_are_listed_once (Some "http://localhost:8080"))
    as (_ & _ & Hlisted & _).
  destruct (allowed_origins_are_listed_once (Some "https://app.example.com"))
    as (_ & _ & _ & Hadded & _).
  split.
  - apply Hlisted. right. left. reflexivity.
  - apply Hadded. cbn. intuition discriminate.
Defined.

End AppFacts.
